(** * Real-time monitoring of cauldron levels and tickets

    A shallow embedding of [src/utils/realtimeMonitoring.ts]
    (the reconciliation and anomaly detection engine) and the
    properties its specification states about it.

    Conventions of the embedding.
    - A JavaScript [number] is an exact rational ([Q]); rounding of
      IEEE doubles is not modelled.  Numeric results are compared with
      [==] ([Qeq]).
    - A [Date], and a timestamp string given to [new Date(...)], is its
      epoch time in milliseconds ([Z]).  A [string | null] field that
      the code tests with [!x] is an [option string] ([None] for
      [null]); a ticket date is [None] when it is [null] or empty.
    - [d.toISOString().split('T')[0]] is the UTC calendar day of [d];
      it is modelled by the number of that day, [ms / 86400000]
      (two instants have the same date string iff they have the same
      day number).
    - The free text of an alert ([message], [reason], [action]) is
      presentation and is left out; its id, type, severity, vessel,
      timestamp and the numeric entries of [details] are kept.
    - [DrainEvent] objects are shared between [drainEvents] and
      [activeDrains] and are mutated in place: they live in a store
      ([drainStore]) and both containers hold references into it. *)

From Stdlib Require Import Ascii String QArith Qabs Lqa Sorted.
From stdpp Require Import gmap strings list fin_maps pretty.

Local Open Scope Q_scope.

(** ** JavaScript numbers *)

Module Js.

(** [a < b] and [a <= b] on numbers. *)
Definition ltb (a b : Q) : bool := negb (Qle_bool b a).
Definition leb (a b : Q) : bool := Qle_bool a b.
(** [a === b] on numbers. *)
Definition eqb (a b : Q) : bool := Qeq_bool a b.
(** [!a]: a number is falsy when it is zero. *)
Definition falsy (a : Q) : bool := Qeq_bool a 0.
(** [a || b] on numbers. *)
Definition orElse (a b : Q) : Q := if falsy a then b else a.
(** [m.get(k) || b] and [obj[k] || b]: [undefined] is falsy too. *)
Definition getOr (o : option Q) (b : Q) : Q :=
    match o with Some a => orElse a b | None => b end.
(** [!s] on a [string | null]. *)
Definition noString (o : option string) : bool :=
    match o with
    | None => true
    | Some s => if decide (s = EmptyString) then true else false
    end.
(** [a === b] for a [string | null] against a [string]. *)
Definition isString (o : option string) (s : string) : bool :=
    match o with
    | Some s' => if decide (s' = s) then true else false
    | None => false
    end.
(** Milliseconds to minutes: [ms / (1000 * 60)]. *)
Definition minutes (ms : Z) : Q := inject_Z ms / inject_Z (1000 * 60).

End Js.

(** ** Data transfer objects ([src/types/api.ts]) *)

Record CauldronDto := {
  c_id : option string;
  c_name : option string;
  max_volume : Q
}.

Record HistoricalDataDto := {
  h_timestamp : Z;
  cauldron_levels : gmap string Q
}.

Record TicketDto := {
  ticket_id : option string;
  t_cauldron_id : option string;
  amount_collected : Q;
  t_courier_id : option string;
  t_date : option Z
}.

Record CourierDto := {
  courier_id : option string
}.

Record EdgeDto := {
  e_from : option string;
  e_to : option string;
  travel_time_minutes : Q
}.

Record NetworkDto := {
  edges : option (list EdgeDto)
}.

(** ** Engine data *)

Inductive AlertType :=
  | overreporting | unlogged_drain | false_ticket | unlogged_event
  | clogged_flow | production_stop | delivery_delay | critical_level
  | drift | overflow | audit.

Inductive Severity := info | warning | critical.

#[global] Instance AlertType_eq_dec : EqDecision AlertType.
Proof. solve_decision. Defined.
#[global] Instance Severity_eq_dec : EqDecision Severity.
Proof. solve_decision. Defined.

(** The numeric entries of [details], one shape per alert family. *)
Inductive Details :=
  | DiscrepancyDetails (expectedDrainVolume reportedVolume discrepancy : Q)
  | DriftDetails (discrepancyCount : Q)
  | CloggedDetails (refillRate : option Q) (baselineFillRate : Q)
  | FalseTicketDetails (ticketId : option string) (ticketAmount : Q)
  | ProductionStopDetails (duration currentLevel : Q)
  | OverflowDetails (timeToOverflow currentLevel maxVolume : Q)
  | CriticalLevelDetails (currentLevel maxVolume : Q)
  | AuditDetails (totalExpected totalTicketed discrepancyPercent : Q)
  | DelayDetails (courierId : string) (delayMinutes : Q).

Record Alert := {
  a_id : string;
  a_type : AlertType;
  a_severity : Severity;
  a_cauldronId : option string;
  a_cauldronName : option string;
  a_timestamp : Z;
  a_details : Details
}.

Record DrainEvent := {
  cauldronId : string;
  d_timestamp : Z;
  levelBefore : Q;
  levelAfter : Q;
  expectedDrainVolume : Q;
  duration : Q;
  refillRate : option Q;
  isActive : bool
}.

(** A reference to a [DrainEvent] object: its position in the store. *)
Definition DrainRef := nat.

Record MonitoringState := {
  fillRates : gmap string Q;
  baselineFillRates : gmap string Q;
  lastLevels : gmap string Q;
  drainStore : list DrainEvent;
  drainEvents : list DrainRef;
  dailyDrains : gmap string (gmap Z Q);
  dailyTickets : gmap string (gmap Z (list TicketDto));
  discrepancyCounts : gmap string Q;
  overflowForecasts : gmap string Q;
  activeDrains : gmap string DrainRef;
  lastStableTime : gmap string Z;
  acknowledgedAlerts : gset string;
  criticalLevelAlerts : gset string
}.

Definition TOLERANCE : Q := 2.
Definition DRAIN_STABILIZATION_TIME : Q := 5.
Definition PRODUCTION_STOP_THRESHOLD : Q := 1 # 10.
Definition PRODUCTION_STOP_DURATION : Q := 30.

(** ** Level keys

    [`cauldron_${id.split('_').pop()?.padStart(3, '0') || '001'}`] *)

Fixpoint lastSegmentAux (s cur : string) : string :=
  match s with
  | EmptyString => cur
  | String c s' =>
      if Ascii.eqb c "_"%char then lastSegmentAux s' EmptyString
      else lastSegmentAux s' (cur +:+ String c EmptyString)
  end.

(** [id.split('_').pop()] *)
Definition lastSegment (s : string) : string := lastSegmentAux s EmptyString.

Fixpoint zeros (n : nat) : string :=
  match n with O => EmptyString | S n' => String "0"%char (zeros n') end.

(** [s.padStart(3, '0')] *)
Definition padStart3 (s : string) : string :=
  zeros (3 - String.length s) +:+ s.

Definition levelKey (id : string) : string :=
  let seg := padStart3 (lastSegment id) in
  "cauldron_" +:+ (if decide (seg = EmptyString) then "001" else seg).

(** [(data.cauldron_levels as any)[key] || 0] *)
Definition levelOf (key : string) (data : HistoricalDataDto) : Q :=
  Js.getOr (cauldron_levels data !! key) 0.

(** ** Sorting

    [Array.prototype.sort] is stable; with a comparator [(a, b) =>
    key a - key b] its result is the stable sort by [key], which is
    what the insertion sort below computes. *)

Section Sort.
Context {A : Type} (key : A → Q).

Fixpoint insertSorted (x : A) (l : list A) : list A :=
    match l with
    | [] => [x]
    | y :: l' =>
        if Js.leb (key x) (key y) then x :: y :: l'
        else y :: insertSorted x l'
    end.

Fixpoint sortBy (l : list A) : list A :=
    match l with
    | [] => []
    | x :: l' => insertSorted x (sortBy l')
    end.
End Sort.

(** ** 1. Core metrics *)

(** The loop of [calculateFillRate] from index [i] on: [prev] is
    [historicalData[i - 1]], [rest] starts at [historicalData[i]] and
    [slopes] is [positiveSlopes] so far. *)
Fixpoint collectSlopes (key : string) (cutoffTime : Z)
    (prev : HistoricalDataDto) (rest : list HistoricalDataDto)
    (slopes : list Q) : list Q :=
  match rest with
  | [] => slopes
  | curr :: rest' =>
      let dataTime := h_timestamp curr in
      if (dataTime <? cutoffTime)%Z then
        collectSlopes key cutoffTime curr rest' slopes
      else
        let prevLevel := levelOf key prev in
        let currLevel := levelOf key curr in
        let timeDiff := Js.minutes (dataTime - h_timestamp prev) in
        if Js.ltb 0 timeDiff && Js.ltb prevLevel currLevel then
          collectSlopes key cutoffTime curr rest'
            (slopes ++ [(currLevel - prevLevel) / timeDiff])
        else collectSlopes key cutoffTime curr rest' slopes
  end.

(** The median of an ascending array, as the last lines of
    [calculateFillRate] compute it. *)
Definition medianOfSorted (sorted : list Q) : Q :=
  let mid := (length sorted / 2)%nat in
  if (length sorted mod 2 =? 0)%nat then
    (nth (mid - 1) sorted 0 + nth mid sorted 0) / 2
  else nth mid sorted 0.

Definition calculateFillRate (cauldronId : string)
    (historicalData : list HistoricalDataDto) (lookbackMinutes : Z) : Q :=
  if (length historicalData <? 2)%nat then 0
  else
    let cauldronKey := levelKey cauldronId in
    let currentTime := from_option h_timestamp 0%Z (last historicalData) in
    let cutoffTime := (currentTime - lookbackMinutes * 60 * 1000)%Z in
    match historicalData with
    | [] => 0
    | first :: rest =>
        let positiveSlopes := collectSlopes cauldronKey cutoffTime first rest [] in
        if (length positiveSlopes =? 0)%nat then 0
        else medianOfSorted (sortBy id positiveSlopes)
    end.

Definition calculateExpectedDrainVolume
    (levelBefore levelAfter fillRate durationMinutes : Q) : Q :=
  let levelDrop := levelBefore - levelAfter in
  let fillDuringDrain := fillRate * durationMinutes in
  levelDrop + fillDuringDrain.

(** ** Rule A: drain detection *)

Definition detectDrainStart (cauldron : CauldronDto)
    (previousLevel currentLevel : Q) : bool :=
  if Js.noString (c_id cauldron) || Js.falsy (max_volume cauldron) then false
  else
    let drop := previousLevel - currentLevel in
    let threshold := (5 # 100) * max_volume cauldron in
    Js.ltb threshold drop && Js.ltb 0 drop.

(** ** Ticket matching *)

Definition MS_PER_DAY : Z := 86400000.
Definition TWO_HOURS_MS : Z := 2 * 60 * 60 * 1000.

(** The calendar day of [toISOString().split('T')[0]]. *)
Definition dayOf (ms : Z) : Z := (ms / MS_PER_DAY)%Z.

(** The predicate given to [tickets.filter] in [matchTicketToDrain]. *)
Definition ticketMatches (drainEvent : DrainEvent) (t : TicketDto) : bool :=
  match t_date t with
  | None => false
  | Some ticketTime =>
      if negb (Js.isString (t_cauldron_id t) (cauldronId drainEvent)) then false
      else if negb (dayOf ticketTime =? dayOf (d_timestamp drainEvent))%Z then false
      else (Z.abs (ticketTime - d_timestamp drainEvent) <=? TWO_HOURS_MS)%Z
  end.

(** [Math.abs(new Date(t.date!).getTime() - drainTime)], the sort key. *)
Definition ticketDistance (drainTime : Z) (t : TicketDto) : Q :=
  match t_date t with
  | Some ticketTime => inject_Z (Z.abs (ticketTime - drainTime))
  | None => 0
  end.

Definition matchTicketToDrain (drainEvent : DrainEvent)
    (tickets : list TicketDto) : option TicketDto :=
  let matchingTickets := List.filter (ticketMatches drainEvent) tickets in
  head (sortBy (ticketDistance (d_timestamp drainEvent)) matchingTickets).

(** ** 3. Discrepancy assessment *)

Record Discrepancy := {
  dType : AlertType;
  dSeverity : Severity
}.

Definition assessDiscrepancy (drainEvent : DrainEvent)
    (ticket : option TicketDto) (tolerance : Q) : option Discrepancy :=
  let expected := expectedDrainVolume drainEvent in
  match ticket with
  | None => Some {| dType := unlogged_event; dSeverity := critical |}
  | Some ticket =>
      let reported := Js.orElse (amount_collected ticket) 0 in
      let diff := reported - expected in
      if Js.ltb tolerance diff then
        Some {| dType := overreporting; dSeverity := warning |}
      else if Js.ltb diff (- tolerance) then
        Some {| dType := unlogged_drain; dSeverity := critical |}
      else None
  end.

(** Case C: a ticket with no drain on its day within two hours. *)
Definition checkFalseTicket (ticket : TicketDto)
    (recentDrains : list DrainEvent) : bool :=
  match t_date ticket with
  | None => true
  | Some ticketTime =>
      negb (existsb (λ drain,
        (dayOf (d_timestamp drain) =? dayOf ticketTime)%Z
        && (Z.abs (ticketTime - d_timestamp drain) <=? TWO_HOURS_MS)%Z)
        recentDrains)
  end.

(** Case E: abnormal fill recovery. *)
Definition detectCloggedFlow (drainEvent : DrainEvent)
    (baselineFillRate : Q) : bool :=
  match refillRate drainEvent with
  | None => false
  | Some r =>
      if Js.falsy r || Js.eqb baselineFillRate 0 then false
      else Js.ltb r ((1 # 2) * baselineFillRate)
  end.

(** Case G: production stop; the result is [(isStopped, duration)]. *)
Definition detectProductionStop (currentLevel previousLevel timeDiff fillRate : Q)
    (lastStable : option Z) (currentTimestamp : Z) : bool * Q :=
  let levelChange := currentLevel - previousLevel in
  let currentRate := if Js.ltb 0 timeDiff then levelChange / timeDiff else 0 in
  if Js.ltb currentRate PRODUCTION_STOP_THRESHOLD && Js.ltb 0 fillRate then
    let stableTime := default currentTimestamp lastStable in
    let duration := Js.minutes (currentTimestamp - stableTime) in
    (Js.ltb PRODUCTION_STOP_DURATION duration, duration)
  else (false, 0).

(** Case H: the result is [(exceedsThreshold, discrepancyPercent)]. *)
Definition checkDailyDiscrepancy (totalExpected totalTicketed threshold : Q)
    : bool * Q :=
  if Js.eqb totalExpected 0 then (false, 0)
  else
    let discrepancyPercent :=
      (Qabs (totalExpected - totalTicketed) / totalExpected) * 100 in
    (Js.ltb threshold discrepancyPercent, discrepancyPercent).

(** ** 4. Delivery integrity; the result is [(isDelayed, delayMinutes)]. *)
Definition checkDeliveryDelay (ticket : TicketDto) (network : option NetworkDto)
    (currentTimestamp : Z) : option (bool * Q) :=
  match network ≫= edges, t_date ticket with
  | Some es, Some ticketTime =>
      if Js.noString (t_cauldron_id ticket) then None
      else
        let timeSinceTicket := Js.minutes (currentTimestamp - ticketTime) in
        match List.find (λ e,
                bool_decide (e_from e = t_cauldron_id ticket)) es with
        | None => None
        | Some edge =>
            if Js.falsy (travel_time_minutes edge) then None
            else
              let expectedTravelTime := travel_time_minutes edge in
              let delayThreshold := expectedTravelTime * (13 # 10) in
              if Js.ltb delayThreshold timeSinceTicket then
                Some (true, timeSinceTicket - expectedTravelTime)
              else Some (false, 0)
        end
  | _, _ => None
  end.

(** Field updates of the state record ([updatedState.f = v]). *)

Definition with_fillRates v (st : MonitoringState) : MonitoringState :=
  {| fillRates := v;
     baselineFillRates := baselineFillRates st;
     lastLevels := lastLevels st;
     drainStore := drainStore st;
     drainEvents := drainEvents st;
     dailyDrains := dailyDrains st;
     dailyTickets := dailyTickets st;
     discrepancyCounts := discrepancyCounts st;
     overflowForecasts := overflowForecasts st;
     activeDrains := activeDrains st;
     lastStableTime := lastStableTime st;
     acknowledgedAlerts := acknowledgedAlerts st;
     criticalLevelAlerts := criticalLevelAlerts st |}.

Definition with_baselineFillRates v (st : MonitoringState) : MonitoringState :=
  {| fillRates := fillRates st;
     baselineFillRates := v;
     lastLevels := lastLevels st;
     drainStore := drainStore st;
     drainEvents := drainEvents st;
     dailyDrains := dailyDrains st;
     dailyTickets := dailyTickets st;
     discrepancyCounts := discrepancyCounts st;
     overflowForecasts := overflowForecasts st;
     activeDrains := activeDrains st;
     lastStableTime := lastStableTime st;
     acknowledgedAlerts := acknowledgedAlerts st;
     criticalLevelAlerts := criticalLevelAlerts st |}.

Definition with_lastLevels v (st : MonitoringState) : MonitoringState :=
  {| fillRates := fillRates st;
     baselineFillRates := baselineFillRates st;
     lastLevels := v;
     drainStore := drainStore st;
     drainEvents := drainEvents st;
     dailyDrains := dailyDrains st;
     dailyTickets := dailyTickets st;
     discrepancyCounts := discrepancyCounts st;
     overflowForecasts := overflowForecasts st;
     activeDrains := activeDrains st;
     lastStableTime := lastStableTime st;
     acknowledgedAlerts := acknowledgedAlerts st;
     criticalLevelAlerts := criticalLevelAlerts st |}.

Definition with_drainStore v (st : MonitoringState) : MonitoringState :=
  {| fillRates := fillRates st;
     baselineFillRates := baselineFillRates st;
     lastLevels := lastLevels st;
     drainStore := v;
     drainEvents := drainEvents st;
     dailyDrains := dailyDrains st;
     dailyTickets := dailyTickets st;
     discrepancyCounts := discrepancyCounts st;
     overflowForecasts := overflowForecasts st;
     activeDrains := activeDrains st;
     lastStableTime := lastStableTime st;
     acknowledgedAlerts := acknowledgedAlerts st;
     criticalLevelAlerts := criticalLevelAlerts st |}.

Definition with_drainEvents v (st : MonitoringState) : MonitoringState :=
  {| fillRates := fillRates st;
     baselineFillRates := baselineFillRates st;
     lastLevels := lastLevels st;
     drainStore := drainStore st;
     drainEvents := v;
     dailyDrains := dailyDrains st;
     dailyTickets := dailyTickets st;
     discrepancyCounts := discrepancyCounts st;
     overflowForecasts := overflowForecasts st;
     activeDrains := activeDrains st;
     lastStableTime := lastStableTime st;
     acknowledgedAlerts := acknowledgedAlerts st;
     criticalLevelAlerts := criticalLevelAlerts st |}.

Definition with_dailyDrains v (st : MonitoringState) : MonitoringState :=
  {| fillRates := fillRates st;
     baselineFillRates := baselineFillRates st;
     lastLevels := lastLevels st;
     drainStore := drainStore st;
     drainEvents := drainEvents st;
     dailyDrains := v;
     dailyTickets := dailyTickets st;
     discrepancyCounts := discrepancyCounts st;
     overflowForecasts := overflowForecasts st;
     activeDrains := activeDrains st;
     lastStableTime := lastStableTime st;
     acknowledgedAlerts := acknowledgedAlerts st;
     criticalLevelAlerts := criticalLevelAlerts st |}.

Definition with_dailyTickets v (st : MonitoringState) : MonitoringState :=
  {| fillRates := fillRates st;
     baselineFillRates := baselineFillRates st;
     lastLevels := lastLevels st;
     drainStore := drainStore st;
     drainEvents := drainEvents st;
     dailyDrains := dailyDrains st;
     dailyTickets := v;
     discrepancyCounts := discrepancyCounts st;
     overflowForecasts := overflowForecasts st;
     activeDrains := activeDrains st;
     lastStableTime := lastStableTime st;
     acknowledgedAlerts := acknowledgedAlerts st;
     criticalLevelAlerts := criticalLevelAlerts st |}.

Definition with_discrepancyCounts v (st : MonitoringState) : MonitoringState :=
  {| fillRates := fillRates st;
     baselineFillRates := baselineFillRates st;
     lastLevels := lastLevels st;
     drainStore := drainStore st;
     drainEvents := drainEvents st;
     dailyDrains := dailyDrains st;
     dailyTickets := dailyTickets st;
     discrepancyCounts := v;
     overflowForecasts := overflowForecasts st;
     activeDrains := activeDrains st;
     lastStableTime := lastStableTime st;
     acknowledgedAlerts := acknowledgedAlerts st;
     criticalLevelAlerts := criticalLevelAlerts st |}.

Definition with_overflowForecasts v (st : MonitoringState) : MonitoringState :=
  {| fillRates := fillRates st;
     baselineFillRates := baselineFillRates st;
     lastLevels := lastLevels st;
     drainStore := drainStore st;
     drainEvents := drainEvents st;
     dailyDrains := dailyDrains st;
     dailyTickets := dailyTickets st;
     discrepancyCounts := discrepancyCounts st;
     overflowForecasts := v;
     activeDrains := activeDrains st;
     lastStableTime := lastStableTime st;
     acknowledgedAlerts := acknowledgedAlerts st;
     criticalLevelAlerts := criticalLevelAlerts st |}.

Definition with_activeDrains v (st : MonitoringState) : MonitoringState :=
  {| fillRates := fillRates st;
     baselineFillRates := baselineFillRates st;
     lastLevels := lastLevels st;
     drainStore := drainStore st;
     drainEvents := drainEvents st;
     dailyDrains := dailyDrains st;
     dailyTickets := dailyTickets st;
     discrepancyCounts := discrepancyCounts st;
     overflowForecasts := overflowForecasts st;
     activeDrains := v;
     lastStableTime := lastStableTime st;
     acknowledgedAlerts := acknowledgedAlerts st;
     criticalLevelAlerts := criticalLevelAlerts st |}.

Definition with_lastStableTime v (st : MonitoringState) : MonitoringState :=
  {| fillRates := fillRates st;
     baselineFillRates := baselineFillRates st;
     lastLevels := lastLevels st;
     drainStore := drainStore st;
     drainEvents := drainEvents st;
     dailyDrains := dailyDrains st;
     dailyTickets := dailyTickets st;
     discrepancyCounts := discrepancyCounts st;
     overflowForecasts := overflowForecasts st;
     activeDrains := activeDrains st;
     lastStableTime := v;
     acknowledgedAlerts := acknowledgedAlerts st;
     criticalLevelAlerts := criticalLevelAlerts st |}.

Definition with_acknowledgedAlerts v (st : MonitoringState) : MonitoringState :=
  {| fillRates := fillRates st;
     baselineFillRates := baselineFillRates st;
     lastLevels := lastLevels st;
     drainStore := drainStore st;
     drainEvents := drainEvents st;
     dailyDrains := dailyDrains st;
     dailyTickets := dailyTickets st;
     discrepancyCounts := discrepancyCounts st;
     overflowForecasts := overflowForecasts st;
     activeDrains := activeDrains st;
     lastStableTime := lastStableTime st;
     acknowledgedAlerts := v;
     criticalLevelAlerts := criticalLevelAlerts st |}.

Definition with_criticalLevelAlerts v (st : MonitoringState) : MonitoringState :=
  {| fillRates := fillRates st;
     baselineFillRates := baselineFillRates st;
     lastLevels := lastLevels st;
     drainStore := drainStore st;
     drainEvents := drainEvents st;
     dailyDrains := dailyDrains st;
     dailyTickets := dailyTickets st;
     discrepancyCounts := discrepancyCounts st;
     overflowForecasts := overflowForecasts st;
     activeDrains := activeDrains st;
     lastStableTime := lastStableTime st;
     acknowledgedAlerts := acknowledgedAlerts st;
     criticalLevelAlerts := v |}.

(** ** Alerts built by [monitorRealTime] *)

(** The [type] string used in the id of a discrepancy alert. *)
Definition typeName (t : AlertType) : string :=
  match t with
  | overreporting => "overreporting"
  | unlogged_drain => "unlogged_drain"
  | false_ticket => "false_ticket"
  | unlogged_event => "unlogged_event"
  | clogged_flow => "clogged_flow"
  | production_stop => "production_stop"
  | delivery_delay => "delivery_delay"
  | critical_level => "critical_level"
  | drift => "drift"
  | overflow => "overflow"
  | audit => "audit"
  end.

(** [`${prefix}-${key}-${currentTime}`] *)
Definition timedId (prefix key : string) (currentTime : Z) : string :=
  prefix +:+ "-" +:+ key +:+ "-" +:+ pretty currentTime.

Definition overflowAlertId (id : string) : string := "overflow-" +:+ id.
Definition criticalLevelAlertId (id : string) : string := "critical-level-" +:+ id.

(** [matchedTicket?.amount_collected || 0] *)
Definition reportedVolumeOf (matchedTicket : option TicketDto) : Q :=
  match matchedTicket with
  | Some t => Js.orElse (amount_collected t) 0
  | None => 0
  end.

Definition discrepancyAlert (cauldron : CauldronDto) (id : string)
    (currentTime : Z) (discrepancy : Discrepancy) (activeDrain : DrainEvent)
    (matchedTicket : option TicketDto) : Alert :=
  {| a_id := timedId (typeName (dType discrepancy)) id currentTime;
     a_type := dType discrepancy;
     a_severity := dSeverity discrepancy;
     a_cauldronId := Some id;
     a_cauldronName := c_name cauldron;
     a_timestamp := currentTime;
     a_details := DiscrepancyDetails
       (expectedDrainVolume activeDrain)
       (reportedVolumeOf matchedTicket)
       (Qabs (expectedDrainVolume activeDrain - reportedVolumeOf matchedTicket)) |}.

Definition driftAlert (cauldron : CauldronDto) (id : string)
    (currentTime : Z) (count : Q) : Alert :=
  {| a_id := timedId "drift" id currentTime;
     a_type := drift;
     a_severity := critical;
     a_cauldronId := Some id;
     a_cauldronName := c_name cauldron;
     a_timestamp := currentTime;
     a_details := DriftDetails count |}.

Definition cloggedFlowAlert (cauldron : CauldronDto) (id : string)
    (currentTime : Z) (activeDrain : DrainEvent) (baselineFillRate : Q) : Alert :=
  {| a_id := timedId "clogged-flow" id currentTime;
     a_type := clogged_flow;
     a_severity := warning;
     a_cauldronId := Some id;
     a_cauldronName := c_name cauldron;
     a_timestamp := currentTime;
     a_details := CloggedDetails (refillRate activeDrain) baselineFillRate |}.

Definition falseTicketAlert (cauldron : CauldronDto) (id : string)
    (currentTime : Z) (ticket : TicketDto) : Alert :=
  {| a_id := timedId "false-ticket" (default "null" (ticket_id ticket)) currentTime;
     a_type := false_ticket;
     a_severity := warning;
     a_cauldronId := Some id;
     a_cauldronName := c_name cauldron;
     a_timestamp := currentTime;
     a_details := FalseTicketDetails (ticket_id ticket) (amount_collected ticket) |}.

Definition productionStopAlert (cauldron : CauldronDto) (id : string)
    (currentTime : Z) (duration currentLevel : Q) : Alert :=
  {| a_id := timedId "production-stop" id currentTime;
     a_type := production_stop;
     a_severity := critical;
     a_cauldronId := Some id;
     a_cauldronName := c_name cauldron;
     a_timestamp := currentTime;
     a_details := ProductionStopDetails duration currentLevel |}.

Definition overflowAlert (cauldron : CauldronDto) (id : string)
    (currentTime : Z) (timeToOverflow currentLevel : Q) : Alert :=
  {| a_id := overflowAlertId id;
     a_type := overflow;
     a_severity := critical;
     a_cauldronId := Some id;
     a_cauldronName := c_name cauldron;
     a_timestamp := currentTime;
     a_details := OverflowDetails timeToOverflow currentLevel (max_volume cauldron) |}.

Definition criticalLevelAlert (cauldron : CauldronDto) (id : string)
    (currentTime : Z) (currentLevel : Q) : Alert :=
  {| a_id := criticalLevelAlertId id;
     a_type := critical_level;
     a_severity := critical;
     a_cauldronId := Some id;
     a_cauldronName := c_name cauldron;
     a_timestamp := currentTime;
     a_details := CriticalLevelDetails currentLevel (max_volume cauldron) |}.

Definition auditAlert (currentTime : Z)
    (totalExpected totalTicketed discrepancyPercent : Q) : Alert :=
  {| a_id := "daily-audit-" +:+ pretty currentTime;
     a_type := audit;
     a_severity := warning;
     a_cauldronId := None;
     a_cauldronName := None;
     a_timestamp := currentTime;
     a_details := AuditDetails totalExpected totalTicketed discrepancyPercent |}.

Definition deliveryDelayAlert (courier : string) (currentTime : Z)
    (ticket : TicketDto) (delayMinutes : Q) : Alert :=
  {| a_id := timedId "delivery-delay" courier currentTime;
     a_type := delivery_delay;
     a_severity := warning;
     a_cauldronId :=
       if Js.noString (t_cauldron_id ticket) then None else t_cauldron_id ticket;
     a_cauldronName := None;
     a_timestamp := currentTime;
     a_details := DelayDetails courier delayMinutes |}.

(** ** The per-vessel body of [monitorRealTime]

    Each part below is one commented block of the [cauldrons.forEach]
    callback; it takes [updatedState] and returns it with the alerts
    it pushes, in order. *)

(** [const timeDiff = 1] (one minute between ticks). *)
Definition timeDiff : Q := 1.

(** The object [updatedState.activeDrains.get(id)], with its reference. *)
Definition activeDrainOf (id : string) (st : MonitoringState)
    : option (DrainRef * DrainEvent) :=
  r ← activeDrains st !! id;
  d ← drainStore st !! r;
  Some (r, d).

(** Fill rate and sticky baseline. *)
Definition updateFillRate (id : string) (fillRate : Q)
    (st : MonitoringState) : MonitoringState :=
  let st1 :=
    match baselineFillRates st !! id with
    | None =>
        if Js.ltb 0 fillRate
        then with_baselineFillRates (<[id := fillRate]> (baselineFillRates st)) st
        else st
    | Some _ => st
    end in
  with_fillRates (<[id := fillRate]> (fillRates st1)) st1.

(** "Start new drain": a fresh object, put in [activeDrains] and
    pushed on [drainEvents]. *)
Definition startDrain (id : string) (currentTime : Z)
    (previousLevel currentLevel fillRate : Q)
    (st : MonitoringState) : MonitoringState :=
  let newDrain :=
    {| cauldronId := id;
       d_timestamp := currentTime;
       levelBefore := previousLevel;
       levelAfter := currentLevel;
       expectedDrainVolume :=
         calculateExpectedDrainVolume previousLevel currentLevel fillRate timeDiff;
       duration := timeDiff;
       refillRate := None;
       isActive := true |} in
  let ref := length (drainStore st) in
  with_drainEvents (drainEvents st ++ [ref])
    (with_activeDrains (<[id := ref]> (activeDrains st))
      (with_drainStore (drainStore st ++ [newDrain]) st)).

(** "Continue existing drain": the object is updated in place. *)
Definition extendedDrain (activeDrain : DrainEvent)
    (currentLevel fillRate : Q) : DrainEvent :=
  let duration' := duration activeDrain + timeDiff in
  {| cauldronId := cauldronId activeDrain;
     d_timestamp := d_timestamp activeDrain;
     levelBefore := levelBefore activeDrain;
     levelAfter := currentLevel;
     expectedDrainVolume :=
       calculateExpectedDrainVolume (levelBefore activeDrain) currentLevel
         fillRate duration';
     duration := duration';
     refillRate := refillRate activeDrain;
     isActive := isActive activeDrain |}.

Definition extendDrain (ref : DrainRef) (activeDrain : DrainEvent)
    (currentLevel fillRate : Q) (st : MonitoringState) : MonitoringState :=
  with_drainStore
    (<[ref := extendedDrain activeDrain currentLevel fillRate]> (drainStore st)) st.

(** [timeSinceLastDrop] of the stabilisation check. *)
Definition timeSinceLastDrop (currentTime : Z) (activeDrain : DrainEvent) : Q :=
  Js.minutes (currentTime - d_timestamp activeDrain).

(** "Drain ended": [refillRate] is set and [isActive] cleared. *)
Definition finalizedDrain (currentTime : Z) (currentLevel : Q)
    (activeDrain : DrainEvent) : DrainEvent :=
  let since := timeSinceLastDrop currentTime activeDrain in
  let refillRate' :=
    if Js.ltb (levelAfter activeDrain) currentLevel
    then (currentLevel - levelAfter activeDrain) / since
    else 0 in
  {| cauldronId := cauldronId activeDrain;
     d_timestamp := d_timestamp activeDrain;
     levelBefore := levelBefore activeDrain;
     levelAfter := levelAfter activeDrain;
     expectedDrainVolume := expectedDrainVolume activeDrain;
     duration := duration activeDrain;
     refillRate := Some refillRate';
     isActive := false |}.

(** "Assess discrepancy": the counter and the alerts. *)
Definition reportDiscrepancy (cauldron : CauldronDto) (id : string)
    (currentTime : Z) (activeDrain : DrainEvent)
    (matchedTicket : option TicketDto)
    (st : MonitoringState) : MonitoringState * list Alert :=
  match assessDiscrepancy activeDrain matchedTicket TOLERANCE with
  | None => (st, [])
  | Some discrepancy =>
      let count := Js.getOr (discrepancyCounts st !! id) 0 in
      (with_discrepancyCounts (<[id := count + 1]> (discrepancyCounts st)) st,
       discrepancyAlert cauldron id currentTime discrepancy activeDrain matchedTicket
       :: (if Js.leb 2 (count + 1)
           then [driftAlert cauldron id currentTime (count + 1)] else []))
  end.

(** "Update daily drains". *)
Definition recordDailyDrain (id : string) (dateKey : Z)
    (activeDrain : DrainEvent) (st : MonitoringState) : MonitoringState :=
  let dailyDrainsMap := default ∅ (dailyDrains st !! id) in
  let currentDailyTotal := Js.getOr (dailyDrainsMap !! dateKey) 0 in
  with_dailyDrains
    (<[id := <[dateKey := currentDailyTotal + expectedDrainVolume activeDrain]>
               dailyDrainsMap]> (dailyDrains st)) st.

(** "Store ticket if matched", unless the day already lists its id. *)
Definition recordDailyTicket (id : string) (dateKey : Z)
    (matchedTicket : option TicketDto)
    (st : MonitoringState) : MonitoringState :=
  match matchedTicket with
  | None => st
  | Some ticket =>
      let dailyTicketsMap := default ∅ (dailyTickets st !! id) in
      let dayTickets := default [] (dailyTicketsMap !! dateKey) in
      match List.find (λ t, bool_decide (ticket_id t = ticket_id ticket))
              dayTickets with
      | Some _ => st
      | None =>
          with_dailyTickets
            (<[id := <[dateKey := dayTickets ++ [ticket]]> dailyTicketsMap]>
               (dailyTickets st)) st
      end
  end.

Definition finalizeDrain (cauldron : CauldronDto) (id : string)
    (tickets : list TicketDto) (currentTime dateKey : Z)
    (currentLevel baselineFillRate : Q)
    (ref : DrainRef) (activeDrain : DrainEvent)
    (st : MonitoringState) : MonitoringState * list Alert :=
  let activeDrain' := finalizedDrain currentTime currentLevel activeDrain in
  let st1 := with_drainStore (<[ref := activeDrain']> (drainStore st)) st in
  let matchedTicket := matchTicketToDrain activeDrain' tickets in
  let '(st2, alerts1) :=
    reportDiscrepancy cauldron id currentTime activeDrain' matchedTicket st1 in
  let alerts2 :=
    if detectCloggedFlow activeDrain' baselineFillRate
    then [cloggedFlowAlert cauldron id currentTime activeDrain' baselineFillRate]
    else [] in
  let st3 := recordDailyDrain id dateKey activeDrain' st2 in
  let st4 := recordDailyTicket id dateKey matchedTicket st3 in
  (with_activeDrains (delete id (activeDrains st4)) st4, alerts1 ++ alerts2).

(** Rule A as the callback applies it. *)
Definition drainDetection (cauldron : CauldronDto) (id : string)
    (tickets : list TicketDto) (currentTime dateKey : Z)
    (previousLevel currentLevel fillRate baselineFillRate : Q)
    (st : MonitoringState) : MonitoringState * list Alert :=
  let activeDrain := activeDrainOf id st in
  if detectDrainStart cauldron previousLevel currentLevel then
    match activeDrain with
    | None =>
        (startDrain id currentTime previousLevel currentLevel fillRate st, [])
    | Some (ref, d) => (extendDrain ref d currentLevel fillRate st, [])
    end
  else
    match activeDrain with
    | None => (st, [])
    | Some (ref, d) =>
        if Js.leb DRAIN_STABILIZATION_TIME (timeSinceLastDrop currentTime d)
        then finalizeDrain cauldron id tickets currentTime dateKey
               currentLevel baselineFillRate ref d st
        else (st, [])
    end.

(** The objects of [updatedState.drainEvents]. *)
Definition drainEventObjects (st : MonitoringState) : list DrainEvent :=
  omap (λ r, drainStore st !! r) (drainEvents st).

(** Case C: the false-ticket scan of the vessel's tickets. *)
Definition falseTicketScan (cauldron : CauldronDto) (id : string)
    (tickets : list TicketDto) (currentTime : Z)
    (st : MonitoringState) : list Alert :=
  let cauldronTickets :=
    List.filter (λ t, Js.isString (t_cauldron_id t) id
                      && bool_decide (is_Some (t_date t))) tickets in
  let recentDrains :=
    List.filter (λ d, bool_decide (cauldronId d = id) && negb (isActive d))
      (drainEventObjects st) in
  (λ ticket, falseTicketAlert cauldron id currentTime ticket)
    <$> List.filter (λ ticket, checkFalseTicket ticket recentDrains) cauldronTickets.

(** Case G: production stop and the stable-time bookkeeping. *)
Definition productionStopCheck (cauldron : CauldronDto) (id : string)
    (currentTime : Z) (previousLevel currentLevel fillRate : Q)
    (st : MonitoringState) : MonitoringState * list Alert :=
  let productionStop :=
    detectProductionStop currentLevel previousLevel timeDiff fillRate
      (lastStableTime st !! id) currentTime in
  if fst productionStop then
    (st, [productionStopAlert cauldron id currentTime (snd productionStop)
            currentLevel])
  else if Js.ltb previousLevel currentLevel then
    (with_lastStableTime (delete id (lastStableTime st)) st, [])
  else
    match lastStableTime st !! id with
    | None => (with_lastStableTime (<[id := currentTime]> (lastStableTime st)) st, [])
    | Some _ => (st, [])
    end.

(** Rule 6: overflow forecast. *)
Definition overflowForecast (cauldron : CauldronDto) (id : string)
    (currentTime : Z) (currentLevel fillRate : Q)
    (st : MonitoringState) : MonitoringState * list Alert :=
  if Js.ltb 0 fillRate then
    let timeToOverflow := (max_volume cauldron - currentLevel) / fillRate in
    let st1 :=
      with_overflowForecasts (<[id := timeToOverflow]> (overflowForecasts st)) st in
    let shouldAlert :=
      Js.leb 9 timeToOverflow && Js.leb timeToOverflow 11
      && negb (bool_decide (overflowAlertId id ∈ acknowledgedAlerts st1))
      && Js.ltb timeToOverflow 240 in
    (st1, if shouldAlert
          then [overflowAlert cauldron id currentTime timeToOverflow currentLevel]
          else [])
  else (st, []).

(** Critical level (above 80% of the capacity). *)
Definition criticalLevelCheck (cauldron : CauldronDto) (id : string)
    (currentTime : Z) (previousLevel currentLevel : Q)
    (st : MonitoringState) : MonitoringState * list Alert :=
  let percentage := (currentLevel / max_volume cauldron) * 100 in
  let previousPercentage := (previousLevel / max_volume cauldron) * 100 in
  let criticalThreshold := 80 in
  if Js.ltb criticalThreshold percentage
     && Js.leb previousPercentage criticalThreshold then
    if negb (bool_decide (criticalLevelAlertId id ∈ acknowledgedAlerts st))
       && negb (bool_decide (id ∈ criticalLevelAlerts st)) then
      (with_criticalLevelAlerts ({[ id ]} ∪ criticalLevelAlerts st) st,
       [criticalLevelAlert cauldron id currentTime currentLevel])
    else (st, [])
  else if Js.leb percentage criticalThreshold
          && Js.ltb criticalThreshold previousPercentage then
    (with_criticalLevelAlerts (criticalLevelAlerts st ∖ {[ id ]}) st, [])
  else (st, []).

(** The callback of [cauldrons.forEach]: [state] is the state the tick
    was given, the pair is [updatedState] and [alerts]. *)
Definition processCauldron (state : MonitoringState)
    (historicalData : list HistoricalDataDto) (tickets : list TicketDto)
    (currentTime : Z) (currentLevels : gmap string Q) (dateKey : Z)
    (acc : MonitoringState * list Alert) (cauldron : CauldronDto)
    : MonitoringState * list Alert :=
  match c_id cauldron with
  | None => acc
  | Some id =>
      if Js.noString (c_id cauldron) || Js.falsy (max_volume cauldron) then acc
      else
        let '(st, alerts) := acc in
        let currentLevel := Js.getOr (currentLevels !! levelKey id) 0 in
        let previousLevel := Js.getOr (lastLevels state !! id) currentLevel in
        let fillRate := calculateFillRate id historicalData 60 in
        let baselineFillRate := Js.getOr (baselineFillRates st !! id) fillRate in
        let st1 := updateFillRate id fillRate st in
        let '(st2, alertsA) :=
          drainDetection cauldron id tickets currentTime dateKey
            previousLevel currentLevel fillRate baselineFillRate st1 in
        let alertsC := falseTicketScan cauldron id tickets currentTime st2 in
        let '(st3, alertsG) :=
          productionStopCheck cauldron id currentTime previousLevel currentLevel
            fillRate st2 in
        let '(st4, alerts6) :=
          overflowForecast cauldron id currentTime currentLevel fillRate st3 in
        let '(st5, alertsL) :=
          criticalLevelCheck cauldron id currentTime previousLevel currentLevel st4 in
        (with_lastLevels (<[id := currentLevel]> (lastLevels st5)) st5,
         alerts ++ alertsA ++ alertsC ++ alertsG ++ alerts6 ++ alertsL)
  end.

(** ** The tick: [monitorRealTime] *)

(** The sample nearest to the tick's time: the first one whose
    distance is strictly below every earlier one ([minDiff] starts at
    [Infinity]). *)
Definition nearestStep (currentTime : Z)
    (best : option (Z * HistoricalDataDto)) (data : HistoricalDataDto)
    : option (Z * HistoricalDataDto) :=
  let diff := Z.abs (h_timestamp data - currentTime) in
  match best with
  | None => Some (diff, data)
  | Some (minDiff, _) => if (diff <? minDiff)%Z then Some (diff, data) else best
  end.

Definition nearestSample (currentTime : Z)
    (historicalData : list HistoricalDataDto) : option HistoricalDataDto :=
  snd <$> fold_left (nearestStep currentTime) historicalData None.

(** The sums of the daily rollup over the vessels with an id. *)
Definition dailyTotalsStep (dateKey : Z) (st : MonitoringState)
    (totals : Q * Q) (cauldron : CauldronDto) : Q * Q :=
  match c_id cauldron with
  | None => totals
  | Some id =>
      if Js.noString (c_id cauldron) then totals
      else
        let dailyDrainsMap := default ∅ (dailyDrains st !! id) in
        let dailyTicketsMap := default ∅ (dailyTickets st !! id) in
        (fst totals + Js.getOr (dailyDrainsMap !! dateKey) 0,
         snd totals
         + fold_left (λ sum t, sum + Js.orElse (amount_collected t) 0)
             (default [] (dailyTicketsMap !! dateKey)) 0)
  end.

Definition dailyTotals (dateKey : Z) (cauldrons : list CauldronDto)
    (st : MonitoringState) : Q * Q :=
  fold_left (dailyTotalsStep dateKey st) cauldrons (0, 0).

(** Delivery integrity: the alerts of one courier. *)
Definition courierAlerts (tickets : list TicketDto)
    (network : option NetworkDto) (currentTime : Z)
    (courier : CourierDto) : list Alert :=
  match courier_id courier with
  | None => []
  | Some cid =>
      if Js.noString (courier_id courier) then []
      else
        let courierTickets :=
          List.filter (λ t, bool_decide (t_courier_id t = courier_id courier)
                            && bool_decide (is_Some (t_date t))) tickets in
        omap (λ ticket,
          match checkDeliveryDelay ticket network currentTime with
          | Some (true, delayMinutes) =>
              Some (deliveryDelayAlert cid currentTime ticket delayMinutes)
          | _ => None
          end) courierTickets
  end.

Section Orchestrator.

(** [getHours] and [getMinutes] read the local time: the offset of
    the local zone from UTC, in minutes, is a parameter. *)
Variable tzOffsetMinutes : Z.

Definition getHours (ms : Z) : Z :=
  (((ms + tzOffsetMinutes * 60000) / 3600000) mod 24)%Z.

Definition getMinutes (ms : Z) : Z :=
  (((ms + tzOffsetMinutes * 60000) / 60000) mod 60)%Z.

(** Case H: the daily discrepancy summary. *)
Definition dailyAudit (cauldrons : list CauldronDto) (currentTime dateKey : Z)
    (st : MonitoringState) : list Alert :=
  if (getHours currentTime =? 23)%Z && (55 <=? getMinutes currentTime)%Z then
    let '(totalExpected, totalTicketed) := dailyTotals dateKey cauldrons st in
    let dailyCheck := checkDailyDiscrepancy totalExpected totalTicketed 5 in
    if fst dailyCheck
    then [auditAlert currentTime totalExpected totalTicketed (snd dailyCheck)]
    else []
  else [].

Definition deliveryChecks (tickets : list TicketDto)
    (couriers : option (list CourierDto)) (network : option NetworkDto)
    (currentTime : Z) : list Alert :=
  match couriers, network with
  | Some cs, Some _ =>
      concat (courierAlerts tickets network currentTime <$> cs)
  | _, _ => []
  end.

(** The result is [(alerts, updatedState)]. *)
Definition monitorRealTime (cauldrons : list CauldronDto)
    (historicalData : list HistoricalDataDto) (tickets : list TicketDto)
    (currentTimestamp : Z) (state : MonitoringState)
    (couriers : option (list CourierDto)) (network : option NetworkDto)
    : list Alert * MonitoringState :=
  let currentTime := currentTimestamp in
  match nearestSample currentTime historicalData with
  | None => ([], state)
  | Some currentDataPoint =>
      let currentLevels := cauldron_levels currentDataPoint in
      let dateKey := dayOf currentTimestamp in
      let '(updatedState, alerts) :=
        fold_left
          (processCauldron state historicalData tickets currentTime
             currentLevels dateKey)
          cauldrons (state, []) in
      (alerts
         ++ dailyAudit cauldrons currentTime dateKey updatedState
         ++ deliveryChecks tickets couriers network currentTime,
       updatedState)
  end.

(** A run: the ticks at the given times, in order, on fixed inputs;
    the alerts of all ticks and the last state. *)
Fixpoint runTicks (cauldrons : list CauldronDto)
    (historicalData : list HistoricalDataDto) (tickets : list TicketDto)
    (times : list Z) (state : MonitoringState)
    : list Alert * MonitoringState :=
  match times with
  | [] => ([], state)
  | t :: times' =>
      let '(alerts, state') :=
        monitorRealTime cauldrons historicalData tickets t state None None in
      let '(alerts', state'') :=
        runTicks cauldrons historicalData tickets times' state' in
      (alerts ++ alerts', state'')
  end.

End Orchestrator.

Definition initializeMonitoringState : MonitoringState :=
  {| fillRates := ∅; baselineFillRates := ∅; lastLevels := ∅;
     drainStore := []; drainEvents := [];
     dailyDrains := ∅; dailyTickets := ∅; discrepancyCounts := ∅;
     overflowForecasts := ∅; activeDrains := ∅; lastStableTime := ∅;
     acknowledgedAlerts := ∅; criticalLevelAlerts := ∅ |}.

Definition acknowledgeAlert (state : MonitoringState) (alertId : string)
    : MonitoringState :=
  with_acknowledgedAlerts ({[ alertId ]} ∪ acknowledgedAlerts state) state.

(** * Properties *)

(** ** Comparisons of numbers *)

Lemma ltb_lt (a b : Q) : Js.ltb a b = true ↔ a < b.
Proof.
  unfold Js.ltb. rewrite negb_true_iff, <- not_true_iff_false, Qle_bool_iff.
  split; [apply Qnot_le_lt | apply Qlt_not_le].
Qed.

Lemma ltb_ge (a b : Q) : Js.ltb a b = false ↔ b <= a.
Proof.
  unfold Js.ltb. rewrite negb_false_iff. apply Qle_bool_iff.
Qed.

Lemma leb_le (a b : Q) : Js.leb a b = true ↔ a <= b.
Proof. apply Qle_bool_iff. Qed.

Lemma leb_gt (a b : Q) : Js.leb a b = false ↔ b < a.
Proof.
  unfold Js.leb. rewrite <- not_true_iff_false, Qle_bool_iff.
  split; [apply Qnot_le_lt | apply Qlt_not_le].
Qed.

Lemma falsy_zero (a : Q) : Js.falsy a = true ↔ a == 0.
Proof. apply Qeq_bool_iff. Qed.

Lemma orElse_zero (a : Q) : Js.orElse a 0 == a.
Proof.
  unfold Js.orElse. destruct (Js.falsy a) eqn:E; [|reflexivity].
  apply falsy_zero in E. symmetry. exact E.
Qed.

(** ** C10: the guarded division of the daily check *)

Lemma checkDailyDiscrepancy_zero (e t thr : Q) :
  e == 0 → checkDailyDiscrepancy e t thr = (false, 0).
Proof.
  intros He. unfold checkDailyDiscrepancy, Js.eqb.
  apply Qeq_bool_iff in He. rewrite He. reflexivity.
Qed.

(** ** Which alerts each part of the tick can push *)

(** The alert types of the per-vessel body. *)
Definition isVesselType (t : AlertType) : bool :=
  match t with
  | audit | delivery_delay => false
  | _ => true
  end.

Definition vesselAlert (a : Alert) : Prop := isVesselType (a_type a) = true.

Lemma reportDiscrepancy_types cauldron id now d mt st :
  Forall vesselAlert (snd (reportDiscrepancy cauldron id now d mt st)).
Proof.
  unfold reportDiscrepancy, assessDiscrepancy.
  destruct mt as [t|]; simpl.
  - repeat case_match; simplify_eq; simpl; repeat constructor.
  - case_match; repeat constructor.
Qed.

Lemma finalizeDrain_types cauldron id tickets now dateKey lvl base ref d st :
  Forall vesselAlert
    (snd (finalizeDrain cauldron id tickets now dateKey lvl base ref d st)).
Proof.
  unfold finalizeDrain.
  pose proof (reportDiscrepancy_types cauldron id now
    (finalizedDrain now lvl d)
    (matchTicketToDrain (finalizedDrain now lvl d) tickets)
    (with_drainStore (<[ref:=finalizedDrain now lvl d]> (drainStore st)) st)) as H.
  destruct (reportDiscrepancy _ _ _ _ _ _) as [st2 alerts1]. simpl in *.
  apply Forall_app. split; [exact H|].
  case_match; repeat constructor.
Qed.

Lemma drainDetection_types cauldron id tickets now dateKey prev lvl fr base st :
  Forall vesselAlert
    (snd (drainDetection cauldron id tickets now dateKey prev lvl fr base st)).
Proof.
  unfold drainDetection.
  repeat case_match; simpl; try constructor.
  apply finalizeDrain_types.
Qed.

Lemma falseTicketScan_types cauldron id tickets now st :
  Forall vesselAlert (falseTicketScan cauldron id tickets now st).
Proof.
  unfold falseTicketScan. apply Forall_fmap, Forall_forall.
  intros t _. reflexivity.
Qed.

Lemma productionStopCheck_types cauldron id now prev lvl fr st :
  Forall vesselAlert (snd (productionStopCheck cauldron id now prev lvl fr st)).
Proof.
  unfold productionStopCheck. repeat case_match; simpl; repeat constructor.
Qed.

Lemma overflowForecast_types cauldron id now lvl fr st :
  Forall vesselAlert (snd (overflowForecast cauldron id now lvl fr st)).
Proof.
  unfold overflowForecast. repeat case_match; simpl; repeat constructor.
Qed.

Lemma criticalLevelCheck_types cauldron id now prev lvl st :
  Forall vesselAlert (snd (criticalLevelCheck cauldron id now prev lvl st)).
Proof.
  unfold criticalLevelCheck. repeat case_match; simpl; repeat constructor.
Qed.

(** The body only appends, and only alerts of its own types. *)
Lemma processCauldron_alerts state hist tickets now levels dateKey acc c :
  ∃ new, snd (processCauldron state hist tickets now levels dateKey acc c)
         = snd acc ++ new ∧ Forall vesselAlert new.
Proof.
  unfold processCauldron.
  destruct (c_id c) as [id|]; [|exists []; split; [by rewrite app_nil_r|constructor]].
  case_match; [exists []; split; [by rewrite app_nil_r|constructor]|].
  destruct acc as [st alerts].
  set (lvl := Js.getOr (levels !! levelKey id) 0).
  set (prev := Js.getOr (lastLevels state !! id) lvl).
  set (fr := calculateFillRate id hist 60).
  set (base := Js.getOr (baselineFillRates st !! id) fr).
  pose proof (drainDetection_types c id tickets now dateKey prev lvl fr base
                (updateFillRate id fr st)) as HA.
  destruct (drainDetection _ _ _ _ _ _ _ _ _ _) as [st2 alertsA].
  pose proof (productionStopCheck_types c id now prev lvl fr st2) as HG.
  destruct (productionStopCheck _ _ _ _ _ _ _) as [st3 alertsG].
  pose proof (overflowForecast_types c id now lvl fr st3) as H6.
  destruct (overflowForecast _ _ _ _ _ _) as [st4 alerts6].
  pose proof (criticalLevelCheck_types c id now prev lvl st4) as HL.
  destruct (criticalLevelCheck _ _ _ _ _ _) as [st5 alertsL].
  simpl in *. eexists. split; [reflexivity|].
  repeat (apply Forall_app; split); auto using falseTicketScan_types.
Qed.

Lemma vesselLoop_alerts state hist tickets now levels dateKey cs acc :
  ∃ new, snd (fold_left (processCauldron state hist tickets now levels dateKey)
                cs acc)
         = snd acc ++ new ∧ Forall vesselAlert new.
Proof.
  revert acc. induction cs as [|c cs IH]; intros acc; simpl.
  - exists []. split; [by rewrite app_nil_r|constructor].
  - destruct (IH (processCauldron state hist tickets now levels dateKey acc c))
      as (new2 & -> & H2).
    destruct (processCauldron_alerts state hist tickets now levels dateKey acc c)
      as (new1 & -> & H1).
    exists (new1 ++ new2). split; [by rewrite app_assoc|].
    apply Forall_app; auto.
Qed.

Definition delayAlert (a : Alert) : Prop := a_type a = delivery_delay.

Lemma deliveryChecks_types tickets couriers network now :
  Forall delayAlert (deliveryChecks tickets couriers network now).
Proof.
  unfold deliveryChecks.
  destruct couriers as [cs|]; [|constructor].
  destruct network as [n|]; [|constructor].
  apply Forall_concat, Forall_fmap, Forall_forall. intros c _. simpl.
  unfold courierAlerts.
  destruct (courier_id c); [|constructor].
  case_match; [constructor|].
  apply Forall_forall. intros a Ha.
  apply list_elem_of_omap in Ha as (t & _ & Ht).
  repeat case_match; simplify_eq. reflexivity.
Qed.

(** ** The alerts of a tick *)

Definition auditAlertsOf (alerts : list Alert) : list Alert :=
  List.filter (λ a, bool_decide (a_type a = audit)) alerts.

Lemma auditAlertsOf_app l1 l2 :
  auditAlertsOf (l1 ++ l2) = auditAlertsOf l1 ++ auditAlertsOf l2.
Proof. apply List.filter_app. Qed.

Lemma auditAlertsOf_vessel l : Forall vesselAlert l → auditAlertsOf l = [].
Proof.
  induction 1 as [|a l Ha _ IH]; [reflexivity|].
  simpl. rewrite IH. unfold vesselAlert in Ha.
  destruct (a_type a); simpl in *; done.
Qed.

Lemma auditAlertsOf_delay l : Forall delayAlert l → auditAlertsOf l = [].
Proof.
  induction 1 as [|a l Ha _ IH]; [reflexivity|].
  simpl. rewrite IH. unfold delayAlert in Ha. by rewrite Ha.
Qed.

Lemma dailyAudit_self tz cs now dateKey st :
  auditAlertsOf (dailyAudit tz cs now dateKey st) = dailyAudit tz cs now dateKey st.
Proof.
  unfold dailyAudit. case_match; [|reflexivity].
  destruct (dailyTotals dateKey cs st) as [e t].
  case_match; reflexivity.
Qed.

(** A tick with no sample returns at once; otherwise its alerts are
    those of the vessels, then the audit, then the delivery checks. *)
Lemma monitorRealTime_alerts tz cs hist tickets now st couriers network :
  let res := monitorRealTime tz cs hist tickets now st couriers network in
  (nearestSample now hist = None ∧ res = ([], st))
  ∨ (is_Some (nearestSample now hist)
     ∧ ∃ vessel, Forall vesselAlert vessel
       ∧ fst res = vessel ++ dailyAudit tz cs now (dayOf now) (snd res)
                     ++ deliveryChecks tickets couriers network now).
Proof.
  unfold monitorRealTime.
  destruct (nearestSample now hist) as [p|]; [right|left; done].
  split; [done|].
  destruct (vesselLoop_alerts st hist tickets now (cauldron_levels p)
              (dayOf now) cs (st, [])) as (new & Hnew & Hty).
  destruct (fold_left _ cs (st, [])) as [st' alerts].
  simpl in *. subst alerts. exists new. done.
Qed.

Lemma monitorRealTime_audit tz cs hist tickets now st couriers network :
  let res := monitorRealTime tz cs hist tickets now st couriers network in
  auditAlertsOf (fst res)
  = match nearestSample now hist with
    | Some _ => dailyAudit tz cs now (dayOf now) (snd res)
    | None => []
    end.
Proof.
  intros res.
  destruct (monitorRealTime_alerts tz cs hist tickets now st couriers network)
    as [[HN Hres]|[[p Hp] (vessel & Hv & Hres)]]; fold res in Hres.
  - rewrite HN, Hres. reflexivity.
  - rewrite Hp, Hres, !auditAlertsOf_app, auditAlertsOf_vessel by done.
    rewrite (auditAlertsOf_delay (deliveryChecks _ _ _ _))
      by apply deliveryChecks_types.
    rewrite dailyAudit_self. by rewrite app_nil_r.
Qed.

Lemma auditAlertsOf_none alerts :
  auditAlertsOf alerts = [] → Forall (λ a, a_type a ≠ audit) alerts.
Proof.
  induction alerts as [|a l IH]; [constructor|].
  simpl. case_bool_decide as Hty; [done|]. intros Hl. constructor; auto.
Qed.

(** C10. When the total expected volume is 0, [checkDailyDiscrepancy]
    answers [exceedsThreshold = false] and [discrepancyPercent = 0]
    whatever the ticketed total and the threshold are (the division is
    guarded); hence a tick whose day has a zero accumulated expected
    drain volume pushes no audit alert. *)
Theorem zero_expected_never_audits :
  (∀ totalExpected totalTicketed threshold,
     totalExpected == 0 →
     checkDailyDiscrepancy totalExpected totalTicketed threshold = (false, 0))
  ∧ (∀ tz cs hist tickets now st couriers network,
       let res := monitorRealTime tz cs hist tickets now st couriers network in
       fst (dailyTotals (dayOf now) cs (snd res)) == 0 →
       Forall (λ a, a_type a ≠ audit) (fst res)).
Proof.
  split; [apply checkDailyDiscrepancy_zero|].
  intros tz cs hist tickets now st couriers network res Hzero.
  apply auditAlertsOf_none. unfold res.
  rewrite monitorRealTime_audit. fold res.
  destruct (nearestSample now hist); [|reflexivity].
  unfold dailyAudit. case_match; [|reflexivity].
  destruct (dailyTotals _ _ _) as [e t]. simpl in Hzero.
  by rewrite checkDailyDiscrepancy_zero.
Qed.

(** ** C8: the daily audit *)




(** ** Scenarios *)

(** One vessel, [cauldron_001], with the given capacity. *)
Definition vessel (capacity : Q) : CauldronDto :=
  {| c_id := Some "cauldron_001"; c_name := Some "Alpha";
     max_volume := capacity |}.

(** The telemetry sample of a minute (counted from the epoch). *)
Definition sampleAt (minute : Z) (level : Q) : HistoricalDataDto :=
  {| h_timestamp := minute * 60000;
     cauldron_levels := {[ "cauldron_001" := level ]} |}.

(** Samples of consecutive minutes, from [start] on. *)
Fixpoint samplesFrom (start : Z) (levels : list Q) : list HistoricalDataDto :=
  match levels with
  | [] => []
  | l :: levels' => sampleAt start l :: samplesFrom (start + 1) levels'
  end.

(** The times of [n] ticks, one a minute, from minute [start] on. *)
Definition minutesFrom (start : Z) (n : nat) : list Z :=
  (λ i, (start + Z.of_nat i) * 60000)%Z <$> seq 0 n.

Definition ticketAt (name : string) (minute : Z) (amount : Q) : TicketDto :=
  {| ticket_id := Some name; t_cauldron_id := Some "cauldron_001";
     amount_collected := amount; t_courier_id := None;
     t_date := Some (minute * 60000)%Z |}.

(** The last minutes of the first day: the level falls from 200 to
    100 at 23:40 and stays; a ticket of 23:41 reports 90. *)
Definition eveningHistory : list HistoricalDataDto :=
  samplesFrom 1419 (200 :: replicate 20 100).



(** A day with a recorded ticket and no recorded drain. *)
Definition ticketsOnlyState : MonitoringState :=
  with_dailyTickets {[ "cauldron_001" := {[ 0%Z := [ticketAt "T1" 1421 90] ]} ]}
    initializeMonitoringState.



Lemma zero_expected_never_audits_witness :
  checkDailyDiscrepancy 0 90 5 = (false, 0)
  ∧ Forall (λ a, a_type a ≠ audit)
      (fst (monitorRealTime 0 [vessel 1000] eveningHistory []
              (1435 * 60000) ticketsOnlyState None None)).
Proof.
  split.
  - apply (proj1 zero_expected_never_audits 0 90 5). reflexivity.
  - apply (proj2 zero_expected_never_audits 0%Z [vessel 1000] eveningHistory []
             (1435 * 60000)%Z ticketsOnlyState None None).
    vm_compute. reflexivity.
Defined.

(** ** C1: the decision table of [assessDiscrepancy] *)

Definition overreportingAlertsOf (alerts : list Alert) : list Alert :=
  List.filter (λ a, bool_decide (a_type a = overreporting)) alerts.

Lemma assessDiscrepancy_over d t :
  2 < amount_collected t - expectedDrainVolume d →
  assessDiscrepancy d (Some t) 2
  = Some {| dType := overreporting; dSeverity := warning |}.
Proof.
  intros H. unfold assessDiscrepancy.
  assert (Js.ltb 2 (Js.orElse (amount_collected t) 0 - expectedDrainVolume d)
          = true) as ->; [|reflexivity].
  apply ltb_lt. rewrite orElse_zero. exact H.
Qed.

Lemma assessDiscrepancy_under d t :
  2 < expectedDrainVolume d - amount_collected t →
  assessDiscrepancy d (Some t) 2
  = Some {| dType := unlogged_drain; dSeverity := critical |}.
Proof.
  intros H. unfold assessDiscrepancy.
  pose proof (orElse_zero (amount_collected t)) as Hr.
  assert (Js.ltb 2 (Js.orElse (amount_collected t) 0 - expectedDrainVolume d)
          = false) as ->.
  { apply ltb_ge. lra. }
  assert (Js.ltb (Js.orElse (amount_collected t) 0 - expectedDrainVolume d) (Qopp 2)
          = true) as ->; [|reflexivity].
  apply ltb_lt. lra.
Qed.

Lemma assessDiscrepancy_within d t :
  amount_collected t - expectedDrainVolume d <= 2 →
  expectedDrainVolume d - amount_collected t <= 2 →
  assessDiscrepancy d (Some t) 2 = None.
Proof.
  intros H1 H2. unfold assessDiscrepancy.
  pose proof (orElse_zero (amount_collected t)) as Hr.
  assert (Js.ltb 2 (Js.orElse (amount_collected t) 0 - expectedDrainVolume d)
          = false) as ->.
  { apply ltb_ge. lra. }
  assert (Js.ltb (Js.orElse (amount_collected t) 0 - expectedDrainVolume d) (Qopp 2)
          = false) as ->; [|reflexivity].
  apply ltb_ge. lra.
Qed.

(** The alerts of a finalization: those of the discrepancy, then the
    clogged-flow alert. *)
Lemma finalizeDrain_alerts cauldron id tickets now dateKey lvl base ref d st :
  snd (finalizeDrain cauldron id tickets now dateKey lvl base ref d st)
  = snd (reportDiscrepancy cauldron id now (finalizedDrain now lvl d)
           (matchTicketToDrain (finalizedDrain now lvl d) tickets)
           (with_drainStore (<[ref := finalizedDrain now lvl d]> (drainStore st)) st))
    ++ (if detectCloggedFlow (finalizedDrain now lvl d) base
        then [cloggedFlowAlert cauldron id now (finalizedDrain now lvl d) base]
        else []).
Proof.
  unfold finalizeDrain. by destruct (reportDiscrepancy _ _ _ _ _ _).
Qed.

(** C1. With tolerance 2 a finalized drain without a matched ticket is
    an [unlogged_event], critical; with a matched ticket it is
    [overreporting], warning, when reported − expected > 2,
    [unlogged_drain], critical, when expected − reported > 2, and no
    discrepancy otherwise.  When a drain of expected volume 8 is
    finalized and its matched ticket reports 12, the finalization
    pushes exactly one overreporting alert, a warning, whose details
    hold expected 8, reported 12 and the difference 4. *)
Theorem discrepancy_decision_table :
  ∀ d : DrainEvent,
    assessDiscrepancy d None 2
    = Some {| dType := unlogged_event; dSeverity := critical |}
    ∧ (∀ t,
         (2 < amount_collected t - expectedDrainVolume d →
          assessDiscrepancy d (Some t) 2
          = Some {| dType := overreporting; dSeverity := warning |})
         ∧ (2 < expectedDrainVolume d - amount_collected t →
            assessDiscrepancy d (Some t) 2
            = Some {| dType := unlogged_drain; dSeverity := critical |})
         ∧ (amount_collected t - expectedDrainVolume d <= 2 →
            expectedDrainVolume d - amount_collected t <= 2 →
            assessDiscrepancy d (Some t) 2 = None))
    ∧ (∀ cauldron id tickets now dateKey lvl base ref st t,
         expectedDrainVolume d == 8 →
         matchTicketToDrain (finalizedDrain now lvl d) tickets = Some t →
         amount_collected t == 12 →
         ∃ a,
           overreportingAlertsOf
             (snd (finalizeDrain cauldron id tickets now dateKey lvl base ref d st))
           = [a]
           ∧ a_severity a = warning
           ∧ ∃ expected reported difference,
               a_details a = DiscrepancyDetails expected reported difference
               ∧ expected == 8 ∧ reported == 12 ∧ difference == 4).
Proof.
  intros d. split; [reflexivity|]. split.
  - intros t. auto using assessDiscrepancy_over, assessDiscrepancy_under,
      assessDiscrepancy_within.
  - intros cauldron id tickets now dateKey lvl base ref st t He Hm Ht.
    rewrite finalizeDrain_alerts, Hm.
    unfold reportDiscrepancy, TOLERANCE.
    rewrite assessDiscrepancy_over by (simpl; lra).
    exists (discrepancyAlert cauldron id now
              {| dType := overreporting; dSeverity := warning |}
              (finalizedDrain now lvl d) (Some t)).
    split; [|split; [reflexivity|]].
    + unfold overreportingAlertsOf, snd.
      destruct (Js.leb 2 _); destruct (detectCloggedFlow _ _); reflexivity.
    + do 3 eexists. split; [reflexivity|].
      pose proof (orElse_zero (amount_collected t)) as Hr.
      unfold reportedVolumeOf.
      change (expectedDrainVolume (finalizedDrain now lvl d))
        with (expectedDrainVolume d).
      split; [exact He|]. split; [lra|].
      rewrite He, Hr, Ht. reflexivity.
Qed.

(** A drain of 8 units that started at 00:01. *)
Definition drainOfEight : DrainEvent :=
  {| cauldronId := "cauldron_001"; d_timestamp := 60000;
     levelBefore := 60; levelAfter := 52; expectedDrainVolume := 8;
     duration := 1; refillRate := None; isActive := true |}.

Lemma discrepancy_decision_table_witness :
  assessDiscrepancy drainOfEight (Some (ticketAt "T1" 3 12)) 2
  = Some {| dType := overreporting; dSeverity := warning |}
  ∧ assessDiscrepancy drainOfEight (Some (ticketAt "T2" 3 5)) 2
    = Some {| dType := unlogged_drain; dSeverity := critical |}
  ∧ assessDiscrepancy drainOfEight (Some (ticketAt "T3" 3 9)) 2 = None
  ∧ ∃ a,
      overreportingAlertsOf
        (snd (finalizeDrain (vessel 100) "cauldron_001" [ticketAt "T1" 3 12]
                (6 * 60000) 0 52 0 0%nat drainOfEight
                (startDrain "cauldron_001" 60000 60 52 0
                   initializeMonitoringState)))
      = [a]
      ∧ a_severity a = warning
      ∧ ∃ expected reported difference,
          a_details a = DiscrepancyDetails expected reported difference
          ∧ expected == 8 ∧ reported == 12 ∧ difference == 4.
Proof.
  pose proof (discrepancy_decision_table drainOfEight) as (_ & Htable & Hrun).
  split; [|split; [|split]].
  - apply (proj1 (Htable (ticketAt "T1" 3 12))). reflexivity.
  - apply (proj1 (proj2 (Htable (ticketAt "T2" 3 5)))). reflexivity.
  - apply (proj2 (proj2 (Htable (ticketAt "T3" 3 9)))); vm_compute; discriminate.
  - apply Hrun with (t := ticketAt "T1" 3 12);
      [reflexivity|vm_compute; reflexivity|reflexivity].
Defined.

(** ** The store of drain events through a tick *)

Lemma reportDiscrepancy_store cauldron id now d mt st :
  drainStore (fst (reportDiscrepancy cauldron id now d mt st)) = drainStore st.
Proof. unfold reportDiscrepancy. case_match; reflexivity. Qed.

Lemma recordDailyTicket_store id dateKey mt st :
  drainStore (recordDailyTicket id dateKey mt st) = drainStore st.
Proof. unfold recordDailyTicket. repeat case_match; reflexivity. Qed.

Lemma finalizeDrain_store cauldron id tickets now dateKey lvl base ref d st :
  drainStore (fst (finalizeDrain cauldron id tickets now dateKey lvl base ref d st))
  = <[ref := finalizedDrain now lvl d]> (drainStore st).
Proof.
  unfold finalizeDrain.
  pose proof (reportDiscrepancy_store cauldron id now
    (finalizedDrain now lvl d)
    (matchTicketToDrain (finalizedDrain now lvl d) tickets)
    (with_drainStore (<[ref:=finalizedDrain now lvl d]> (drainStore st)) st)) as H.
  destruct (reportDiscrepancy _ _ _ _ _ _) as [st2 alerts1]. simpl in *.
  rewrite recordDailyTicket_store. simpl. exact H.
Qed.

Lemma updateFillRate_store id fr st :
  drainStore (updateFillRate id fr st) = drainStore st.
Proof. unfold updateFillRate. repeat case_match; reflexivity. Qed.

Lemma updateFillRate_activeDrains id fr st :
  activeDrains (updateFillRate id fr st) = activeDrains st.
Proof. unfold updateFillRate. repeat case_match; reflexivity. Qed.

Lemma productionStopCheck_store cauldron id now prev lvl fr st :
  drainStore (fst (productionStopCheck cauldron id now prev lvl fr st))
  = drainStore st.
Proof. unfold productionStopCheck. repeat case_match; reflexivity. Qed.

Lemma overflowForecast_store cauldron id now lvl fr st :
  drainStore (fst (overflowForecast cauldron id now lvl fr st)) = drainStore st.
Proof. unfold overflowForecast. repeat case_match; reflexivity. Qed.

Lemma criticalLevelCheck_store cauldron id now prev lvl st :
  drainStore (fst (criticalLevelCheck cauldron id now prev lvl st)) = drainStore st.
Proof. unfold criticalLevelCheck. repeat case_match; reflexivity. Qed.

Lemma activeDrainOf_lookup id st ref d :
  activeDrainOf id st = Some (ref, d) →
  activeDrains st !! id = Some ref ∧ drainStore st !! ref = Some d.
Proof.
  unfold activeDrainOf. intros H.
  destruct (activeDrains st !! id) as [r|]; simpl in H; [|done].
  destruct (drainStore st !! r) as [d'|] eqn:E; simpl in H; [|done].
  by simplify_eq.
Qed.

(** A vessel without an id or with a zero capacity is skipped. *)
Definition skipped (c : CauldronDto) : bool :=
  Js.noString (c_id c) || Js.falsy (max_volume c).

Lemma processCauldron_skipped state hist tickets now levels dateKey acc c :
  skipped c = true →
  processCauldron state hist tickets now levels dateKey acc c = acc.
Proof.
  unfold skipped, processCauldron. intros H.
  destruct (c_id c); [|done]. by rewrite H.
Qed.

(** What the vessel's body does to the store is what its drain
    detection does to it. *)
Lemma processCauldron_store state hist tickets now levels dateKey st alerts c id :
  c_id c = Some id →
  skipped c = false →
  drainStore
    (fst (processCauldron state hist tickets now levels dateKey (st, alerts) c))
  = drainStore
      (fst (drainDetection c id tickets now dateKey
              (Js.getOr (lastLevels state !! id)
                 (Js.getOr (levels !! levelKey id) 0))
              (Js.getOr (levels !! levelKey id) 0)
              (calculateFillRate id hist 60)
              (Js.getOr (baselineFillRates st !! id)
                 (calculateFillRate id hist 60))
              (updateFillRate id (calculateFillRate id hist 60) st))).
Proof.
  intros Hid Hskip. unfold skipped in Hskip.
  unfold processCauldron. rewrite Hid. rewrite Hid in Hskip. rewrite Hskip.
  set (lvl := Js.getOr (levels !! levelKey id) 0).
  set (prev := Js.getOr (lastLevels state !! id) lvl).
  set (fr := calculateFillRate id hist 60).
  set (base := Js.getOr (baselineFillRates st !! id) fr).
  destruct (drainDetection _ _ _ _ _ _ _ _ _ _) as [st2 alertsA].
  pose proof (productionStopCheck_store c id now prev lvl fr st2) as HG.
  destruct (productionStopCheck _ _ _ _ _ _ _) as [st3 alertsG].
  pose proof (overflowForecast_store c id now lvl fr st3) as H6.
  destruct (overflowForecast _ _ _ _ _ _) as [st4 alerts6].
  pose proof (criticalLevelCheck_store c id now prev lvl st4) as HL.
  destruct (criticalLevelCheck _ _ _ _ _ _) as [st5 alertsL].
  simpl in *. congruence.
Qed.

(** ** Starting and extending a drain *)

Lemma startDrain_active id now prev lvl fr st :
  ∃ ref d,
    activeDrainOf id (startDrain id now prev lvl fr st) = Some (ref, d)
    ∧ levelBefore d = prev ∧ levelAfter d = lvl ∧ duration d = 1
    ∧ expectedDrainVolume d = calculateExpectedDrainVolume prev lvl fr 1.
Proof.
  do 2 eexists. split.
  - unfold activeDrainOf, startDrain. simpl.
    rewrite lookup_insert_eq. simpl.
    rewrite list_lookup_middle by reflexivity. reflexivity.
  - done.
Qed.

Lemma extendDrain_active id ref d lvl fr st :
  activeDrainOf id st = Some (ref, d) →
  activeDrainOf id (extendDrain ref d lvl fr st)
  = Some (ref, extendedDrain d lvl fr).
Proof.
  intros H. apply activeDrainOf_lookup in H as [Ha Hs].
  unfold activeDrainOf, extendDrain. simpl. rewrite Ha. simpl.
  rewrite list_lookup_insert_eq by (by eapply lookup_lt_Some). reflexivity.
Qed.

(** A drain in five steps, from 60 down to 26 between 00:01 and
    00:05, and a rise to 28 at 00:06. *)
Definition stagedDrainHistory : list HistoricalDataDto :=
  samplesFrom 0 [60; 50; 44; 38; 32; 26; 28].

Definition stagedDrainRun (ticks : nat) : list Alert * MonitoringState :=
  runTicks 0 [vessel 100] stagedDrainHistory [] (minutesFrom 0 ticks)
    initializeMonitoringState.

(** ** C3: the stabilisation window *)

(** C3, evaluated where the code departs from it.  The level drops
    on each of the ticks 00:01 to 00:05 and rises at 00:06; the drain
    is still active after the tick of 00:05, its last drop, and it is
    finalized by the tick of 00:06, one minute later: the time the
    code compares with the five-minute window is counted from the
    start of the drain (00:01), and so is the divisor of the refill
    rate, 2/5 where the time since the last drop gives 2/1. *)
Theorem finalized_one_minute_after_last_drop :
  (∃ d, drainStore (snd (stagedDrainRun 6)) = [d]
        ∧ isActive d = true ∧ d_timestamp d = 60000%Z
        ∧ levelAfter d == 26 ∧ duration d == 5
        ∧ timeSinceLastDrop (6 * 60000) d == 5)
  ∧ detectDrainStart (vessel 100) 32 26 = true
  ∧ detectDrainStart (vessel 100) 26 28 = false
  ∧ (∃ d rate, drainStore (snd (stagedDrainRun 7)) = [d]
        ∧ isActive d = false ∧ d_timestamp d = 60000%Z
        ∧ levelAfter d == 26
        ∧ refillRate d = Some rate ∧ rate == 2 # 5).
Proof.
  split; [|split; [|split]].
  - eexists. split; [vm_compute; reflexivity|]. repeat split.
  - reflexivity.
  - reflexivity.
  - do 2 eexists. split; [vm_compute; reflexivity|]. repeat split.
Qed.

(** ** C5: the ticket matcher *)

Section SortHead.
Context {A : Type} (key : A → Q).

Lemma insertSorted_head (x : A) (s : list A) :
  head (insertSorted key x s)
  = match head s with
    | None => Some x
    | Some y => if Js.leb (key x) (key y) then Some x else Some y
    end.
Proof. destruct s as [|y s]; simpl; [reflexivity|]. by case_match. Qed.

Lemma sortBy_head_None (l : list A) : head (sortBy key l) = None → l = [].
Proof.
  destruct l as [|x l]; [done|]. simpl. rewrite insertSorted_head.
  repeat case_match; done.
Qed.

(** The head of the stable sort is the first element of least key. *)
Lemma sortBy_head_first_min (l : list A) (r : A) :
  head (sortBy key l) = Some r →
  ∃ l1 l2, l = l1 ++ r :: l2
           ∧ (∀ x, x ∈ l1 → key r < key x)
           ∧ (∀ x, x ∈ l2 → key r <= key x).
Proof.
  revert r. induction l as [|x l IH]; intros r; [done|].
  simpl. rewrite insertSorted_head.
  destruct (head (sortBy key l)) as [y|] eqn:Eh.
  - destruct (IH y eq_refl) as (l1 & l2 & -> & H1 & H2).
    destruct (Js.leb (key x) (key y)) eqn:Ek; intros [= <-].
    + apply leb_le in Ek. exists [], (l1 ++ y :: l2).
      split; [done|]. split; [intros z Hz; inversion Hz|].
      intros z Hz. apply elem_of_app in Hz as [Hz|Hz].
      * apply H1 in Hz. lra.
      * apply elem_of_cons in Hz as [->|Hz]; [done|].
        apply H2 in Hz. lra.
    + apply leb_gt in Ek. exists (x :: l1), l2.
      split; [done|]. split; [|done].
      intros z Hz. apply elem_of_cons in Hz as [->|Hz]; auto.
  - apply sortBy_head_None in Eh. subst l. intros [= <-].
    exists [], []. split; [done|]. split; intros z Hz; inversion Hz.
Qed.

End SortHead.

Lemma filter_split {A} (f : A → bool) (l m1 m2 : list A) (r : A) :
  List.filter f l = m1 ++ r :: m2 →
  ∃ l1 l2, l = l1 ++ r :: l2 ∧ f r = true
           ∧ List.filter f l1 = m1 ∧ List.filter f l2 = m2.
Proof.
  revert m1. induction l as [|x l IH]; intros m1 H; simpl in H.
  - by destruct m1.
  - destruct (f x) eqn:Ex.
    + destruct m1 as [|y m1]; simpl in H; injection H as -> H.
      * exists [], l. done.
      * destruct (IH m1 H) as (l1 & l2 & -> & Hr & <- & <-).
        exists (y :: l1), l2. simpl. rewrite Ex. done.
    + destruct (IH m1 H) as (l1 & l2 & -> & Hr & <- & <-).
      exists (x :: l1), l2. simpl. rewrite Ex. done.
Qed.

(** Eligibility in the words of the specification: same vessel, same
    calendar day as the start of the drain (both instants inside one
    UTC day, a span of 86400000 ms counted from the epoch), within two
    hours of it. *)
Definition eligibleTicket (d : DrainEvent) (t : TicketDto) : Prop :=
  t_cauldron_id t = Some (cauldronId d)
  ∧ ∃ ticketTime day,
      t_date t = Some ticketTime
      ∧ (day * 86400000 ≤ ticketTime < (day + 1) * 86400000)%Z
      ∧ (day * 86400000 ≤ d_timestamp d < (day + 1) * 86400000)%Z
      ∧ (Z.abs (ticketTime - d_timestamp d) ≤ 2 * 60 * 60 * 1000)%Z.

(** Two instants have the same day key exactly when one UTC day
    holds both. *)
Lemma dayOf_same (a b : Z) :
  dayOf a = dayOf b
  ↔ ∃ day, (day * 86400000 ≤ a < (day + 1) * 86400000)%Z
           ∧ (day * 86400000 ≤ b < (day + 1) * 86400000)%Z.
Proof.
  unfold dayOf, MS_PER_DAY. split.
  - intros H. exists (a / 86400000)%Z.
    pose proof (Z.div_mod a 86400000 ltac:(lia)) as Ha.
    pose proof (Z.mod_pos_bound a 86400000 ltac:(lia)) as Ha'.
    pose proof (Z.div_mod b 86400000 ltac:(lia)) as Hb.
    pose proof (Z.mod_pos_bound b 86400000 ltac:(lia)) as Hb'.
    rewrite <- H in Hb. lia.
  - intros (day & Ha & Hb).
    rewrite <- (Z.div_unique a 86400000 day (a - day * 86400000)) by lia.
    rewrite <- (Z.div_unique b 86400000 day (b - day * 86400000)) by lia.
    reflexivity.
Qed.

Lemma ticketMatches_eligible d t :
  ticketMatches d t = true ↔ eligibleTicket d t.
Proof.
  unfold ticketMatches, eligibleTicket, Js.isString, TWO_HOURS_MS.
  destruct (t_date t) as [tt|];
    [|split; [done|intros (_ & ? & ? & ? & _); done]].
  destruct (t_cauldron_id t) as [c|]; simpl;
    [|split; [done|intros [? _]; done]].
  destruct (decide (c = cauldronId d)) as [->|Hne]; simpl;
    [|split; [done|intros [[= ?] _]; done]].
  destruct (dayOf tt =? dayOf (d_timestamp d))%Z eqn:Ed; simpl.
  - apply Z.eqb_eq in Ed. rewrite Z.leb_le. split.
    + intros H. split; [done|]. apply dayOf_same in Ed as (day & H1 & H2).
      exists tt, day. done.
    + intros (_ & tt' & day & [= <-] & _ & _ & H). done.
  - apply Z.eqb_neq in Ed. split; [done|].
    intros (_ & tt' & day & [= <-] & H1 & H2 & _). exfalso. apply Ed.
    apply dayOf_same. by exists day.
Qed.

Lemma ticketDistance_lt ts (t x : TicketDto) tt xt :
  t_date t = Some tt → t_date x = Some xt →
  ticketDistance ts t < ticketDistance ts x →
  (Z.abs (tt - ts) < Z.abs (xt - ts))%Z.
Proof.
  unfold ticketDistance. intros -> ->. by rewrite <- Zlt_Qlt.
Qed.

Lemma ticketDistance_le ts (t x : TicketDto) tt xt :
  t_date t = Some tt → t_date x = Some xt →
  ticketDistance ts t <= ticketDistance ts x →
  (Z.abs (tt - ts) ≤ Z.abs (xt - ts))%Z.
Proof.
  unfold ticketDistance. intros -> ->. by rewrite <- Zle_Qle.
Qed.

(** C5. The matcher returns at most one ticket (an option).  It
    returns none exactly when no ticket of the pool is eligible; the
    ticket it returns is eligible (same vessel id, inside the UTC day
    of the start of the drain, at most two hours from it), every
    eligible ticket before it in the pool is strictly farther in time
    from the start of the drain and every eligible ticket after it is
    at least as far: it is the first of the eligible tickets of least
    absolute time difference. *)
Theorem matcher_first_nearest_eligible :
  ∀ (d : DrainEvent) (tickets : list TicketDto),
    (matchTicketToDrain d tickets = None
     ↔ ∀ t, t ∈ tickets → ¬ eligibleTicket d t)
    ∧ (∀ t, matchTicketToDrain d tickets = Some t →
         eligibleTicket d t
         ∧ ∃ ticketTime before after,
             t_date t = Some ticketTime
             ∧ tickets = before ++ t :: after
             ∧ (∀ x xTime, x ∈ before → eligibleTicket d x →
                  t_date x = Some xTime →
                  (Z.abs (ticketTime - d_timestamp d)
                   < Z.abs (xTime - d_timestamp d))%Z)
             ∧ (∀ x xTime, x ∈ after → eligibleTicket d x →
                  t_date x = Some xTime →
                  (Z.abs (ticketTime - d_timestamp d)
                   ≤ Z.abs (xTime - d_timestamp d))%Z)).
Proof.
  intros d tickets. unfold matchTicketToDrain. split.
  - split.
    + intros H t Ht He. apply sortBy_head_None in H.
      apply ticketMatches_eligible in He.
      assert (t ∈ List.filter (ticketMatches d) tickets) as Hin.
      { apply list_elem_of_In, List.filter_In.
        split; [by apply list_elem_of_In|done]. }
      rewrite H in Hin. inversion Hin.
    + intros H.
      assert (List.filter (ticketMatches d) tickets = []) as ->; [|done].
      destruct (List.filter (ticketMatches d) tickets) as [|t m] eqn:E; [done|].
      assert (In t (List.filter (ticketMatches d) tickets)) as Hin
        by (rewrite E; by left).
      apply List.filter_In in Hin as [Hin Hm].
      exfalso. apply (H t); [by apply list_elem_of_In|].
      by apply ticketMatches_eligible.
  - intros t H.
    apply sortBy_head_first_min in H as (m1 & m2 & Hf & H1 & H2).
    apply filter_split in Hf as (l1 & l2 & -> & Hr & <- & <-).
    apply ticketMatches_eligible in Hr.
    split; [exact Hr|].
    destruct Hr as (_ & tt & day & Htt & _).
    exists tt, l1, l2. split; [exact Htt|]. split; [done|]. split.
    + intros x xt Hx He Hxt. apply (ticketDistance_lt _ t x); [done|done|].
      apply H1. apply list_elem_of_In, List.filter_In.
      split; [by apply list_elem_of_In|by apply ticketMatches_eligible].
    + intros x xt Hx He Hxt. apply (ticketDistance_le _ t x); [done|done|].
      apply H2. apply list_elem_of_In, List.filter_In.
      split; [by apply list_elem_of_In|by apply ticketMatches_eligible].
Qed.

(** A pool for the drain of 00:01: a ticket of the next day, a ticket
    three hours later, one half an hour later, two tickets two minutes
    after the drain, one a minute after it on another vessel, and one
    four minutes after it. *)
Definition mixedPool : list TicketDto :=
  [ticketAt "late" 1500 8; ticketAt "far" 181 8; ticketAt "T0" 31 8;
   ticketAt "T1" 3 12; ticketAt "T2" 3 7;
   {| ticket_id := Some "other"; t_cauldron_id := Some "cauldron_002";
      amount_collected := 8; t_courier_id := None;
      t_date := Some 120000%Z |};
   ticketAt "T3" 5 9].

(** A drain that starts ten minutes before midnight, and a pool with
    a ticket five minutes after midnight and one an hour before the
    drain. *)
Definition lateDrain : DrainEvent :=
  {| cauldronId := "cauldron_001"; d_timestamp := 1430 * 60000;
     levelBefore := 60; levelAfter := 52; expectedDrainVolume := 8;
     duration := 1; refillRate := None; isActive := false |}.

Definition midnightPool : list TicketDto :=
  [ticketAt "next-day" 1445 8; ticketAt "same-day" 1370 8].

Lemma matcher_first_nearest_eligible_witness :
  matchTicketToDrain drainOfEight [ticketAt "late" 1500 8; ticketAt "far" 181 8]
  = None
  ∧ (eligibleTicket drainOfEight (ticketAt "T1" 3 12)
     ∧ ∃ ticketTime before after,
         t_date (ticketAt "T1" 3 12) = Some ticketTime
         ∧ mixedPool = before ++ ticketAt "T1" 3 12 :: after
         ∧ (∀ x xTime, x ∈ before → eligibleTicket drainOfEight x →
              t_date x = Some xTime →
              (Z.abs (ticketTime - 60000) < Z.abs (xTime - 60000))%Z)
         ∧ (∀ x xTime, x ∈ after → eligibleTicket drainOfEight x →
              t_date x = Some xTime →
              (Z.abs (ticketTime - 60000) ≤ Z.abs (xTime - 60000))%Z))
  ∧ eligibleTicket lateDrain (ticketAt "same-day" 1370 8).
Proof.
  split; [|split].
  - apply (matcher_first_nearest_eligible drainOfEight
             [ticketAt "late" 1500 8; ticketAt "far" 181 8]).
    intros t Ht He. apply ticketMatches_eligible in He.
    apply elem_of_cons in Ht as [->|Ht]; [done|].
    apply list_elem_of_singleton in Ht as ->. done.
  - apply (matcher_first_nearest_eligible drainOfEight mixedPool).
    vm_compute. reflexivity.
  - apply (matcher_first_nearest_eligible lateDrain midnightPool).
    vm_compute. reflexivity.
Defined.

(** ** C4: the fill-rate estimate *)

(** The slopes in the words of the specification: the consecutive
    pairs of samples, those whose later sample is inside the lookback
    window, with a positive time difference and a rising level, and
    for each of them level difference over time difference. *)
Definition consecutivePairs (data : list HistoricalDataDto)
    : list (HistoricalDataDto * HistoricalDataDto) :=
  zip data (tail data).

Definition pairCounted (key : string) (cutoffTime : Z)
    (pc : HistoricalDataDto * HistoricalDataDto) : bool :=
  (cutoffTime <=? h_timestamp (snd pc))%Z
  && Js.ltb 0 (Js.minutes (h_timestamp (snd pc) - h_timestamp (fst pc)))
  && Js.ltb (levelOf key (fst pc)) (levelOf key (snd pc)).

Definition pairSlope (key : string)
    (pc : HistoricalDataDto * HistoricalDataDto) : Q :=
  (levelOf key (snd pc) - levelOf key (fst pc))
  / Js.minutes (h_timestamp (snd pc) - h_timestamp (fst pc)).

Definition positiveSlopesOf (key : string) (cutoffTime : Z)
    (data : list HistoricalDataDto) : list Q :=
  pairSlope key <$> List.filter (pairCounted key cutoffTime) (consecutivePairs data).


Lemma collectSlopes_spec key cutoff rest :
  ∀ prev acc,
    collectSlopes key cutoff prev rest acc
    = acc ++ positiveSlopesOf key cutoff (prev :: rest).
Proof.
  induction rest as [|curr rest IH]; intros prev acc.
  - simpl. by rewrite app_nil_r.
  - simpl. unfold positiveSlopesOf, consecutivePairs. simpl.
    unfold pairCounted at 1. simpl.
    destruct (h_timestamp curr <? cutoff)%Z eqn:Et.
    + apply Z.ltb_lt in Et.
      assert ((cutoff <=? h_timestamp curr)%Z = false) as ->
        by (apply Z.leb_gt; lia).
      simpl. apply IH.
    + apply Z.ltb_ge in Et.
      assert ((cutoff <=? h_timestamp curr)%Z = true) as ->
        by (apply Z.leb_le; lia).
      simpl. destruct (Js.ltb 0 _ && Js.ltb _ _).
      * rewrite IH. rewrite <- app_assoc. reflexivity.
      * apply IH.
Qed.

Lemma positiveSlopesOf_positive key cutoff data :
  Forall (λ s, 0 < s) (positiveSlopesOf key cutoff data).
Proof.
  unfold positiveSlopesOf. apply Forall_fmap, Forall_forall.
  intros pc Hpc. apply list_elem_of_In, List.filter_In in Hpc as [_ Hc].
  unfold pairCounted in Hc.
  apply andb_true_iff in Hc as [Hc Hl]. apply andb_true_iff in Hc as [_ Ht].
  apply ltb_lt in Hl, Ht. simpl. unfold pairSlope.
  apply Qlt_shift_div_l; [exact Ht|]. lra.
Qed.

(** The sort is a stable insertion sort: its result is a permutation
    in ascending order. *)
Lemma insertSorted_perm (x : Q) (s : list Q) : insertSorted id x s ≡ₚ x :: s.
Proof.
  induction s as [|y s IH]; simpl; [done|].
  case_match; [done|]. rewrite IH. apply Permutation_swap.
Qed.

Lemma sortBy_perm (l : list Q) : sortBy id l ≡ₚ l.
Proof.
  induction l as [|x l IH]; simpl; [done|].
  rewrite insertSorted_perm. by rewrite IH.
Qed.














(** ** C2: tickets and drains *)

(** No day of a vessel lists the same ticket id twice. *)
Definition dayTicketsDistinct (st : MonitoringState) : Prop :=
  ∀ id days day l,
    dailyTickets st !! id = Some days → days !! day = Some l →
    NoDup (ticket_id <$> l).

Lemma dayTicketsDistinct_same st st' :
  dailyTickets st' = dailyTickets st →
  dayTicketsDistinct st → dayTicketsDistinct st'.
Proof. unfold dayTicketsDistinct. intros ->. done. Qed.

Lemma recordDailyTicket_distinct id dateKey mt st :
  dayTicketsDistinct st → dayTicketsDistinct (recordDailyTicket id dateKey mt st).
Proof.
  intros Hst. unfold recordDailyTicket.
  destruct mt as [ticket|]; [|exact Hst].
  set (days0 := default ∅ (dailyTickets st !! id)).
  set (l0 := default [] (days0 !! dateKey)).
  destruct (List.find _ l0) eqn:Ef; [exact Hst|].
  assert (NoDup (ticket_id <$> l0)) as Hl0.
  { subst l0 days0. destruct (dailyTickets st !! id) as [days|] eqn:Ed; simpl.
    - destruct (days !! dateKey) as [l|] eqn:El; simpl; [|constructor].
      by eapply Hst.
    - rewrite lookup_empty. constructor. }
  intros id' days day l Hd Hl. simpl in Hd.
  destruct (decide (id = id')) as [<-|Hne].
  - rewrite lookup_insert_eq in Hd. injection Hd as <-.
    destruct (decide (dateKey = day)) as [<-|Hnd].
    + rewrite lookup_insert_eq in Hl. injection Hl as <-.
      rewrite fmap_app. apply NoDup_app. split; [exact Hl0|].
      split; [|apply NoDup_singleton].
      intros tid Hin Hin'. apply list_elem_of_singleton in Hin'. subst tid.
      apply list_elem_of_fmap in Hin as (t & Ht & Hin).
      apply list_elem_of_In in Hin.
      eapply List.find_none in Ef; [|exact Hin]. simpl in Ef.
      apply bool_decide_eq_false in Ef. congruence.
    + rewrite lookup_insert_ne in Hl by done.
      subst days0. destruct (dailyTickets st !! id) as [days|] eqn:Ed;
        simpl in Hl; [by eapply Hst|by rewrite lookup_empty in Hl].
  - rewrite lookup_insert_ne in Hd by done. by eapply Hst.
Qed.

Lemma reportDiscrepancy_dailyTickets cauldron id now d mt st :
  dailyTickets (fst (reportDiscrepancy cauldron id now d mt st)) = dailyTickets st.
Proof. unfold reportDiscrepancy. case_match; reflexivity. Qed.

Lemma finalizeDrain_distinct cauldron id tickets now dateKey lvl base ref d st :
  dayTicketsDistinct st →
  dayTicketsDistinct
    (fst (finalizeDrain cauldron id tickets now dateKey lvl base ref d st)).
Proof.
  intros Hst. unfold finalizeDrain.
  pose proof (reportDiscrepancy_dailyTickets cauldron id now
    (finalizedDrain now lvl d)
    (matchTicketToDrain (finalizedDrain now lvl d) tickets)
    (with_drainStore (<[ref:=finalizedDrain now lvl d]> (drainStore st)) st)) as H.
  destruct (reportDiscrepancy _ _ _ _ _ _) as [st2 alerts1]. simpl in H.
  eapply dayTicketsDistinct_same;
    [|apply (recordDailyTicket_distinct id dateKey
               (matchTicketToDrain (finalizedDrain now lvl d) tickets)
               (recordDailyDrain id dateKey (finalizedDrain now lvl d) st2))].
  - reflexivity.
  - eapply dayTicketsDistinct_same; [|exact Hst]. simpl. exact H.
Qed.

Lemma drainDetection_distinct c id tickets now dateKey prev lvl fr base st :
  dayTicketsDistinct st →
  dayTicketsDistinct
    (fst (drainDetection c id tickets now dateKey prev lvl fr base st)).
Proof.
  intros Hst. unfold drainDetection.
  repeat case_match; simpl; try exact Hst.
  by apply finalizeDrain_distinct.
Qed.

Lemma productionStopCheck_dailyTickets cauldron id now prev lvl fr st :
  dailyTickets (fst (productionStopCheck cauldron id now prev lvl fr st))
  = dailyTickets st.
Proof. unfold productionStopCheck. repeat case_match; reflexivity. Qed.

Lemma overflowForecast_dailyTickets cauldron id now lvl fr st :
  dailyTickets (fst (overflowForecast cauldron id now lvl fr st)) = dailyTickets st.
Proof. unfold overflowForecast. repeat case_match; reflexivity. Qed.

Lemma criticalLevelCheck_dailyTickets cauldron id now prev lvl st :
  dailyTickets (fst (criticalLevelCheck cauldron id now prev lvl st))
  = dailyTickets st.
Proof. unfold criticalLevelCheck. repeat case_match; reflexivity. Qed.

Lemma updateFillRate_dailyTickets id fr st :
  dailyTickets (updateFillRate id fr st) = dailyTickets st.
Proof. unfold updateFillRate. repeat case_match; reflexivity. Qed.

Lemma processCauldron_distinct state hist tickets now levels dateKey acc c :
  dayTicketsDistinct (fst acc) →
  dayTicketsDistinct
    (fst (processCauldron state hist tickets now levels dateKey acc c)).
Proof.
  intros Hacc. unfold processCauldron.
  destruct (c_id c) as [id|]; [|exact Hacc].
  case_match; [exact Hacc|]. destruct acc as [st alerts].
  set (lvl := Js.getOr (levels !! levelKey id) 0).
  set (prev := Js.getOr (lastLevels state !! id) lvl).
  set (fr := calculateFillRate id hist 60).
  set (base := Js.getOr (baselineFillRates st !! id) fr).
  pose proof (drainDetection_distinct c id tickets now dateKey prev lvl fr base
                (updateFillRate id fr st)) as HA.
  destruct (drainDetection _ _ _ _ _ _ _ _ _ _) as [st2 alertsA].
  pose proof (productionStopCheck_dailyTickets c id now prev lvl fr st2) as HG.
  destruct (productionStopCheck _ _ _ _ _ _ _) as [st3 alertsG].
  pose proof (overflowForecast_dailyTickets c id now lvl fr st3) as H6.
  destruct (overflowForecast _ _ _ _ _ _) as [st4 alerts6].
  pose proof (criticalLevelCheck_dailyTickets c id now prev lvl st4) as HL.
  destruct (criticalLevelCheck _ _ _ _ _ _) as [st5 alertsL].
  simpl in *.
  eapply dayTicketsDistinct_same; [|apply HA].
  - simpl. congruence.
  - eapply dayTicketsDistinct_same; [|exact Hacc].
    apply updateFillRate_dailyTickets.
Qed.

Lemma monitorRealTime_distinct tz cs hist tickets now st couriers network :
  dayTicketsDistinct st →
  dayTicketsDistinct
    (snd (monitorRealTime tz cs hist tickets now st couriers network)).
Proof.
  intros Hst. unfold monitorRealTime.
  destruct (nearestSample now hist) as [p|]; [|exact Hst].
  assert (∀ acc, dayTicketsDistinct (fst acc) →
            dayTicketsDistinct
              (fst (fold_left
                      (processCauldron st hist tickets now (cauldron_levels p)
                         (dayOf now)) cs acc))) as Hloop.
  { induction cs as [|c cs IH]; intros acc Hacc; [exact Hacc|].
    simpl. apply IH. by apply processCauldron_distinct. }
  specialize (Hloop (st, []) Hst).
  destruct (fold_left _ cs (st, [])) as [st' alerts]. exact Hloop.
Qed.

(** Two drains of 10 units, at 00:01 and at 00:07, and one ticket of
    10 units at 00:04. *)
Definition twoDrainsHistory : list HistoricalDataDto :=
  samplesFrom 0 [60; 50; 50; 50; 50; 50; 50; 40; 40; 40; 40; 40; 40].

Definition oneTicket : list TicketDto := [ticketAt "T1" 4 10].

Definition twoDrainsRun : list Alert * MonitoringState :=
  runTicks 0 [vessel 100] twoDrainsHistory oneTicket (minutesFrom 0 13)
    initializeMonitoringState.

(** C2, the claim as stated fails: in a run with two drains of one
    vessel, finalized at 00:06 and at 00:12, the matcher returns the one
    ticket of 00:04 for both, and the run reports neither drain as
    unlogged (its only alerts are the false-ticket alerts of the ticks
    before the first finalization). *)
Lemma one_ticket_matched_to_two_drains :
  ∃ d1 d2,
    drainStore (snd twoDrainsRun) = [d1; d2]
    ∧ isActive d1 = false ∧ isActive d2 = false
    ∧ d_timestamp d1 = 60000%Z ∧ d_timestamp d2 = 420000%Z
    ∧ matchTicketToDrain d1 oneTicket = Some (ticketAt "T1" 4 10)
    ∧ matchTicketToDrain d2 oneTicket = Some (ticketAt "T1" 4 10)
    ∧ Forall (λ a, a_type a = false_ticket) (fst twoDrainsRun).
Proof.
  do 2 eexists. split; [vm_compute; reflexivity|].
  repeat split.
  set (alerts := fst twoDrainsRun). vm_compute in alerts. subst alerts.
  repeat constructor.
Qed.

(** C2 (as amended). The matcher does not consume tickets (it is a
    function of the drain and of the whole pool, so one ticket can be
    matched to several drains); what a run keeps is that a matched
    ticket is recorded at most once for a vessel and day: when no day
    list of [dailyTickets] holds a ticket id twice before a run, none
    does after it. *)
Theorem matched_ticket_recorded_once :
  ∀ tz cs hist tickets times st,
    dayTicketsDistinct st →
    dayTicketsDistinct (snd (runTicks tz cs hist tickets times st)).
Proof.
  intros tz cs hist tickets times. induction times as [|t times IH];
    intros st Hst; [exact Hst|].
  simpl.
  pose proof (monitorRealTime_distinct tz cs hist tickets t st None None Hst)
    as H1.
  destruct (monitorRealTime _ _ _ _ _ _ _ _) as [alerts st1].
  specialize (IH st1 H1).
  destruct (runTicks _ _ _ _ _ _) as [alerts' st2]. exact IH.
Qed.

Lemma matched_ticket_recorded_once_witness :
  dayTicketsDistinct (snd twoDrainsRun)
  ∧ dailyTickets (snd twoDrainsRun)
    = {[ "cauldron_001" := {[ 0%Z := [ticketAt "T1" 4 10] ]} ]}.
Proof.
  split.
  - apply (matched_ticket_recorded_once 0 [vessel 100] twoDrainsHistory
             oneTicket (minutesFrom 0 13) initializeMonitoringState).
    intros id days day l Hd. simpl in Hd. by rewrite lookup_empty in Hd.
  - vm_compute. reflexivity.
Defined.

(** ** C6: edge-triggered alerts *)

Definition overflowAlertsOf (alerts : list Alert) : list Alert :=
  List.filter (λ a, bool_decide (a_type a = overflow)) alerts.

(** A vessel of capacity 100 filling by one unit a minute. *)
Definition risingHistory : list HistoricalDataDto :=
  samplesFrom 0 [88; 89; 90].

Definition risingRun : list Alert * MonitoringState :=
  runTicks 0 [vessel 100] risingHistory [] (minutesFrom 0 3)
    initializeMonitoringState.

(** C6, evaluated where the code departs from it.  The vessel fills
    at 1 unit a minute; at 00:01 its time to overflow is 11 minutes and
    at 00:02 it is 10 minutes, inside the alert window on both ticks,
    and nothing is acknowledged: the overflow alert of the vessel is
    pushed on both ticks, with the same id. *)
Theorem overflow_alert_repeats_inside_window :
  ∃ a1 a2 t1 t2 l1 l2 m1 m2,
    overflowAlertsOf (fst risingRun) = [a1; a2]
    ∧ a_id a1 = "overflow-cauldron_001" ∧ a_id a2 = "overflow-cauldron_001"
    ∧ a_timestamp a1 = 60000%Z ∧ a_timestamp a2 = 120000%Z
    ∧ a_details a1 = OverflowDetails t1 l1 m1 ∧ t1 == 11
    ∧ a_details a2 = OverflowDetails t2 l2 m2 ∧ t2 == 10
    ∧ acknowledgedAlerts (snd risingRun) = ∅.
Proof.
  do 8 eexists. split; [vm_compute; reflexivity|].
  repeat split.
Qed.

(** ** C9: vessels left out of a tick *)

(** C9, the claim as stated fails for a negative capacity: the guard
    of the tick tests [!cauldron.max_volume], which holds for 0 only.
    A vessel of capacity −100 goes through the whole body: its drain
    of 00:01 is detected, its fill rate and last level are stored and
    the false-ticket alerts about it are pushed. *)
Lemma negative_capacity_vessel_is_processed :
  let run :=
    runTicks 0 [vessel (-100)] (samplesFrom 0 [60; 50]) [ticketAt "T1" 1 10]
      (minutesFrom 0 2) initializeMonitoringState in
  max_volume (vessel (-100)) <= 0
  ∧ length (drainStore (snd run)) = 1%nat
  ∧ activeDrains (snd run) !! "cauldron_001" = Some 0%nat
  ∧ lastLevels (snd run) !! "cauldron_001" = Some 50
  ∧ fillRates (snd run) !! "cauldron_001" = Some 0
  ∧ length (fst run) = 2%nat
  ∧ Forall (λ a, a_type a = false_ticket ∧ a_cauldronId a = Some "cauldron_001")
      (fst run).
Proof.
  intros run. split; [vm_compute; discriminate|].
  repeat split; try (vm_compute; reflexivity).
  set (alerts := fst run). vm_compute in alerts. subst alerts.
  repeat constructor.
Qed.

Lemma vesselLoop_skipped state hist tickets now levels dateKey c before after :
  skipped c = true →
  ∀ acc,
    fold_left (processCauldron state hist tickets now levels dateKey)
      (before ++ c :: after) acc
    = fold_left (processCauldron state hist tickets now levels dateKey)
        (before ++ after) acc.
Proof.
  intros Hc acc. rewrite !fold_left_app. simpl.
  by rewrite processCauldron_skipped.
Qed.

Lemma dailyTotals_no_id dateKey st c before after :
  Js.noString (c_id c) = true →
  dailyTotals dateKey (before ++ c :: after) st
  = dailyTotals dateKey (before ++ after) st.
Proof.
  intros Hc. unfold dailyTotals. rewrite !fold_left_app. simpl.
  unfold dailyTotalsStep at 2. destruct (c_id c); [|done]. by rewrite Hc.
Qed.

(** C9 (as amended). A vessel whose [max_volume] is 0 or whose
    identifier is missing (null or empty) is left out of the per-vessel
    body of the tick: the body returns the state and the alerts it was
    given, the drain detector answers no for it, and the vessels' loop
    gives the same state and alerts as without it; when the identifier
    is missing the whole tick, daily audit included, is the same as
    without the vessel.  (A negative [max_volume] is not left out.) *)
Theorem unusable_vessel_is_skipped :
  ∀ (c : CauldronDto),
    (c_id c = None ∨ c_id c = Some EmptyString ∨ max_volume c == 0) →
    (∀ prev lvl, detectDrainStart c prev lvl = false)
    ∧ (∀ state hist tickets now levels dateKey acc,
         processCauldron state hist tickets now levels dateKey acc c = acc)
    ∧ (∀ state hist tickets now levels dateKey before after acc,
         fold_left (processCauldron state hist tickets now levels dateKey)
           (before ++ c :: after) acc
         = fold_left (processCauldron state hist tickets now levels dateKey)
             (before ++ after) acc)
    ∧ (Js.noString (c_id c) = true →
       ∀ tz before after hist tickets now st couriers network,
         monitorRealTime tz (before ++ c :: after) hist tickets now st
           couriers network
         = monitorRealTime tz (before ++ after) hist tickets now st
             couriers network).
Proof.
  intros c Hc.
  assert (skipped c = true) as Hskip.
  { unfold skipped. destruct Hc as [->|[->|H0]]; [done|done|].
    apply falsy_zero in H0. rewrite H0. by rewrite orb_true_r. }
  split; [|split; [|split]].
  - intros prev lvl. unfold detectDrainStart.
    unfold skipped in Hskip. by rewrite Hskip.
  - intros. by apply processCauldron_skipped.
  - intros. by apply vesselLoop_skipped.
  - intros Hid tz before after hist tickets now st couriers network.
    unfold monitorRealTime.
    destruct (nearestSample now hist) as [p|]; [|reflexivity].
    rewrite vesselLoop_skipped by done.
    destruct (fold_left _ (before ++ after) (st, [])) as [st' alerts].
    unfold dailyAudit. by rewrite dailyTotals_no_id.
Qed.

(** A vessel record without an identifier. *)
Definition namelessVessel : CauldronDto :=
  {| c_id := None; c_name := None; max_volume := 100 |}.

Lemma unusable_vessel_is_skipped_witness :
  detectDrainStart (vessel 0) 60 50 = false
  ∧ processCauldron initializeMonitoringState twoDrainsHistory oneTicket
      60000 ∅ 0 (initializeMonitoringState, []) (vessel 0)
    = (initializeMonitoringState, [])
  ∧ monitorRealTime 0 ([] ++ namelessVessel :: [vessel 100]) twoDrainsHistory
      oneTicket 60000 initializeMonitoringState None None
    = monitorRealTime 0 ([] ++ [vessel 100]) twoDrainsHistory
        oneTicket 60000 initializeMonitoringState None None.
Proof.
  destruct (unusable_vessel_is_skipped (vessel 0)) as (Hdet & Hbody & _).
  { right. right. reflexivity. }
  destruct (unusable_vessel_is_skipped namelessVessel) as (_ & _ & _ & Htick).
  { left. reflexivity. }
  split; [apply Hdet|]. split; [apply Hbody|].
  apply Htick. reflexivity.
Defined.

(** * Further properties of the engine *)

(** ** The sample of a tick *)

(** What the loop over the samples holds after a prefix [seen]. *)
Definition nearestSoFar (now : Z) (seen : list HistoricalDataDto)
    (best : option (Z * HistoricalDataDto)) : Prop :=
  match best with
  | None => seen = []
  | Some (diff, p) =>
      diff = Z.abs (h_timestamp p - now)
      ∧ ∃ before after,
          seen = before ++ p :: after
          ∧ (∀ x, x ∈ before → (diff < Z.abs (h_timestamp x - now))%Z)
          ∧ (∀ x, x ∈ after → (diff ≤ Z.abs (h_timestamp x - now))%Z)
  end.

Lemma nearestStep_keeps now seen best x :
  nearestSoFar now seen best →
  nearestSoFar now (seen ++ [x]) (nearestStep now best x).
Proof.
  unfold nearestStep. destruct best as [[diff p]|]; simpl.
  - intros (-> & before & after & -> & Hb & Ha).
    destruct (Z.abs (h_timestamp x - now) <? Z.abs (h_timestamp p - now))%Z
      eqn:E; simpl.
    + apply Z.ltb_lt in E. split; [done|].
      exists (before ++ p :: after), []. split; [done|]. split.
      * intros y Hy. apply elem_of_app in Hy as [Hy|Hy]; [apply Hb in Hy; lia|].
        apply elem_of_cons in Hy as [->|Hy]; [lia|]. apply Ha in Hy. lia.
      * intros y Hy. inversion Hy.
    + apply Z.ltb_ge in E. split; [done|].
      exists before, (after ++ [x]). split; [by rewrite <- app_assoc|].
      split; [exact Hb|]. intros y Hy.
      apply elem_of_app in Hy as [Hy|Hy]; [by apply Ha|].
      apply list_elem_of_singleton in Hy as ->. exact E.
  - intros ->. split; [done|]. exists [], []. split; [done|].
    split; intros y Hy; inversion Hy.
Qed.

Lemma nearestLoop_keeps now rest :
  ∀ seen best,
    nearestSoFar now seen best →
    nearestSoFar now (seen ++ rest) (fold_left (nearestStep now) rest best).
Proof.
  induction rest as [|x rest IH]; intros seen best H; simpl.
  - by rewrite app_nil_r.
  - replace (seen ++ x :: rest) with ((seen ++ [x]) ++ rest)
      by (by rewrite <- app_assoc).
    apply IH. by apply nearestStep_keeps.
Qed.

(** The tick reads the first sample of least absolute time difference
    to its timestamp (no interpolation), and has none only when the
    telemetry window is empty, in which case it returns the state it
    was given and no alert. *)
Theorem tick_reads_first_nearest_sample :
  ∀ (now : Z) (hist : list HistoricalDataDto),
    (nearestSample now hist = None ↔ hist = [])
    ∧ (∀ p, nearestSample now hist = Some p →
         ∃ before after,
           hist = before ++ p :: after
           ∧ (∀ x, x ∈ before →
                (Z.abs (h_timestamp p - now) < Z.abs (h_timestamp x - now))%Z)
           ∧ (∀ x, x ∈ after →
                (Z.abs (h_timestamp p - now) ≤ Z.abs (h_timestamp x - now))%Z))
    ∧ (∀ tz cs tickets st couriers network,
         monitorRealTime tz cs [] tickets now st couriers network = ([], st)).
Proof.
  intros now hist.
  pose proof (nearestLoop_keeps now hist [] None eq_refl) as H.
  simpl in H. unfold nearestSample.
  destruct (fold_left (nearestStep now) hist None) as [[diff p]|]; simpl in *.
  - split; [|split; [|done]].
    + split; [done|]. intros ->. destruct H as (_ & b & a & Hnil & _).
      by destruct b.
    + intros p' [= <-]. destruct H as (-> & b & a & -> & Hb & Ha).
      exists b, a. done.
  - split; [|split; [|done]]; [done|]. intros p' [=].
Qed.

Lemma tick_reads_first_nearest_sample_witness :
  ∃ before after,
    samplesFrom 0 [60; 50; 40] = before ++ sampleAt 1 50 :: after
    ∧ (∀ x, x ∈ before →
         (Z.abs (h_timestamp (sampleAt 1 50) - 90000)
          < Z.abs (h_timestamp x - 90000))%Z)
    ∧ (∀ x, x ∈ after →
         (Z.abs (h_timestamp (sampleAt 1 50) - 90000)
          ≤ Z.abs (h_timestamp x - 90000))%Z).
Proof.
  apply (tick_reads_first_nearest_sample 90000 (samplesFrom 0 [60; 50; 40])).
  vm_compute. reflexivity.
Defined.

(** ** The drain detector's test *)

(** A drain starts only when the level fell.  For a vessel with an
    id and a positive capacity the test is that the drop exceeds 5% of
    the capacity; for a negative capacity (not rejected by the guard)
    it degenerates to any fall of the level. *)
Theorem drain_start_threshold :
  ∀ (c : CauldronDto) (prev lvl : Q),
    (detectDrainStart c prev lvl = true → lvl < prev ∧ skipped c = false)
    ∧ (Js.noString (c_id c) = false → 0 < max_volume c →
         (detectDrainStart c prev lvl = true
          ↔ (5 # 100) * max_volume c < prev - lvl))
    ∧ (Js.noString (c_id c) = false → max_volume c < 0 →
         (detectDrainStart c prev lvl = true ↔ lvl < prev)).
Proof.
  intros c prev lvl. unfold detectDrainStart, skipped. split; [|split].
  - destruct (Js.noString (c_id c) || Js.falsy (max_volume c)); [done|].
    intros H. apply andb_true_iff in H as [_ H]. apply ltb_lt in H.
    split; [lra|done].
  - intros -> Hpos.
    assert (Js.falsy (max_volume c) = false) as ->.
    { apply not_true_iff_false. rewrite falsy_zero. lra. }
    simpl. rewrite andb_true_iff, !ltb_lt. split; [tauto|]. intros H.
    split; [exact H|]. lra.
  - intros -> Hneg.
    assert (Js.falsy (max_volume c) = false) as ->.
    { apply not_true_iff_false. rewrite falsy_zero. lra. }
    simpl. rewrite andb_true_iff, !ltb_lt. split; [intros [_ H]; lra|].
    intros H. split; lra.
Qed.

Lemma drain_start_threshold_witness :
  (60 < 66 ∧ skipped (vessel 100) = false)
  ∧ detectDrainStart (vessel 100) 66 60 = true
  ∧ detectDrainStart (vessel (-100)) 61 60 = true.
Proof.
  destruct (drain_start_threshold (vessel 100) 66 60) as (H1 & H2 & _).
  destruct (drain_start_threshold (vessel (-100)) 61 60) as (_ & _ & H3).
  split; [apply H1; reflexivity|]. split.
  - apply H2; reflexivity.
  - apply H3; reflexivity.
Defined.

(** ** The matcher and the false-ticket check agree *)

Lemma matchTicketToDrain_matches d tickets t :
  matchTicketToDrain d tickets = Some t →
  t ∈ tickets ∧ ticketMatches d t = true.
Proof.
  unfold matchTicketToDrain. intros H.
  apply sortBy_head_first_min in H as (m1 & m2 & Hf & _).
  apply filter_split in Hf as (l1 & l2 & -> & Hr & _). split; [|exact Hr].
  apply elem_of_app. right. by left.
Qed.

(** A ticket that the matcher returns for a drain is never a false
    ticket with respect to a list of drains holding that drain: both
    use the same day and the same two-hour window.  A ticket without a
    date is always a false ticket. *)
Theorem matched_ticket_is_not_false :
  ∀ (d : DrainEvent) (tickets : list TicketDto) (t : TicketDto)
    (drains : list DrainEvent),
    (matchTicketToDrain d tickets = Some t → d ∈ drains →
     checkFalseTicket t drains = false)
    ∧ (t_date t = None → checkFalseTicket t drains = true).
Proof.
  intros d tickets t drains. split.
  - intros Hm Hd. apply matchTicketToDrain_matches in Hm as [_ Hm].
    unfold ticketMatches in Hm. unfold checkFalseTicket.
    destruct (t_date t) as [tt|]; [|done].
    destruct (Js.isString _ _); simpl in Hm; [|done].
    destruct (dayOf tt =? dayOf (d_timestamp d))%Z eqn:Ed; simpl in Hm; [|done].
    apply negb_false_iff, existsb_exists. exists d.
    split; [by apply list_elem_of_In|].
    apply andb_true_iff. split; [|exact Hm].
    apply Z.eqb_eq in Ed. apply Z.eqb_eq. done.
  - intros Hn. unfold checkFalseTicket. by rewrite Hn.
Qed.

Lemma matched_ticket_is_not_false_witness :
  checkFalseTicket (ticketAt "T1" 3 12) [drainOfEight] = false
  ∧ checkFalseTicket
      {| ticket_id := Some "T9"; t_cauldron_id := Some "cauldron_001";
         amount_collected := 1; t_courier_id := None; t_date := None |}
      [drainOfEight] = true.
Proof.
  split.
  - apply (matched_ticket_is_not_false drainOfEight mixedPool
             (ticketAt "T1" 3 12) [drainOfEight]).
    + vm_compute. reflexivity.
    + by left.
  - apply (matched_ticket_is_not_false drainOfEight [] _ [drainOfEight]).
    reflexivity.
Defined.

(** ** Delivery delays *)

(** [List.find] returns the first element that passes the test. *)
Lemma find_first {A} (f : A → bool) (before after : list A) (x : A) :
  f x = true → (∀ y, y ∈ before → f y = false) →
  List.find f (before ++ x :: after) = Some x.
Proof.
  intros Hx. induction before as [|y before IH]; intros Hb; simpl.
  - by rewrite Hx.
  - rewrite (Hb y) by (by left). apply IH. intros z Hz. apply Hb. by right.
Qed.

Lemma find_none_iff {A} (f : A → bool) (l : list A) :
  (∀ y, y ∈ l → f y = false) → List.find f l = None.
Proof.
  induction l as [|y l IH]; intros Hl; simpl; [done|].
  rewrite (Hl y) by (by left). apply IH. intros z Hz. apply Hl. by right.
Qed.

(** [checkDeliveryDelay] answers nothing when the network or its edge
    list is missing, when the ticket has no date or no vessel, when no
    edge leaves the ticket's vessel, and when the first edge that
    leaves it has a travel time of 0.  Otherwise it answers from that
    first edge alone: a delay, of the time since the ticket minus the
    travel time, exactly when the time since the ticket is above 1.3
    times the travel time, and no delay with 0 minutes if not.  A
    reported delay is more than 30% of a positive travel time. *)
Theorem delivery_delay_from_first_edge :
  ∀ (ticket : TicketDto) (network : option NetworkDto) (now : Z),
    ((network = None
      ∨ (∃ net, network = Some net ∧ edges net = None)
      ∨ t_date ticket = None
      ∨ Js.noString (t_cauldron_id ticket) = true) →
     checkDeliveryDelay ticket network now = None)
    ∧ (∀ net es ticketTime,
         network = Some net → edges net = Some es →
         t_date ticket = Some ticketTime →
         Js.noString (t_cauldron_id ticket) = false →
         ((∀ e, e ∈ es → e_from e ≠ t_cauldron_id ticket) →
          checkDeliveryDelay ticket network now = None)
         ∧ (∀ before edge after,
              es = before ++ edge :: after →
              e_from edge = t_cauldron_id ticket →
              (∀ e, e ∈ before → e_from e ≠ t_cauldron_id ticket) →
              let since := Js.minutes (now - ticketTime) in
              let travel := travel_time_minutes edge in
              (travel == 0 → checkDeliveryDelay ticket network now = None)
              ∧ (¬ travel == 0 → travel * (13 # 10) < since →
                 checkDeliveryDelay ticket network now
                 = Some (true, since - travel)
                 ∧ (0 < travel → (3 # 10) * travel < since - travel))
              ∧ (¬ travel == 0 → since <= travel * (13 # 10) →
                 checkDeliveryDelay ticket network now = Some (false, 0)))).
Proof.
  intros ticket network now. unfold checkDeliveryDelay. split.
  - intros [->|[(net & -> & Hn)|[Hd|Hc]]]; simpl.
    + reflexivity.
    + by rewrite Hn.
    + rewrite Hd. by destruct (network ≫= edges).
    + rewrite Hc. destruct (network ≫= edges); [|done].
      by destruct (t_date ticket).
  - intros net es tt -> Hes Htt Hc. simpl. rewrite Hes, Htt, Hc. split.
    + intros Hnone. rewrite find_none_iff; [done|].
      intros e He. apply bool_decide_eq_false. by apply Hnone.
    + intros before edge after -> Hfrom Hbefore. cbv zeta.
      rewrite find_first;
        [|by apply bool_decide_eq_true
         |intros e He; apply bool_decide_eq_false; by apply Hbefore].
      split; [|split].
      * intros H0. apply falsy_zero in H0. by rewrite H0.
      * intros H0 Hlate.
        assert (Js.falsy (travel_time_minutes edge) = false) as ->.
        { apply not_true_iff_false. by rewrite falsy_zero. }
        assert (Js.ltb (travel_time_minutes edge * (13 # 10))
                  (Js.minutes (now - tt)) = true) as -> by (by apply ltb_lt).
        split; [reflexivity|]. intros Hpos. lra.
      * intros H0 Hslow.
        assert (Js.falsy (travel_time_minutes edge) = false) as ->.
        { apply not_true_iff_false. by rewrite falsy_zero. }
        assert (Js.ltb (travel_time_minutes edge * (13 # 10))
                  (Js.minutes (now - tt)) = false) as -> by (by apply ltb_ge).
        reflexivity.
Qed.

(** A network with an edge to another vessel, then two edges from
    the vessel: one of 20 minutes and one of 60 minutes. *)
Definition threeEdgeNetwork : NetworkDto :=
  {| edges := Some [{| e_from := Some "cauldron_002"; e_to := Some "market";
                       travel_time_minutes := 5 |};
                    {| e_from := Some "cauldron_001"; e_to := Some "market";
                       travel_time_minutes := 20 |};
                    {| e_from := Some "cauldron_001"; e_to := Some "cauldron_002";
                       travel_time_minutes := 60 |}] |}.

Lemma delivery_delay_from_first_edge_witness :
  checkDeliveryDelay (ticketAt "T1" 0 5) None (30 * 60000) = None
  ∧ (checkDeliveryDelay (ticketAt "T1" 0 5) (Some threeEdgeNetwork) (30 * 60000)
     = Some (true, Js.minutes (30 * 60000 - 0 * 60000) - 20)
     ∧ (0 < 20 → (3 # 10) * 20 < Js.minutes (30 * 60000 - 0 * 60000) - 20))
  ∧ checkDeliveryDelay (ticketAt "T1" 0 5) (Some threeEdgeNetwork) (10 * 60000)
    = Some (false, 0).
Proof.
  split; [|split].
  - apply (delivery_delay_from_first_edge (ticketAt "T1" 0 5) None (30 * 60000)).
    by left.
  - destruct (delivery_delay_from_first_edge (ticketAt "T1" 0 5)
                (Some threeEdgeNetwork) (30 * 60000)) as [_ H].
    destruct (H threeEdgeNetwork _ (0 * 60000)%Z eq_refl eq_refl eq_refl eq_refl)
      as [_ Hfirst].
    apply (Hfirst
             [{| e_from := Some "cauldron_002"; e_to := Some "market";
                 travel_time_minutes := 5 |}]
             {| e_from := Some "cauldron_001"; e_to := Some "market";
                travel_time_minutes := 20 |}
             [{| e_from := Some "cauldron_001"; e_to := Some "cauldron_002";
                 travel_time_minutes := 60 |}]).
    + reflexivity.
    + reflexivity.
    + intros e He. apply list_elem_of_singleton in He as ->. discriminate.
    + vm_compute. discriminate.
    + reflexivity.
  - destruct (delivery_delay_from_first_edge (ticketAt "T1" 0 5)
                (Some threeEdgeNetwork) (10 * 60000)) as [_ H].
    destruct (H threeEdgeNetwork _ (0 * 60000)%Z eq_refl eq_refl eq_refl eq_refl)
      as [_ Hfirst].
    apply (Hfirst
             [{| e_from := Some "cauldron_002"; e_to := Some "market";
                 travel_time_minutes := 5 |}]
             {| e_from := Some "cauldron_001"; e_to := Some "market";
                travel_time_minutes := 20 |}
             [{| e_from := Some "cauldron_001"; e_to := Some "cauldron_002";
                 travel_time_minutes := 60 |}]).
    + reflexivity.
    + reflexivity.
    + intros e He. apply list_elem_of_singleton in He as ->. discriminate.
    + vm_compute. discriminate.
    + vm_compute. discriminate.
Defined.

(** ** The sign of the fill-rate estimate *)

Lemma medianOfSorted_pos (s : list Q) :
  Forall (λ x, 0 < x) s → s ≠ [] → 0 < medianOfSorted s.
Proof.
  intros Hs Hne. unfold medianOfSorted.
  assert (0 < length s)%nat as Hlen by (destruct s; [done|simpl; lia]).
  pose proof (Nat.div_mod_eq (length s) 2) as Hdm.
  pose proof (Nat.mod_upper_bound (length s) 2 ltac:(lia)) as Hmod.
  set (mid := (length s / 2)%nat) in *.
  destruct (lookup_lt_is_Some_2 s mid ltac:(lia)) as [b Hb].
  pose proof (Forall_lookup_1 _ _ _ _ Hs Hb) as Hbpos. simpl in Hbpos.
  destruct (length s mod 2 =? 0)%nat eqn:Ev.
  - apply Nat.eqb_eq in Ev.
    destruct (lookup_lt_is_Some_2 s (mid - 1) ltac:(lia)) as [a Ha].
    pose proof (Forall_lookup_1 _ _ _ _ Hs Ha) as Hapos. simpl in Hapos.
    rewrite !nth_lookup, Ha, Hb. simpl.
    apply Qlt_shift_div_l; lra.
  - rewrite nth_lookup, Hb. exact Hbpos.
Qed.

(** The estimate is never negative, whatever the lookback; it is
    positive exactly when there are at least two samples and some pair
    of consecutive samples is counted. *)
Theorem fill_rate_sign :
  ∀ (vid : string) (data : list HistoricalDataDto) (lookback : Z),
    let cutoff :=
      (from_option h_timestamp 0 (last data) - lookback * 60 * 1000)%Z in
    0 <= calculateFillRate vid data lookback
    ∧ (0 < calculateFillRate vid data lookback
       ↔ (2 ≤ length data)%nat
         ∧ positiveSlopesOf (levelKey vid) cutoff data ≠ []).
Proof.
  intros vid data lookback cutoff. unfold calculateFillRate.
  destruct (length data <? 2)%nat eqn:El.
  - apply Nat.ltb_lt in El. split; [lra|]. split; [lra|]. intros [? _]. lia.
  - apply Nat.ltb_ge in El. destruct data as [|first rest]; [simpl in El; lia|].
    rewrite collectSlopes_spec. simpl app. cbv zeta. fold cutoff.
    pose proof (positiveSlopesOf_positive (levelKey vid) cutoff (first :: rest))
      as Hpos.
    destruct (positiveSlopesOf (levelKey vid) cutoff (first :: rest))
      as [|s0 more] eqn:Es.
    + simpl. split; [lra|]. split; [lra|]. intros [_ H]. done.
    + assert (0 < medianOfSorted (sortBy id (s0 :: more))) as Hm.
      { apply medianOfSorted_pos.
        - rewrite sortBy_perm. exact Hpos.
        - intros Hnil. pose proof (sortBy_perm (s0 :: more)) as Hp.
          rewrite Hnil in Hp. by apply Permutation_nil_l in Hp. }
      change (length (s0 :: more) =? 0)%nat with false. cbv iota.
      split; [lra|]. split; [done|]. intros _. exact Hm.
Qed.

Lemma fill_rate_sign_witness :
  0 < calculateFillRate "cauldron_001" risingHistory 60.
Proof.
  apply (fill_rate_sign "cauldron_001" risingHistory 60).
  split; [simpl; lia|]. vm_compute. discriminate.
Defined.

(** ** What each part of the body leaves alone *)

Ltac frame_of f := unfold f; repeat case_match; repeat split; reflexivity.

Lemma updateFillRate_frame id fr st :
  let st' := updateFillRate id fr st in
  lastLevels st' = lastLevels st
  ∧ discrepancyCounts st' = discrepancyCounts st
  ∧ lastStableTime st' = lastStableTime st
  ∧ acknowledgedAlerts st' = acknowledgedAlerts st
  ∧ criticalLevelAlerts st' = criticalLevelAlerts st.
Proof. frame_of updateFillRate. Qed.

Lemma reportDiscrepancy_frame cauldron id now d mt st :
  let st' := fst (reportDiscrepancy cauldron id now d mt st) in
  baselineFillRates st' = baselineFillRates st
  ∧ lastLevels st' = lastLevels st
  ∧ acknowledgedAlerts st' = acknowledgedAlerts st
  ∧ criticalLevelAlerts st' = criticalLevelAlerts st
  ∧ activeDrains st' = activeDrains st.
Proof. frame_of reportDiscrepancy. Qed.

Lemma recordDailyTicket_frame id dateKey mt st :
  let st' := recordDailyTicket id dateKey mt st in
  baselineFillRates st' = baselineFillRates st
  ∧ lastLevels st' = lastLevels st
  ∧ discrepancyCounts st' = discrepancyCounts st
  ∧ acknowledgedAlerts st' = acknowledgedAlerts st
  ∧ criticalLevelAlerts st' = criticalLevelAlerts st
  ∧ activeDrains st' = activeDrains st.
Proof. frame_of recordDailyTicket. Qed.

Lemma finalizeDrain_frame cauldron id tickets now dateKey lvl base ref d st :
  let st' :=
    fst (finalizeDrain cauldron id tickets now dateKey lvl base ref d st) in
  baselineFillRates st' = baselineFillRates st
  ∧ lastLevels st' = lastLevels st
  ∧ acknowledgedAlerts st' = acknowledgedAlerts st
  ∧ criticalLevelAlerts st' = criticalLevelAlerts st
  ∧ activeDrains st' = delete id (activeDrains st).
Proof.
  unfold finalizeDrain.
  pose proof (reportDiscrepancy_frame cauldron id now
    (finalizedDrain now lvl d)
    (matchTicketToDrain (finalizedDrain now lvl d) tickets)
    (with_drainStore (<[ref:=finalizedDrain now lvl d]> (drainStore st)) st)) as H.
  destruct (reportDiscrepancy _ _ _ _ _ _) as [st2 alerts1].
  cbv zeta in H. simpl in H. destruct H as (H1 & H2 & H3 & H4 & H5).
  destruct (recordDailyTicket_frame id dateKey
              (matchTicketToDrain (finalizedDrain now lvl d) tickets)
              (recordDailyDrain id dateKey (finalizedDrain now lvl d) st2))
    as (R1 & R2 & _ & R3 & R4 & R5).
  simpl in *. rewrite R1, R2, R3, R4, R5. simpl. rewrite H5. done.
Qed.

Lemma drainDetection_frame c id tickets now dateKey prev lvl fr base st :
  let st' := fst (drainDetection c id tickets now dateKey prev lvl fr base st) in
  baselineFillRates st' = baselineFillRates st
  ∧ lastLevels st' = lastLevels st
  ∧ acknowledgedAlerts st' = acknowledgedAlerts st
  ∧ criticalLevelAlerts st' = criticalLevelAlerts st.
Proof.
  unfold drainDetection.
  destruct (detectDrainStart c prev lvl);
    destruct (activeDrainOf id st) as [[ref d]|]; simpl; try done.
  destruct (Js.leb _ _); [|done].
  destruct (finalizeDrain_frame c id tickets now dateKey lvl base ref d st)
    as (H1 & H2 & H3 & H4 & _). done.
Qed.

Lemma productionStopCheck_frame cauldron id now prev lvl fr st :
  let st' := fst (productionStopCheck cauldron id now prev lvl fr st) in
  baselineFillRates st' = baselineFillRates st
  ∧ lastLevels st' = lastLevels st
  ∧ discrepancyCounts st' = discrepancyCounts st
  ∧ acknowledgedAlerts st' = acknowledgedAlerts st
  ∧ criticalLevelAlerts st' = criticalLevelAlerts st
  ∧ activeDrains st' = activeDrains st.
Proof. frame_of productionStopCheck. Qed.

Lemma overflowForecast_frame cauldron id now lvl fr st :
  let st' := fst (overflowForecast cauldron id now lvl fr st) in
  baselineFillRates st' = baselineFillRates st
  ∧ lastLevels st' = lastLevels st
  ∧ discrepancyCounts st' = discrepancyCounts st
  ∧ acknowledgedAlerts st' = acknowledgedAlerts st
  ∧ criticalLevelAlerts st' = criticalLevelAlerts st
  ∧ activeDrains st' = activeDrains st.
Proof. frame_of overflowForecast. Qed.

Lemma criticalLevelCheck_frame cauldron id now prev lvl st :
  let st' := fst (criticalLevelCheck cauldron id now prev lvl st) in
  baselineFillRates st' = baselineFillRates st
  ∧ lastLevels st' = lastLevels st
  ∧ discrepancyCounts st' = discrepancyCounts st
  ∧ acknowledgedAlerts st' = acknowledgedAlerts st
  ∧ activeDrains st' = activeDrains st.
Proof. frame_of criticalLevelCheck. Qed.

(** The body of a vessel that is not skipped, part by part. *)
Lemma processCauldron_parts state hist tickets now levels dateKey st alerts c id :
  c_id c = Some id →
  skipped c = false →
  let lvl := Js.getOr (levels !! levelKey id) 0 in
  let prev := Js.getOr (lastLevels state !! id) lvl in
  let fr := calculateFillRate id hist 60 in
  let base := Js.getOr (baselineFillRates st !! id) fr in
  let rA := drainDetection c id tickets now dateKey prev lvl fr base
              (updateFillRate id fr st) in
  let rG := productionStopCheck c id now prev lvl fr (fst rA) in
  let r6 := overflowForecast c id now lvl fr (fst rG) in
  let rL := criticalLevelCheck c id now prev lvl (fst r6) in
  processCauldron state hist tickets now levels dateKey (st, alerts) c
  = (with_lastLevels (<[id := lvl]> (lastLevels (fst rL))) (fst rL),
     alerts ++ snd rA ++ falseTicketScan c id tickets now (fst rA)
       ++ snd rG ++ snd r6 ++ snd rL).
Proof.
  intros Hid Hskip. unfold skipped in Hskip. cbv zeta.
  unfold processCauldron. rewrite Hid. rewrite Hid in Hskip. rewrite Hskip.
  destruct (drainDetection _ _ _ _ _ _ _ _ _ _) as [st2 alertsA]. simpl.
  destruct (productionStopCheck _ _ _ _ _ _ _) as [st3 alertsG]. simpl.
  destruct (overflowForecast _ _ _ _ _ _) as [st4 alerts6]. simpl.
  destruct (criticalLevelCheck _ _ _ _ _ _) as [st5 alertsL]. reflexivity.
Qed.

(** ** Acknowledged alerts *)

(** The alerts with an id that does not depend on the tick. *)
Definition edgeAlert (a : Alert) : Prop :=
  a_type a = overflow ∨ a_type a = critical_level.

Definition respectsAcknowledged (ack : gset string) (a : Alert) : Prop :=
  edgeAlert a → a_id a ∉ ack.

Ltac not_edge :=
  repeat constructor;
  try (intros [Hedge|Hedge]; simpl in Hedge; discriminate Hedge).

Lemma reportDiscrepancy_respects ack cauldron id now d mt st :
  Forall (respectsAcknowledged ack)
    (snd (reportDiscrepancy cauldron id now d mt st)).
Proof.
  unfold reportDiscrepancy, assessDiscrepancy.
  destruct mt as [t|]; simpl.
  - repeat case_match; simplify_eq; simpl; not_edge.
  - case_match; not_edge.
Qed.

Lemma drainDetection_respects ack c id tickets now dateKey prev lvl fr base st :
  Forall (respectsAcknowledged ack)
    (snd (drainDetection c id tickets now dateKey prev lvl fr base st)).
Proof.
  unfold drainDetection.
  destruct (detectDrainStart c prev lvl);
    destruct (activeDrainOf id st) as [[ref d]|]; simpl; try constructor.
  destruct (Js.leb _ _); [|constructor].
  rewrite finalizeDrain_alerts. apply Forall_app. split.
  - apply reportDiscrepancy_respects.
  - case_match; not_edge.
Qed.

Lemma falseTicketScan_respects ack cauldron id tickets now st :
  Forall (respectsAcknowledged ack) (falseTicketScan cauldron id tickets now st).
Proof.
  unfold falseTicketScan. apply Forall_fmap, Forall_forall.
  intros t _ [H|H]; discriminate H.
Qed.

Lemma productionStopCheck_respects ack cauldron id now prev lvl fr st :
  Forall (respectsAcknowledged ack)
    (snd (productionStopCheck cauldron id now prev lvl fr st)).
Proof. unfold productionStopCheck. repeat case_match; simpl; not_edge. Qed.

Lemma overflowForecast_respects cauldron id now lvl fr st :
  Forall (respectsAcknowledged (acknowledgedAlerts st))
    (snd (overflowForecast cauldron id now lvl fr st)).
Proof.
  unfold overflowForecast. destruct (Js.ltb 0 fr); [|constructor]. simpl.
  destruct (Js.leb 9 _ && Js.leb _ 11); simpl; [|constructor].
  case_bool_decide as Hack; simpl; [constructor|].
  destruct (Js.ltb _ 240); constructor; [|constructor].
  intros _. exact Hack.
Qed.

Lemma criticalLevelCheck_respects cauldron id now prev lvl st :
  Forall (respectsAcknowledged (acknowledgedAlerts st))
    (snd (criticalLevelCheck cauldron id now prev lvl st)).
Proof.
  unfold criticalLevelCheck.
  destruct (Js.ltb 80 _ && Js.leb _ 80).
  - case_bool_decide as Hack; simpl; [constructor|].
    case_bool_decide; simpl; constructor; [|constructor].
    intros _. exact Hack.
  - case_match; constructor.
Qed.

Lemma processCauldron_acknowledged state hist tickets now levels dateKey acc c :
  acknowledgedAlerts
    (fst (processCauldron state hist tickets now levels dateKey acc c))
  = acknowledgedAlerts (fst acc)
  ∧ (Forall (respectsAcknowledged (acknowledgedAlerts (fst acc))) (snd acc) →
     Forall (respectsAcknowledged (acknowledgedAlerts (fst acc)))
       (snd (processCauldron state hist tickets now levels dateKey acc c))).
Proof.
  destruct (skipped c) eqn:Hskip; [by rewrite processCauldron_skipped|].
  destruct (c_id c) as [id|] eqn:Hid; [|unfold skipped in Hskip; by rewrite Hid in Hskip].
  destruct acc as [st alerts].
  rewrite (processCauldron_parts _ _ _ _ _ _ _ _ _ id Hid Hskip). cbv zeta.
  set (lvl := Js.getOr (levels !! levelKey id) 0).
  set (prev := Js.getOr (lastLevels state !! id) lvl).
  set (fr := calculateFillRate id hist 60).
  set (base := Js.getOr (baselineFillRates st !! id) fr).
  set (st1 := updateFillRate id fr st).
  set (rA := drainDetection c id tickets now dateKey prev lvl fr base st1).
  set (rG := productionStopCheck c id now prev lvl fr (fst rA)).
  set (r6 := overflowForecast c id now lvl fr (fst rG)).
  set (rL := criticalLevelCheck c id now prev lvl (fst r6)).
  destruct (updateFillRate_frame id fr st) as (_ & _ & _ & E1 & _).
  destruct (drainDetection_frame c id tickets now dateKey prev lvl fr base st1)
    as (_ & _ & EA & _).
  destruct (productionStopCheck_frame c id now prev lvl fr (fst rA))
    as (_ & _ & _ & EG & _).
  destruct (overflowForecast_frame c id now lvl fr (fst rG))
    as (_ & _ & _ & E6 & _).
  destruct (criticalLevelCheck_frame c id now prev lvl (fst r6))
    as (_ & _ & _ & EL & _).
  cbv zeta in *. fold st1 in E1, EA. fold rA in EA, EG. fold rG in EG, E6.
  fold r6 in E6, EL. fold rL in EL.
  assert (acknowledgedAlerts (fst rG) = acknowledgedAlerts st) as HG
    by congruence.
  assert (acknowledgedAlerts (fst r6) = acknowledgedAlerts st) as H6
    by congruence.
  simpl. split; [congruence|]. intros Hold.
  repeat (apply Forall_app; split); try exact Hold.
  - apply drainDetection_respects.
  - apply falseTicketScan_respects.
  - apply productionStopCheck_respects.
  - rewrite <- HG. apply overflowForecast_respects.
  - rewrite <- H6. apply criticalLevelCheck_respects.
Qed.

Lemma vesselLoop_acknowledged state hist tickets now levels dateKey cs :
  ∀ acc,
    let res :=
      fold_left (processCauldron state hist tickets now levels dateKey) cs acc in
    acknowledgedAlerts (fst res) = acknowledgedAlerts (fst acc)
    ∧ (Forall (respectsAcknowledged (acknowledgedAlerts (fst acc))) (snd acc) →
       Forall (respectsAcknowledged (acknowledgedAlerts (fst acc))) (snd res)).
Proof.
  induction cs as [|c cs IH]; intros acc; simpl; [done|].
  destruct (processCauldron_acknowledged state hist tickets now levels dateKey
              acc c) as [E1 H1].
  destruct (IH (processCauldron state hist tickets now levels dateKey acc c))
    as [E2 H2].
  rewrite E1 in E2, H2. split; [exact E2|]. intros Hacc. apply H2, H1, Hacc.
Qed.

Lemma monitorRealTime_acknowledged tz cs hist tickets now st couriers network :
  let res := monitorRealTime tz cs hist tickets now st couriers network in
  acknowledgedAlerts (snd res) = acknowledgedAlerts st
  ∧ Forall (respectsAcknowledged (acknowledgedAlerts st)) (fst res).
Proof.
  unfold monitorRealTime.
  destruct (nearestSample now hist) as [p|]; [|split; [done|constructor]].
  destruct (vesselLoop_acknowledged st hist tickets now (cauldron_levels p)
              (dayOf now) cs (st, [])) as [E H].
  destruct (fold_left _ cs (st, [])) as [st' alerts]. simpl in *.
  split; [exact E|].
  repeat (apply Forall_app; split).
  - apply H. constructor.
  - unfold dailyAudit. case_match; [|constructor].
    destruct (dailyTotals _ _ _). case_match; not_edge.
  - eapply Forall_impl; [apply deliveryChecks_types|].
    intros a Ha [H1|H1]; unfold delayAlert in Ha; congruence.
Qed.

(** A tick never changes the set of acknowledged alerts, and no run
    pushes an overflow or critical-level alert whose id is in the set
    it started with: once such an id is acknowledged the alert stays
    silent for good (the set is only ever extended by
    [acknowledgeAlert]). *)
Theorem acknowledged_alerts_stay_silent :
  ∀ tz cs hist tickets times st,
    let res := runTicks tz cs hist tickets times st in
    acknowledgedAlerts (snd res) = acknowledgedAlerts st
    ∧ (∀ a, a ∈ fst res →
         a_type a = overflow ∨ a_type a = critical_level →
         a_id a ∉ acknowledgedAlerts st).
Proof.
  intros tz cs hist tickets times.
  induction times as [|t times IH]; intros st; simpl.
  - split; [done|]. intros a Ha. inversion Ha.
  - destruct (monitorRealTime_acknowledged tz cs hist tickets t st None None)
      as [E1 H1].
    destruct (monitorRealTime _ _ _ _ _ _ _ _) as [alerts st1].
    specialize (IH st1). cbv zeta in IH.
    destruct (runTicks _ _ _ _ _ _) as [alerts' st2].
    simpl in *. destruct IH as [E2 H2]. rewrite E1 in E2, H2.
    split; [exact E2|]. intros a Ha Hedge.
    apply elem_of_app in Ha as [Ha|Ha]; [|by apply H2].
    rewrite Forall_forall in H1. by apply H1.
Qed.

Lemma acknowledged_alerts_stay_silent_witness :
  overflowAlertsOf
    (fst (runTicks 0 [vessel 100] risingHistory [] (minutesFrom 0 3)
            (acknowledgeAlert initializeMonitoringState "overflow-cauldron_001")))
  = []
  ∧ ∃ a, a ∈ fst risingRun ∧ a_type a = overflow
         ∧ a_id a ∉ acknowledgedAlerts initializeMonitoringState.
Proof.
  split; [vm_compute; reflexivity|].
  assert (∃ a l, fst risingRun = a :: l ∧ a_type a = overflow)
    as (a & l & E & Ht).
  { do 2 eexists. split; [vm_compute; reflexivity|reflexivity]. }
  exists a. split; [rewrite E; by left|]. split; [exact Ht|].
  apply (acknowledged_alerts_stay_silent 0 [vessel 100] risingHistory []
           (minutesFrom 0 3) initializeMonitoringState).
  - fold risingRun. rewrite E. by left.
  - by left.
Defined.

(** Acknowledging is idempotent and order-independent, and it leaves
    every other part of the state as it was. *)
Theorem acknowledge_idempotent :
  ∀ (st : MonitoringState) (x y : string),
    acknowledgeAlert (acknowledgeAlert st x) x = acknowledgeAlert st x
    ∧ acknowledgeAlert (acknowledgeAlert st x) y
      = acknowledgeAlert (acknowledgeAlert st y) x
    ∧ x ∈ acknowledgedAlerts (acknowledgeAlert st x)
    ∧ acknowledgedAlerts st ⊆ acknowledgedAlerts (acknowledgeAlert st x)
    ∧ with_acknowledgedAlerts (acknowledgedAlerts st) (acknowledgeAlert st x)
      = st.
Proof.
  intros st x y. unfold acknowledgeAlert, with_acknowledgedAlerts. simpl.
  split; [f_equal; by rewrite (assoc_L (∪)), (idemp_L (∪))|].
  split; [f_equal; by rewrite !(assoc_L (∪)), (comm_L (∪) {[y]})|].
  split; [apply elem_of_union_l, elem_of_singleton; reflexivity|].
  split; [apply union_subseteq_r|]. by destruct st.
Qed.

(** ** The baseline fill rate *)

Lemma processCauldron_baseline state hist tickets now levels dateKey st alerts c id :
  c_id c = Some id →
  skipped c = false →
  baselineFillRates
    (fst (processCauldron state hist tickets now levels dateKey (st, alerts) c))
  = baselineFillRates (updateFillRate id (calculateFillRate id hist 60) st).
Proof.
  intros Hid Hskip.
  rewrite (processCauldron_parts _ _ _ _ _ _ _ _ _ id Hid Hskip). cbv zeta.
  set (lvl := Js.getOr (levels !! levelKey id) 0).
  set (prev := Js.getOr (lastLevels state !! id) lvl).
  set (fr := calculateFillRate id hist 60).
  set (base := Js.getOr (baselineFillRates st !! id) fr).
  set (st1 := updateFillRate id fr st).
  set (rA := drainDetection c id tickets now dateKey prev lvl fr base st1).
  set (rG := productionStopCheck c id now prev lvl fr (fst rA)).
  set (r6 := overflowForecast c id now lvl fr (fst rG)).
  set (rL := criticalLevelCheck c id now prev lvl (fst r6)).
  destruct (drainDetection_frame c id tickets now dateKey prev lvl fr base st1)
    as (EA & _).
  destruct (productionStopCheck_frame c id now prev lvl fr (fst rA)) as (EG & _).
  destruct (overflowForecast_frame c id now lvl fr (fst rG)) as (E6 & _).
  destruct (criticalLevelCheck_frame c id now prev lvl (fst r6)) as (EL & _).
  cbv zeta in *. fold rA in EA, EG. fold rG in EG, E6. fold r6 in E6, EL.
  fold rL in EL. rewrite <- EA, <- EG, <- E6, <- EL. reflexivity.
Qed.

(** The baseline entries are kept, and they are positive. *)
Definition baselineKept (b0 : gmap string Q) (st : MonitoringState) : Prop :=
  (∀ k b, b0 !! k = Some b → baselineFillRates st !! k = Some b)
  ∧ ((∀ k b, b0 !! k = Some b → 0 < b) →
     ∀ k b, baselineFillRates st !! k = Some b → 0 < b).

Lemma updateFillRate_baselineKept b0 id fr st :
  baselineKept b0 st → baselineKept b0 (updateFillRate id fr st).
Proof.
  intros [Hkeep Hpos]. unfold updateFillRate.
  destruct (baselineFillRates st !! id) as [old|] eqn:Eb; [done|].
  destruct (Js.ltb 0 fr) eqn:Ef; [|done]. apply ltb_lt in Ef.
  split; simpl.
  - intros k b Hk. destruct (decide (id = k)) as [<-|Hne].
    + apply Hkeep in Hk. congruence.
    + rewrite lookup_insert_ne by done. by apply Hkeep.
  - intros H0 k b Hk. destruct (decide (id = k)) as [<-|Hne].
    + rewrite lookup_insert_eq in Hk. by injection Hk as <-.
    + rewrite lookup_insert_ne in Hk by done. by eapply Hpos.
Qed.

Lemma monitorRealTime_baselineKept b0 tz cs hist tickets now st couriers network :
  baselineKept b0 st →
  baselineKept b0
    (snd (monitorRealTime tz cs hist tickets now st couriers network)).
Proof.
  intros Hst. unfold monitorRealTime.
  destruct (nearestSample now hist) as [p|]; [|exact Hst].
  assert (∀ acc, baselineKept b0 (fst acc) →
            baselineKept b0
              (fst (fold_left
                      (processCauldron st hist tickets now (cauldron_levels p)
                         (dayOf now)) cs acc))) as Hloop.
  { induction cs as [|c cs IH]; intros acc Hacc; [exact Hacc|].
    simpl. apply IH.
    destruct (skipped c) eqn:Hskip; [by rewrite processCauldron_skipped|].
    destruct (c_id c) as [id|] eqn:Hid;
      [|unfold skipped in Hskip; by rewrite Hid in Hskip].
    destruct acc as [st0 alerts0].
    pose proof (processCauldron_baseline st hist tickets now (cauldron_levels p)
                  (dayOf now) st0 alerts0 c id Hid Hskip) as E.
    pose proof (updateFillRate_baselineKept b0 id
                  (calculateFillRate id hist 60) st0 Hacc) as H1.
    unfold baselineKept in *. rewrite E. exact H1. }
  specialize (Hloop (st, []) Hst).
  destruct (fold_left _ cs (st, [])) as [st' alerts]. exact Hloop.
Qed.

(** The baseline fill rate is sticky: an entry that a vessel has
    before a run is the same after it, whatever the later estimates
    are; and since an entry is only ever created from a positive
    estimate, a run that starts with positive baselines (or none) ends
    with positive baselines. *)
Theorem baseline_is_sticky :
  ∀ tz cs hist tickets times st,
    let st' := snd (runTicks tz cs hist tickets times st) in
    (∀ k b, baselineFillRates st !! k = Some b →
            baselineFillRates st' !! k = Some b)
    ∧ ((∀ k b, baselineFillRates st !! k = Some b → 0 < b) →
       ∀ k b, baselineFillRates st' !! k = Some b → 0 < b).
Proof.
  intros tz cs hist tickets times st.
  change (baselineKept (baselineFillRates st)
            (snd (runTicks tz cs hist tickets times st))).
  assert (baselineKept (baselineFillRates st) st) as Hst by (split; done).
  revert Hst. generalize (baselineFillRates st) as b0. revert st.
  induction times as [|t times IH]; intros st b0 Hst; [exact Hst|].
  simpl.
  pose proof (monitorRealTime_baselineKept b0 tz cs hist tickets t st None None
                Hst) as H1.
  destruct (monitorRealTime _ _ _ _ _ _ _ _) as [alerts st1].
  specialize (IH st1 b0 H1).
  destruct (runTicks _ _ _ _ _ _) as [alerts' st2]. exact IH.
Qed.

Lemma baseline_is_sticky_witness :
  baselineFillRates
    (snd (runTicks 0 [vessel 100] twoDrainsHistory [] (minutesFrom 0 3)
            (snd risingRun))) !! "cauldron_001"
  = baselineFillRates (snd risingRun) !! "cauldron_001"
  ∧ ∃ b, baselineFillRates (snd risingRun) !! "cauldron_001" = Some b ∧ 0 < b.
Proof.
  assert (∃ b, baselineFillRates (snd risingRun) !! "cauldron_001" = Some b)
    as [b Hb] by (eexists; vm_compute; reflexivity).
  destruct (baseline_is_sticky 0 [vessel 100] risingHistory [] (minutesFrom 0 3)
              initializeMonitoringState) as [_ Hpos].
  destruct (baseline_is_sticky 0 [vessel 100] twoDrainsHistory []
              (minutesFrom 0 3) (snd risingRun)) as [Hkeep _].
  split.
  - rewrite Hb. by apply Hkeep.
  - exists b. split; [exact Hb|]. apply (Hpos ltac:(done) "cauldron_001" b).
    exact Hb.
Defined.

(** ** Quotients against thresholds *)

Lemma quotient_lt (a m k : Q) : 0 < m → (k < a / m ↔ k * m < a).
Proof.
  intros Hm. assert (¬ m == 0) as Hne by lra.
  pose proof (Qmult_div_r a m Hne) as E.
  rewrite <- E at 2. rewrite (Qmult_comm m (a / m)).
  symmetry. apply Qmult_lt_r. exact Hm.
Qed.

Lemma quotient_le (a m k : Q) : 0 < m → (a / m <= k ↔ a <= k * m).
Proof.
  intros Hm. assert (¬ m == 0) as Hne by lra.
  pose proof (Qmult_div_r a m Hne) as E.
  rewrite <- E at 2. rewrite (Qmult_comm m (a / m)).
  symmetry. apply Qmult_le_r. exact Hm.
Qed.

Lemma quotient_ge (a m k : Q) : 0 < m → (k <= a / m ↔ k * m <= a).
Proof.
  intros Hm. assert (¬ m == 0) as Hne by lra.
  pose proof (Qmult_div_r a m Hne) as E.
  rewrite <- E at 2. rewrite (Qmult_comm m (a / m)).
  symmetry. apply Qmult_le_r. exact Hm.
Qed.

(** ** The critical level *)

Lemma percentage_above (a m : Q) :
  0 < m → (Js.ltb 80 (a / m * 100) = true ↔ (80 # 100) * m < a).
Proof.
  intros Hm. rewrite ltb_lt, <- (quotient_lt a m (80 # 100) Hm).
  split; intros H; lra.
Qed.

Lemma percentage_below (a m : Q) :
  0 < m → (Js.leb (a / m * 100) 80 = true ↔ a <= (80 # 100) * m).
Proof.
  intros Hm. rewrite leb_le, <- (quotient_le a m (80 # 100) Hm).
  split; intros H; lra.
Qed.

(** For a vessel of positive capacity the critical-level check pushes
    its alert exactly when the level is above 80% of the capacity,
    the previous level was not, the alert id is not acknowledged and
    the vessel is not flagged as already alerted; it then flags the
    vessel.  While the previous level is above 80% nothing is pushed,
    and the flag is cleared when the level comes back to 80% or less. *)
Theorem critical_level_on_upward_crossing :
  ∀ (c : CauldronDto) (id : string) (now : Z) (prev lvl : Q)
    (st : MonitoringState),
    0 < max_volume c →
    let res := criticalLevelCheck c id now prev lvl st in
    let limit := (80 # 100) * max_volume c in
    (snd res = [criticalLevelAlert c id now lvl] ∨ snd res = [])
    ∧ (snd res ≠ [] ↔
         limit < lvl ∧ prev <= limit
         ∧ (criticalLevelAlertId id ∉ acknowledgedAlerts st)
         ∧ (id ∉ criticalLevelAlerts st))
    ∧ (snd res ≠ [] → id ∈ criticalLevelAlerts (fst res))
    ∧ (limit < prev → snd res = [])
    ∧ (lvl <= limit → limit < prev → id ∉ criticalLevelAlerts (fst res)).
Proof.
  intros c id now prev lvl st Hm res limit. subst res limit.
  unfold criticalLevelCheck.
  pose proof (percentage_above lvl (max_volume c) Hm) as Habove.
  pose proof (percentage_below prev (max_volume c) Hm) as Hbelow.
  pose proof (percentage_above prev (max_volume c) Hm) as Hpabove.
  pose proof (percentage_below lvl (max_volume c) Hm) as Hlbelow.
  destruct (Js.ltb 80 (lvl / max_volume c * 100)) eqn:E1;
    destruct (Js.leb (prev / max_volume c * 100) 80) eqn:E2; simpl.
  - apply proj1 in Habove. apply proj1 in Hbelow.
    specialize (Habove eq_refl). specialize (Hbelow eq_refl).
    case_bool_decide as Hack; simpl.
    + split; [by right|]. split; [split; [done|tauto]|].
      split; [done|]. split; [done|]. intros; lra.
    + case_bool_decide as Hset; simpl.
      * split; [by right|]. split; [split; [done|tauto]|].
        split; [done|]. split; [done|]. intros; lra.
      * split; [by left|]. split; [split; [done|]; intros _; discriminate|].
        split; [intros _; apply elem_of_union_l, elem_of_singleton; reflexivity|].
        split; intros; lra.
  - assert (¬ prev <= (80 # 100) * max_volume c) as Hp.
    { intros H. apply Hbelow in H. done. }
    assert (Js.leb (lvl / max_volume c * 100) 80 = false) as ->.
    { apply not_true_iff_false. intros H. apply Hlbelow in H.
      apply proj1 in Habove. specialize (Habove eq_refl). lra. }
    simpl. split; [by right|]. split; [split; [done|tauto]|].
    split; [done|]. split; [done|].
    intros H1 H2. apply proj1 in Habove. specialize (Habove eq_refl). lra.
  - assert (¬ (80 # 100) * max_volume c < lvl) as Hl.
    { intros H. apply Habove in H. done. }
    assert (Js.leb (lvl / max_volume c * 100) 80 = true) as ->.
    { apply Hlbelow. lra. }
    assert (Js.ltb 80 (prev / max_volume c * 100) = false) as ->.
    { apply not_true_iff_false. intros H. apply Hpabove in H.
      apply proj1 in Hbelow. specialize (Hbelow eq_refl). lra. }
    simpl. split; [by right|]. split; [split; [done|tauto]|].
    split; [done|]. split; [done|].
    intros H1 H2. apply proj1 in Hbelow. specialize (Hbelow eq_refl). lra.
  - assert (¬ (80 # 100) * max_volume c < lvl) as Hl.
    { intros H. apply Habove in H. done. }
    assert (¬ prev <= (80 # 100) * max_volume c) as Hp.
    { intros H. apply Hbelow in H. done. }
    assert (Js.leb (lvl / max_volume c * 100) 80 = true) as ->.
    { apply Hlbelow. lra. }
    assert (Js.ltb 80 (prev / max_volume c * 100) = true) as ->.
    { apply Hpabove. lra. }
    simpl. split; [by right|]. split; [split; [done|tauto]|].
    split; [done|]. split; [done|].
    intros _ _. apply not_elem_of_difference. right.
    apply elem_of_singleton. reflexivity.
Qed.

Lemma critical_level_on_upward_crossing_witness :
  snd (criticalLevelCheck (vessel 100) "cauldron_001" 60000 79 81
         initializeMonitoringState) ≠ []
  ∧ snd (criticalLevelCheck (vessel 100) "cauldron_001" 60000 81 82
           initializeMonitoringState) = []
  ∧ "cauldron_001"
    ∉ criticalLevelAlerts
        (fst (criticalLevelCheck (vessel 100) "cauldron_001" 120000 81 79
                (fst (criticalLevelCheck (vessel 100) "cauldron_001" 60000 79 81
                        initializeMonitoringState)))).
Proof.
  split; [|split].
  - apply (critical_level_on_upward_crossing (vessel 100) "cauldron_001" 60000
             79 81 initializeMonitoringState); [reflexivity|].
    split; [reflexivity|]. split; [vm_compute; discriminate|].
    split; apply not_elem_of_empty.
  - apply (critical_level_on_upward_crossing (vessel 100) "cauldron_001" 60000
             81 82 initializeMonitoringState); reflexivity.
  - apply (critical_level_on_upward_crossing (vessel 100) "cauldron_001" 120000
             81 79); [reflexivity|vm_compute; discriminate|reflexivity].
Defined.

(** ** The overflow forecast *)

(** With a positive fill rate the forecast stored for the vessel is
    (capacity − level) / rate, and the overflow alert is pushed exactly
    when the level lies between capacity − 11·rate and capacity −
    9·rate and the alert id is not acknowledged (the test against 240
    minutes never decides).  Without a positive fill rate the state is
    left as it was, an earlier forecast included, and nothing is
    pushed. *)
Theorem overflow_alert_window :
  ∀ (c : CauldronDto) (id : string) (now : Z) (lvl fr : Q)
    (st : MonitoringState),
    let res := overflowForecast c id now lvl fr st in
    (0 < fr →
       overflowForecasts (fst res) !! id = Some ((max_volume c - lvl) / fr)
       ∧ (snd res ≠ [] ↔
            max_volume c - 11 * fr <= lvl ∧ lvl <= max_volume c - 9 * fr
            ∧ overflowAlertId id ∉ acknowledgedAlerts st))
    ∧ (fr <= 0 → res = (st, [])).
Proof.
  intros c id now lvl fr st res. subst res. unfold overflowForecast. split.
  - intros Hfr. assert (Js.ltb 0 fr = true) as -> by (by apply ltb_lt).
    simpl. split; [apply lookup_insert_eq|].
    pose proof (quotient_ge (max_volume c - lvl) fr 9 Hfr) as H9.
    pose proof (quotient_le (max_volume c - lvl) fr 11 Hfr) as H11.
    rewrite <- leb_le in H9, H11.
    destruct (Js.leb 9 ((max_volume c - lvl) / fr)) eqn:E9;
      destruct (Js.leb ((max_volume c - lvl) / fr) 11) eqn:E11; simpl.
    + apply proj1 in H9, H11. specialize (H9 eq_refl). specialize (H11 eq_refl).
      assert (Js.ltb ((max_volume c - lvl) / fr) 240 = true) as ->.
      { apply ltb_lt. apply leb_le in E11. lra. }
      rewrite andb_true_r.
      case_bool_decide as Hack; simpl.
      * split; [done|]. intros (_ & _ & H). done.
      * split; [|intros _; discriminate]. intros _.
        split; [lra|]. split; [lra|done].
    + split; [done|]. intros (H & _ & _). exfalso.
      assert (false = true) by (apply H11; lra). done.
    + split; [done|]. intros (_ & H & _). exfalso.
      assert (false = true) by (apply H9; lra). done.
    + split; [done|]. intros (_ & H & _). exfalso.
      assert (false = true) by (apply H9; lra). done.
  - intros Hfr. assert (Js.ltb 0 fr = false) as -> by (by apply ltb_ge).
    reflexivity.
Qed.

Lemma overflow_alert_window_witness :
  snd (overflowForecast (vessel 100) "cauldron_001" 60000 90 1
         initializeMonitoringState) ≠ []
  ∧ overflowForecast (vessel 100) "cauldron_001" 60000 90 0
      initializeMonitoringState
    = (initializeMonitoringState, []).
Proof.
  destruct (overflow_alert_window (vessel 100) "cauldron_001" 60000 90 1
              initializeMonitoringState) as [H1 _].
  destruct (overflow_alert_window (vessel 100) "cauldron_001" 60000 90 0
              initializeMonitoringState) as [_ H2].
  split.
  - apply H1; [reflexivity|].
    split; [vm_compute; discriminate|]. split; [vm_compute; discriminate|].
    apply not_elem_of_empty.
  - apply H2. vm_compute. discriminate.
Defined.

(** ** The discrepancy counters *)

(** The counter of a vessel as the body reads it. *)
Definition discrepancyCountOf (st : MonitoringState) (k : string) : Q :=
  Js.getOr (discrepancyCounts st !! k) 0.

Definition driftAlertsOf (alerts : list Alert) : list Alert :=
  List.filter (λ a, bool_decide (a_type a = drift)) alerts.

Lemma reportDiscrepancy_count cauldron id now d mt st k :
  discrepancyCountOf st k
  <= discrepancyCountOf (fst (reportDiscrepancy cauldron id now d mt st)) k.
Proof.
  unfold reportDiscrepancy, discrepancyCountOf.
  destruct (assessDiscrepancy d mt TOLERANCE); simpl; [|lra].
  destruct (decide (id = k)) as [<-|Hne].
  - rewrite lookup_insert_eq.
    set (old := Js.getOr (discrepancyCounts st !! id) 0).
    change (Js.getOr (Some (old + 1)) 0) with (Js.orElse (old + 1) 0).
    rewrite orElse_zero. lra.
  - rewrite lookup_insert_ne by done. lra.
Qed.

Lemma drainDetection_count c id tickets now dateKey prev lvl fr base st k :
  discrepancyCountOf st k
  <= discrepancyCountOf
       (fst (drainDetection c id tickets now dateKey prev lvl fr base st)) k.
Proof.
  unfold drainDetection.
  destruct (detectDrainStart c prev lvl);
    destruct (activeDrainOf id st) as [[ref d]|]; try apply Qle_refl.
  destruct (Js.leb DRAIN_STABILIZATION_TIME (timeSinceLastDrop now d));
    [|apply Qle_refl].
  unfold finalizeDrain.
  pose proof (reportDiscrepancy_count c id now (finalizedDrain now lvl d)
    (matchTicketToDrain (finalizedDrain now lvl d) tickets)
    (with_drainStore (<[ref:=finalizedDrain now lvl d]> (drainStore st)) st) k)
    as H.
  destruct (reportDiscrepancy _ _ _ _ _ _) as [st2 alerts1]. simpl in H.
  destruct (recordDailyTicket_frame id dateKey
              (matchTicketToDrain (finalizedDrain now lvl d) tickets)
              (recordDailyDrain id dateKey (finalizedDrain now lvl d) st2))
    as (_ & _ & E & _).
  unfold discrepancyCountOf in *. simpl. rewrite E. simpl. exact H.
Qed.

Lemma processCauldron_count state hist tickets now levels dateKey acc c k :
  discrepancyCountOf (fst acc) k
  <= discrepancyCountOf
       (fst (processCauldron state hist tickets now levels dateKey acc c)) k.
Proof.
  destruct (skipped c) eqn:Hskip; [rewrite processCauldron_skipped by done; lra|].
  destruct (c_id c) as [id|] eqn:Hid;
    [|unfold skipped in Hskip; by rewrite Hid in Hskip].
  destruct acc as [st alerts].
  rewrite (processCauldron_parts _ _ _ _ _ _ _ _ _ id Hid Hskip). cbv zeta.
  set (lvl := Js.getOr (levels !! levelKey id) 0).
  set (prev := Js.getOr (lastLevels state !! id) lvl).
  set (fr := calculateFillRate id hist 60).
  set (base := Js.getOr (baselineFillRates st !! id) fr).
  set (st1 := updateFillRate id fr st).
  pose proof (drainDetection_count c id tickets now dateKey prev lvl fr base
                st1 k) as HA.
  set (rA := drainDetection c id tickets now dateKey prev lvl fr base st1) in *.
  set (rG := productionStopCheck c id now prev lvl fr (fst rA)).
  set (r6 := overflowForecast c id now lvl fr (fst rG)).
  set (rL := criticalLevelCheck c id now prev lvl (fst r6)).
  destruct (updateFillRate_frame id fr st) as (_ & E1 & _).
  destruct (productionStopCheck_frame c id now prev lvl fr (fst rA))
    as (_ & _ & EG & _).
  destruct (overflowForecast_frame c id now lvl fr (fst rG))
    as (_ & _ & E6 & _).
  destruct (criticalLevelCheck_frame c id now prev lvl (fst r6))
    as (_ & _ & EL & _).
  cbv zeta in *. fold st1 in E1. fold rG in EG, E6. fold r6 in E6, EL.
  fold rL in EL. unfold discrepancyCountOf in *.
  change (discrepancyCounts (fst (with_lastLevels
            (<[id:=lvl]> (lastLevels (fst rL))) (fst rL),
            alerts ++ snd rA ++ falseTicketScan c id tickets now (fst rA)
              ++ snd rG ++ snd r6 ++ snd rL)))
    with (discrepancyCounts (fst rL)).
  rewrite EL, E6, EG. change (fst (st, alerts)) with st.
  rewrite <- E1. exact HA.
Qed.

Lemma monitorRealTime_count tz cs hist tickets now st couriers network k :
  discrepancyCountOf st k
  <= discrepancyCountOf
       (snd (monitorRealTime tz cs hist tickets now st couriers network)) k.
Proof.
  unfold monitorRealTime.
  destruct (nearestSample now hist) as [p|]; [|simpl; lra].
  assert (∀ acc,
            discrepancyCountOf (fst acc) k
            <= discrepancyCountOf
                 (fst (fold_left
                         (processCauldron st hist tickets now (cauldron_levels p)
                            (dayOf now)) cs acc)) k) as Hloop.
  { induction cs as [|c cs IH]; intros acc; simpl; [lra|].
    eapply Qle_trans; [|apply IH]. apply processCauldron_count. }
  specialize (Hloop (st, [])).
  destruct (fold_left _ cs (st, [])) as [st' alerts]. exact Hloop.
Qed.

(** A finalization that finds a discrepancy adds exactly one to the
    vessel's counter and pushes a drift alert exactly when the counter
    was already at 1 or more; without a discrepancy it changes nothing.
    No tick ever lowers a counter: the counters of a run only grow
    (nothing ages them out). *)
Theorem discrepancy_counter_only_grows :
  (∀ cauldron id now d mt st,
     let res := reportDiscrepancy cauldron id now d mt st in
     let before := discrepancyCountOf st id in
     match assessDiscrepancy d mt TOLERANCE with
     | None => res = (st, [])
     | Some _ =>
         discrepancyCounts (fst res) !! id = Some (before + 1)
         ∧ (driftAlertsOf (snd res) ≠ [] ↔ 1 <= before)
     end)
  ∧ (∀ tz cs hist tickets times st k,
       discrepancyCountOf st k
       <= discrepancyCountOf (snd (runTicks tz cs hist tickets times st)) k).
Proof.
  split.
  - intros cauldron id now d mt st. cbv zeta. unfold reportDiscrepancy.
    destruct (assessDiscrepancy d mt TOLERANCE) as [disc|] eqn:Ea; [|done].
    simpl. split; [apply lookup_insert_eq|].
    fold (discrepancyCountOf st id).
    assert (a_type (discrepancyAlert cauldron id now disc d mt) ≠ drift) as Hty.
    { unfold assessDiscrepancy in Ea. simpl.
      destruct mt; repeat case_match; simplify_eq; done. }
    unfold driftAlertsOf. simpl. rewrite bool_decide_eq_false_2 by exact Hty.
    destruct (Js.leb 2 (discrepancyCountOf st id + 1)) eqn:E; simpl.
    + apply leb_le in E. split; [intros _; lra|discriminate].
    + apply leb_gt in E. split; [done|]. intros H. lra.
  - intros tz cs hist tickets times. induction times as [|t times IH];
      intros st k; simpl; [lra|].
    pose proof (monitorRealTime_count tz cs hist tickets t st None None k) as H1.
    destruct (monitorRealTime _ _ _ _ _ _ _ _) as [alerts st1].
    specialize (IH st1 k). destruct (runTicks _ _ _ _ _ _) as [alerts' st2].
    simpl in *. lra.
Qed.

(** ** Level keys *)

Fixpoint hasUnderscore (s : string) : bool :=
  match s with
  | EmptyString => false
  | String c s' => Ascii.eqb c "_"%char || hasUnderscore s'
  end.

Lemma append_cons (c : ascii) (a b : string) :
  String c a +:+ b = String c (a +:+ b).
Proof. reflexivity. Qed.

Lemma append_snoc (a : string) (c : ascii) (b : string) :
  (a +:+ String c EmptyString) +:+ b = a +:+ String c b.
Proof.
  induction a as [|x a IH]; [reflexivity|].
  rewrite !append_cons. by rewrite IH.
Qed.

Lemma append_length (a b : string) :
  String.length (a +:+ b) = (String.length a + String.length b)%nat.
Proof.
  induction a as [|x a IH]; [reflexivity|].
  rewrite append_cons. simpl. by rewrite IH.
Qed.

Lemma append_hasUnderscore (a b : string) :
  hasUnderscore (a +:+ b) = hasUnderscore a || hasUnderscore b.
Proof.
  induction a as [|x a IH]; [reflexivity|].
  rewrite append_cons. simpl. rewrite IH. by rewrite orb_assoc.
Qed.

Lemma lastSegmentAux_plain (s cur : string) :
  hasUnderscore s = false → lastSegmentAux s cur = cur +:+ s.
Proof.
  revert cur. induction s as [|c s IH]; intros cur H; simpl.
  - induction cur as [|x cur IHc]; [reflexivity|].
    rewrite append_cons. by rewrite <- IHc.
  - simpl in H. apply orb_false_iff in H as [Hc Hs]. rewrite Hc.
    rewrite IH by exact Hs. apply append_snoc.
Qed.

Lemma lastSegmentAux_clean (s cur : string) :
  hasUnderscore cur = false → hasUnderscore (lastSegmentAux s cur) = false.
Proof.
  revert cur. induction s as [|c s IH]; intros cur H; simpl; [exact H|].
  destruct (Ascii.eqb c "_") eqn:Ec; [by apply IH|].
  apply IH. rewrite append_hasUnderscore, H. simpl. rewrite Ec. reflexivity.
Qed.

Lemma lastSegmentAux_after (a b cur : string) :
  lastSegmentAux (a +:+ String "_" b) cur = lastSegmentAux b EmptyString.
Proof.
  revert cur. induction a as [|x a IH]; intros cur.
  - reflexivity.
  - rewrite append_cons. simpl. destruct (Ascii.eqb x "_"); apply IH.
Qed.

Lemma zeros_length n : String.length (zeros n) = n.
Proof. induction n as [|n IH]; simpl; [done|]. by rewrite IH. Qed.

Lemma zeros_clean n : hasUnderscore (zeros n) = false.
Proof. induction n as [|n IH]; simpl; [done|]. exact IH. Qed.

Lemma padStart3_long (s : string) :
  (3 ≤ String.length s)%nat → padStart3 s = s.
Proof.
  intros H. unfold padStart3.
  replace (3 - String.length s)%nat with 0%nat by lia. reflexivity.
Qed.

(** The key under which a vessel's level is read is [cauldron_]
    followed by the part of the id after its last underscore, padded
    with zeros to three characters: the fallback to [001] is never
    taken, the key of a key is the key itself, and an id that ends in
    an underscore and a segment of three or more characters gives
    [cauldron_] and that segment. *)
Theorem level_key_shape :
  ∀ (vid : string),
    levelKey vid = "cauldron_" +:+ padStart3 (lastSegment vid)
    ∧ (3 ≤ String.length (padStart3 (lastSegment vid)))%nat
    ∧ hasUnderscore (padStart3 (lastSegment vid)) = false
    ∧ levelKey (levelKey vid) = levelKey vid
    ∧ (∀ front seg,
         hasUnderscore seg = false → (3 ≤ String.length seg)%nat →
         levelKey (front +:+ String "_" seg) = "cauldron_" +:+ seg).
Proof.
  intros vid.
  assert (∀ s, (3 ≤ String.length (padStart3 s))%nat) as Hlen.
  { intros s. unfold padStart3. rewrite append_length, zeros_length. lia. }
  assert (∀ s, levelKey s = "cauldron_" +:+ padStart3 (lastSegment s)) as Hkey.
  { intros s. unfold levelKey. cbv zeta. case_decide as He; [|reflexivity].
    specialize (Hlen (lastSegment s)). rewrite He in Hlen. simpl in Hlen. lia. }
  assert (hasUnderscore (padStart3 (lastSegment vid)) = false) as Hclean.
  { unfold padStart3. rewrite append_hasUnderscore, zeros_clean. simpl.
    by apply lastSegmentAux_clean. }
  assert (∀ front seg,
            hasUnderscore seg = false → (3 ≤ String.length seg)%nat →
            levelKey (front +:+ String "_" seg) = "cauldron_" +:+ seg) as Hseg.
  { intros front seg Hs Hl. rewrite Hkey. unfold lastSegment.
    rewrite lastSegmentAux_after, lastSegmentAux_plain by exact Hs.
    change (EmptyString +:+ seg) with seg. by rewrite padStart3_long. }
  split; [apply Hkey|]. split; [apply Hlen|]. split; [exact Hclean|].
  split; [|exact Hseg].
  rewrite (Hkey vid).
  change ("cauldron_" +:+ padStart3 (lastSegment vid))
    with ("cauldron" +:+ String "_" (padStart3 (lastSegment vid))).
  apply Hseg; [exact Hclean|apply Hlen].
Qed.

Lemma level_key_shape_witness :
  levelKey ("vessel" +:+ String "_" "0042") = "cauldron_" +:+ "0042"
  ∧ levelKey "7" = "cauldron_007".
Proof.
  split; [|reflexivity].
  apply (level_key_shape "x"); [reflexivity|simpl; lia].
Defined.

(** ** Production stops *)

(** A production stop is reported only for a positive fill rate and
    a stable time recorded more than 30 minutes before the tick, with
    a level change under 0.1 per minute; the duration reported is the
    time since that stable time.  On a tick for which no stable time
    is recorded yet the vessel is never reported as stopped. *)
Theorem production_stop_needs_thirty_minutes :
  ∀ (lvl prev td fr : Q) (lastStable : option Z) (now : Z),
    let res := detectProductionStop lvl prev td fr lastStable now in
    (fst res = true →
       0 < fr
       ∧ (0 < td → (lvl - prev) / td < 1 # 10)
       ∧ ∃ t0, lastStable = Some t0
               ∧ 30 < Js.minutes (now - t0)
               ∧ snd res = Js.minutes (now - t0))
    ∧ (lastStable = None → fst res = false)
    ∧ (fr <= 0 → res = (false, 0)).
Proof.
  intros lvl prev td fr lastStable now res. subst res.
  unfold detectProductionStop, PRODUCTION_STOP_THRESHOLD,
    PRODUCTION_STOP_DURATION.
  destruct (Js.ltb 0 fr) eqn:Ef.
  - apply ltb_lt in Ef. rewrite andb_true_r.
    destruct (Js.ltb (if Js.ltb 0 td then (lvl - prev) / td else 0) (1 # 10))
      eqn:Er; simpl.
    + split; [|split].
      * intros Hs. apply ltb_lt in Hs. split; [exact Ef|]. split.
        { intros Htd. apply ltb_lt in Htd. rewrite Htd in Er.
          by apply ltb_lt in Er. }
        destruct lastStable as [t0|]; simpl in *; [by exists t0|].
        exfalso. rewrite Z.sub_diag in Hs. vm_compute in Hs. discriminate Hs.
      * intros ->. simpl. rewrite Z.sub_diag. reflexivity.
      * intros H. lra.
    + split; [done|]. split; [done|]. intros H. lra.
  - rewrite andb_false_r. simpl. split; [done|]. split; done.
Qed.

Lemma production_stop_needs_thirty_minutes_witness :
  (0 < 2
   ∧ (0 < 1 → (50 - 50) / 1 < 1 # 10)
   ∧ ∃ t0, Some 0%Z = Some t0
           ∧ 30 < Js.minutes (31 * 60000 - t0)
           ∧ snd (detectProductionStop 50 50 1 2 (Some 0%Z) (31 * 60000))
             = Js.minutes (31 * 60000 - t0))
  ∧ fst (detectProductionStop 50 50 1 2 None (31 * 60000)) = false
  ∧ detectProductionStop 50 50 1 0 (Some 0%Z) (31 * 60000) = (false, 0).
Proof.
  destruct (production_stop_needs_thirty_minutes 50 50 1 2 (Some 0%Z)
              (31 * 60000)) as (H1 & _ & _).
  destruct (production_stop_needs_thirty_minutes 50 50 1 2 None
              (31 * 60000)) as (_ & H2 & _).
  destruct (production_stop_needs_thirty_minutes 50 50 1 0 (Some 0%Z)
              (31 * 60000)) as (_ & _ & H3).
  split; [apply H1; reflexivity|]. split; [apply H2; reflexivity|].
  apply H3. vm_compute. discriminate.
Defined.

(** ** What a finalization records *)







(** ** C7: drain conservation *)

(** The references of the active drains point into the store, and
    two vessels never share an active drain. *)
Definition wellFormedDrains (st : MonitoringState) : Prop :=
  (∀ k r, activeDrains st !! k = Some r → (r < length (drainStore st))%nat)
  ∧ (∀ k1 k2 r, activeDrains st !! k1 = Some r →
                activeDrains st !! k2 = Some r → k1 = k2).

(** The event that "start new drain" creates. *)
Definition startedDrain (id : string) (now : Z) (prev lvl fr : Q) : DrainEvent :=
  {| cauldronId := id; d_timestamp := now;
     levelBefore := prev; levelAfter := lvl;
     expectedDrainVolume := calculateExpectedDrainVolume prev lvl fr timeDiff;
     duration := timeDiff; refillRate := None; isActive := true |}.

(** The level of a vessel that the tick at [t] reads. *)
Definition levelAt (id : string) (hist : list HistoricalDataDto) (t : Z) : Q :=
  match nearestSample t hist with
  | Some p => Js.getOr (cauldron_levels p !! levelKey id) 0
  | None => 0
  end.

(** The drop condition of the vessel holds on each of the ticks;
    [last] is the level stored for the vessel before the first one. *)
Fixpoint dropsOnEveryTick (c : CauldronDto) (id : string)
    (hist : list HistoricalDataDto) (last : option Q) (times : list Z) : bool :=
  match times with
  | [] => true
  | t :: rest =>
      detectDrainStart c (Js.getOr last (levelAt id hist t)) (levelAt id hist t)
      && dropsOnEveryTick c id hist (Some (levelAt id hist t)) rest
  end.

Lemma wellFormedDrains_same st st' :
  activeDrains st' = activeDrains st → drainStore st' = drainStore st →
  wellFormedDrains st → wellFormedDrains st'.
Proof. unfold wellFormedDrains. intros -> ->. done. Qed.

Lemma activeDrainOf_same k st st' :
  activeDrains st' = activeDrains st → drainStore st' = drainStore st →
  activeDrainOf k st' = activeDrainOf k st.
Proof. unfold activeDrainOf. intros -> ->. done. Qed.

Lemma activeDrainOf_None k st :
  wellFormedDrains st →
  activeDrainOf k st = None → activeDrains st !! k = None.
Proof.
  intros [Hin _]. unfold activeDrainOf.
  destruct (activeDrains st !! k) as [r|] eqn:E; [|done]. simpl.
  destruct (drainStore st !! r) as [d|] eqn:Ed; [done|].
  apply lookup_ge_None in Ed. specialize (Hin k r E). lia.
Qed.

(** What the drain detection does to the active drains and the store. *)
Lemma drainDetection_drains c id tickets now dateKey prev lvl fr base st :
  let st' := fst (drainDetection c id tickets now dateKey prev lvl fr base st) in
  (activeDrains st' = activeDrains st ∧ drainStore st' = drainStore st)
  ∨ (activeDrainOf id st = None
     ∧ activeDrains st' = <[id := length (drainStore st)]> (activeDrains st)
     ∧ drainStore st' = drainStore st ++ [startedDrain id now prev lvl fr])
  ∨ (∃ ref d d', activeDrainOf id st = Some (ref, d)
       ∧ (activeDrains st' = activeDrains st
          ∨ activeDrains st' = delete id (activeDrains st))
       ∧ drainStore st' = <[ref := d']> (drainStore st)).
Proof.
  unfold drainDetection.
  destruct (detectDrainStart c prev lvl);
    destruct (activeDrainOf id st) as [[ref d]|] eqn:Ea.
  - right. right. exists ref, d, (extendedDrain d lvl fr).
    split; [done|]. split; [by left|reflexivity].
  - right. left. split; [done|]. split; reflexivity.
  - destruct (Js.leb _ _); [|by left].
    right. right. exists ref, d, (finalizedDrain now lvl d).
    split; [done|]. split.
    + right.
      by destruct (finalizeDrain_frame c id tickets now dateKey lvl base ref d st)
        as (_ & _ & _ & _ & H).
    + apply finalizeDrain_store.
  - by left.
Qed.

Lemma drainDetection_wellFormed c id tickets now dateKey prev lvl fr base st :
  wellFormedDrains st →
  wellFormedDrains
    (fst (drainDetection c id tickets now dateKey prev lvl fr base st)).
Proof.
  intros [Hin Hinj].
  destruct (drainDetection_drains c id tickets now dateKey prev lvl fr base st)
    as [[Ea Es]|[(Hnone & Ea & Es)|(ref & d & d' & Hsome & Ea & Es)]];
    cbv zeta in *.
  - by apply (wellFormedDrains_same st).
  - split.
    + intros k r. rewrite Ea, Es, length_app. simpl.
      destruct (decide (id = k)) as [<-|Hne].
      * rewrite lookup_insert_eq. intros [= <-]. lia.
      * rewrite lookup_insert_ne by done. intros H. apply Hin in H. lia.
    + intros k1 k2 r. rewrite Ea.
      destruct (decide (id = k1)) as [<-|H1];
        destruct (decide (id = k2)) as [<-|H2]; try done.
      * rewrite lookup_insert_eq, lookup_insert_ne by done.
        intros [= <-] H. apply Hin in H. lia.
      * rewrite lookup_insert_eq, lookup_insert_ne by done.
        intros H [= <-]. apply Hin in H. lia.
      * rewrite !lookup_insert_ne by done. apply Hinj.
  - split.
    + intros k r. rewrite Es, length_insert.
      destruct Ea as [->| ->]; [apply Hin|].
      intros H. apply lookup_delete_Some in H as [_ H]. by apply Hin in H.
    + intros k1 k2 r. destruct Ea as [->| ->]; [apply Hinj|].
      intros H1 H2. apply lookup_delete_Some in H1 as [_ H1].
      apply lookup_delete_Some in H2 as [_ H2]. by eapply Hinj.
Qed.

Lemma drainDetection_other c id' tickets now dateKey prev lvl fr base st id :
  wellFormedDrains st → id' ≠ id →
  activeDrainOf id
    (fst (drainDetection c id' tickets now dateKey prev lvl fr base st))
  = activeDrainOf id st.
Proof.
  intros [Hin Hinj] Hne.
  destruct (drainDetection_drains c id' tickets now dateKey prev lvl fr base st)
    as [[Ea Es]|[(Hnone & Ea & Es)|(ref & d & d' & Hsome & Ea & Es)]];
    cbv zeta in *.
  - by apply activeDrainOf_same.
  - unfold activeDrainOf. rewrite Ea, Es, lookup_insert_ne by done.
    destruct (activeDrains st !! id) as [r|] eqn:E; [|done]. simpl.
    rewrite lookup_app_l by (by eapply Hin). reflexivity.
  - apply activeDrainOf_lookup in Hsome as [Href _].
    unfold activeDrainOf. rewrite Es.
    assert (activeDrains
              (fst (drainDetection c id' tickets now dateKey prev lvl fr base st))
              !! id = activeDrains st !! id) as ->.
    { destruct Ea as [->| ->]; [done|]. by rewrite lookup_delete_ne. }
    destruct (activeDrains st !! id) as [r|] eqn:E; [|done]. simpl.
    rewrite list_lookup_insert_ne; [done|].
    intros <-. apply Hne. by eapply Hinj.
Qed.

(** A tick on which the drop condition holds starts a drain for a
    vessel without one and extends the one it has. *)
Lemma drainDetection_drop c id tickets now dateKey prev lvl fr base st :
  detectDrainStart c prev lvl = true →
  match activeDrainOf id st with
  | None =>
      activeDrainOf id
        (fst (drainDetection c id tickets now dateKey prev lvl fr base st))
      = Some (length (drainStore st), startedDrain id now prev lvl fr)
  | Some (ref, d0) =>
      activeDrainOf id
        (fst (drainDetection c id tickets now dateKey prev lvl fr base st))
      = Some (ref, extendedDrain d0 lvl fr)
  end.
Proof.
  intros Hdrop. unfold drainDetection. rewrite Hdrop.
  destruct (activeDrainOf id st) as [[ref d0]|] eqn:Ea.
  - by apply extendDrain_active.
  - unfold activeDrainOf, startDrain. simpl.
    rewrite lookup_insert_eq. simpl.
    rewrite list_lookup_middle by reflexivity. reflexivity.
Qed.

(** What the body of a vessel does to the drains and the last levels
    is what its drain detection does, and the new last level. *)
Lemma processCauldron_effect state hist tickets now levels dateKey st alerts c id :
  c_id c = Some id →
  skipped c = false →
  let lvl := Js.getOr (levels !! levelKey id) 0 in
  let prev := Js.getOr (lastLevels state !! id) lvl in
  let fr := calculateFillRate id hist 60 in
  let base := Js.getOr (baselineFillRates st !! id) fr in
  let rA := drainDetection c id tickets now dateKey prev lvl fr base
              (updateFillRate id fr st) in
  let st' :=
    fst (processCauldron state hist tickets now levels dateKey (st, alerts) c) in
  activeDrains st' = activeDrains (fst rA)
  ∧ drainStore st' = drainStore (fst rA)
  ∧ lastLevels st' = <[id := lvl]> (lastLevels st).
Proof.
  intros Hid Hskip. cbv zeta.
  rewrite (processCauldron_parts _ _ _ _ _ _ _ _ _ id Hid Hskip). cbv zeta.
  set (lvl := Js.getOr (levels !! levelKey id) 0).
  set (prev := Js.getOr (lastLevels state !! id) lvl).
  set (fr := calculateFillRate id hist 60).
  set (base := Js.getOr (baselineFillRates st !! id) fr).
  set (st1 := updateFillRate id fr st).
  set (rA := drainDetection c id tickets now dateKey prev lvl fr base st1).
  set (rG := productionStopCheck c id now prev lvl fr (fst rA)).
  set (r6 := overflowForecast c id now lvl fr (fst rG)).
  set (rL := criticalLevelCheck c id now prev lvl (fst r6)).
  destruct (updateFillRate_frame id fr st) as (L1 & _).
  destruct (drainDetection_frame c id tickets now dateKey prev lvl fr base st1)
    as (_ & LA & _).
  destruct (productionStopCheck_frame c id now prev lvl fr (fst rA))
    as (_ & LG & _ & _ & _ & AG).
  destruct (overflowForecast_frame c id now lvl fr (fst rG))
    as (_ & L6 & _ & _ & _ & A6).
  destruct (criticalLevelCheck_frame c id now prev lvl (fst r6))
    as (_ & LL & _ & _ & AL).
  pose proof (productionStopCheck_store c id now prev lvl fr (fst rA)) as SG.
  pose proof (overflowForecast_store c id now lvl fr (fst rG)) as S6.
  pose proof (criticalLevelCheck_store c id now prev lvl (fst r6)) as SL.
  cbv zeta in *. fold st1 in L1, LA. fold rA in LA, LG, AG, SG.
  fold rG in LG, AG, SG, L6, A6, S6. fold r6 in L6, A6, S6, LL, AL, SL.
  fold rL in LL, AL, SL.
  split; [|split].
  - rewrite <- AG, <- A6, <- AL. reflexivity.
  - rewrite <- SG, <- S6, <- SL. reflexivity.
  - change (<[id:=lvl]> (lastLevels (fst rL)) = <[id:=lvl]> (lastLevels st)).
    rewrite LL, L6, LG, LA, L1. reflexivity.
Qed.

Lemma processCauldron_other state hist tickets now levels dateKey acc c id :
  c_id c ≠ Some id →
  wellFormedDrains (fst acc) →
  let res := processCauldron state hist tickets now levels dateKey acc c in
  wellFormedDrains (fst res)
  ∧ activeDrainOf id (fst res) = activeDrainOf id (fst acc)
  ∧ lastLevels (fst res) !! id = lastLevels (fst acc) !! id.
Proof.
  intros Hne Hwf. cbv zeta.
  destruct (skipped c) eqn:Hskip; [by rewrite processCauldron_skipped|].
  destruct (c_id c) as [id'|] eqn:Hid;
    [|unfold skipped in Hskip; by rewrite Hid in Hskip].
  destruct acc as [st alerts].
  destruct (processCauldron_effect state hist tickets now levels dateKey st
              alerts c id' Hid Hskip) as (Ea & Es & El).
  cbv zeta in Ea, Es, El. simpl fst in Hwf.
  set (fr := calculateFillRate id' hist 60) in *.
  set (lvl := Js.getOr (levels !! levelKey id') 0) in *.
  set (prev := Js.getOr (lastLevels state !! id') lvl) in *.
  set (base := Js.getOr (baselineFillRates st !! id') fr) in *.
  assert (wellFormedDrains (updateFillRate id' fr st)) as Hwf1.
  { eapply wellFormedDrains_same; [| |exact Hwf].
    - apply updateFillRate_activeDrains.
    - apply updateFillRate_store. }
  split; [|split].
  - eapply wellFormedDrains_same; [exact Ea|exact Es|].
    by apply drainDetection_wellFormed.
  - rewrite (activeDrainOf_same id _ _ Ea Es).
    rewrite drainDetection_other by (done || congruence).
    apply activeDrainOf_same;
      [apply updateFillRate_activeDrains|apply updateFillRate_store].
  - rewrite El. simpl. rewrite lookup_insert_ne; [done|congruence].
Qed.

Lemma vesselLoop_other state hist tickets now levels dateKey id cs :
  (∀ c, c ∈ cs → c_id c ≠ Some id) →
  ∀ acc,
    wellFormedDrains (fst acc) →
    let res :=
      fold_left (processCauldron state hist tickets now levels dateKey) cs acc in
    wellFormedDrains (fst res)
    ∧ activeDrainOf id (fst res) = activeDrainOf id (fst acc)
    ∧ lastLevels (fst res) !! id = lastLevels (fst acc) !! id.
Proof.
  induction cs as [|c cs IH]; intros Hcs acc Hwf; simpl; [done|].
  destruct (processCauldron_other state hist tickets now levels dateKey acc c id)
    as (W1 & A1 & L1); [apply Hcs; by left|exact Hwf|].
  destruct (IH (λ c' Hc', Hcs c' (list_elem_of_further _ _ _ Hc'))
              (processCauldron state hist tickets now levels dateKey acc c) W1)
    as (W2 & A2 & L2).
  cbv zeta in *. split; [exact W2|]. split; congruence.
Qed.

Lemma processCauldron_self state hist tickets now levels dateKey st alerts c id :
  c_id c = Some id →
  wellFormedDrains st →
  let lvl := Js.getOr (levels !! levelKey id) 0 in
  let prev := Js.getOr (lastLevels state !! id) lvl in
  let fr := calculateFillRate id hist 60 in
  detectDrainStart c prev lvl = true →
  let st' :=
    fst (processCauldron state hist tickets now levels dateKey (st, alerts) c) in
  wellFormedDrains st'
  ∧ lastLevels st' !! id = Some lvl
  ∧ match activeDrainOf id st with
    | None => ∃ ref, activeDrainOf id st'
                     = Some (ref, startedDrain id now prev lvl fr)
    | Some (ref, d0) =>
        activeDrainOf id st' = Some (ref, extendedDrain d0 lvl fr)
    end.
Proof.
  intros Hid Hwf lvl prev fr Hdrop st'. subst st'.
  assert (skipped c = false) as Hskip.
  { unfold detectDrainStart in Hdrop. unfold skipped.
    by destruct (Js.noString (c_id c) || Js.falsy (max_volume c)). }
  destruct (processCauldron_effect state hist tickets now levels dateKey st
              alerts c id Hid Hskip) as (Ea & Es & El).
  cbv zeta in Ea, Es, El. fold lvl in Ea, Es, El. fold prev in Ea, Es.
  fold fr in Ea, Es.
  set (base := Js.getOr (baselineFillRates st !! id) fr) in *.
  assert (wellFormedDrains (updateFillRate id fr st)) as Hwf1.
  { eapply wellFormedDrains_same; [| |exact Hwf].
    - apply updateFillRate_activeDrains.
    - apply updateFillRate_store. }
  assert (activeDrainOf id (updateFillRate id fr st) = activeDrainOf id st)
    as Hsame.
  { apply activeDrainOf_same;
      [apply updateFillRate_activeDrains|apply updateFillRate_store]. }
  split; [|split].
  - eapply wellFormedDrains_same; [exact Ea|exact Es|].
    by apply drainDetection_wellFormed.
  - rewrite El. apply lookup_insert_eq.
  - rewrite (activeDrainOf_same id _ _ Ea Es).
    pose proof (drainDetection_drop c id tickets now dateKey prev lvl fr base
                  (updateFillRate id fr st) Hdrop) as H.
    rewrite Hsame in H.
    destruct (activeDrainOf id st) as [[ref d0]|]; [exact H|].
    eexists. exact H.
Qed.

Lemma processCauldron_wellFormed state hist tickets now levels dateKey acc c :
  wellFormedDrains (fst acc) →
  wellFormedDrains
    (fst (processCauldron state hist tickets now levels dateKey acc c)).
Proof.
  intros Hwf.
  destruct (skipped c) eqn:Hskip; [by rewrite processCauldron_skipped|].
  destruct (c_id c) as [id|] eqn:Hid;
    [|unfold skipped in Hskip; by rewrite Hid in Hskip].
  destruct acc as [st alerts].
  destruct (processCauldron_effect state hist tickets now levels dateKey st
              alerts c id Hid Hskip) as (Ea & Es & _).
  cbv zeta in Ea, Es.
  eapply wellFormedDrains_same; [exact Ea|exact Es|].
  apply drainDetection_wellFormed.
  eapply wellFormedDrains_same; [| |exact Hwf].
  - apply updateFillRate_activeDrains.
  - apply updateFillRate_store.
Qed.

Lemma nearestSample_nonempty now hist :
  hist ≠ [] → ∃ p, nearestSample now hist = Some p.
Proof.
  intros Hne. pose proof (nearestLoop_keeps now hist [] None eq_refl) as H.
  unfold nearestSample.
  destruct (fold_left (nearestStep now) hist None) as [[diff p]|];
    [by exists p|]. simpl in H. done.
Qed.

Lemma monitorRealTime_state tz cs hist tickets now st couriers network p :
  nearestSample now hist = Some p →
  snd (monitorRealTime tz cs hist tickets now st couriers network)
  = fst (fold_left
           (processCauldron st hist tickets now (cauldron_levels p) (dayOf now))
           cs (st, [])).
Proof.
  intros Hp. unfold monitorRealTime. rewrite Hp.
  by destruct (fold_left _ cs (st, [])).
Qed.

Lemma monitorRealTime_wellFormed tz cs hist tickets now st couriers network :
  wellFormedDrains st →
  wellFormedDrains
    (snd (monitorRealTime tz cs hist tickets now st couriers network)).
Proof.
  intros Hwf. destruct (nearestSample now hist) as [p|] eqn:Hp.
  - rewrite (monitorRealTime_state _ _ _ _ _ _ _ _ p Hp).
    assert (∀ acc, wellFormedDrains (fst acc) →
              wellFormedDrains
                (fst (fold_left
                        (processCauldron st hist tickets now (cauldron_levels p)
                           (dayOf now)) cs acc))) as Hloop.
    { induction cs as [|c cs IH]; intros acc Hacc; [exact Hacc|].
      simpl. apply IH. by apply processCauldron_wellFormed. }
    by apply (Hloop (st, [])).
  - unfold monitorRealTime. by rewrite Hp.
Qed.

Lemma runTicks_state tz cs hist tickets t rest st :
  snd (runTicks tz cs hist tickets (t :: rest) st)
  = snd (runTicks tz cs hist tickets rest
           (snd (monitorRealTime tz cs hist tickets t st None None))).
Proof.
  simpl. destruct (monitorRealTime _ _ _ _ _ _ _ _) as [alerts st1].
  by destruct (runTicks _ _ _ _ _ _).
Qed.

(** A tick on which the vessel's drop condition holds, for a vessel
    that is the only one of its id in the list. *)
Lemma tick_with_drop tz before c after id hist tickets t st couriers network :
  c_id c = Some id →
  (∀ c', c' ∈ before ++ after → c_id c' ≠ Some id) →
  hist ≠ [] →
  wellFormedDrains st →
  let lvl := levelAt id hist t in
  let prev := Js.getOr (lastLevels st !! id) lvl in
  let fr := calculateFillRate id hist 60 in
  detectDrainStart c prev lvl = true →
  let st1 :=
    snd (monitorRealTime tz (before ++ c :: after) hist tickets t st
           couriers network) in
  wellFormedDrains st1
  ∧ lastLevels st1 !! id = Some lvl
  ∧ match activeDrainOf id st with
    | None => ∃ ref, activeDrainOf id st1
                     = Some (ref, startedDrain id t prev lvl fr)
    | Some (ref, d0) =>
        activeDrainOf id st1 = Some (ref, extendedDrain d0 lvl fr)
    end.
Proof.
  intros Hid Hothers Hhist Hwf lvl prev fr Hdrop st1. subst st1.
  destruct (nearestSample_nonempty t hist Hhist) as [p Hp].
  rewrite (monitorRealTime_state _ _ _ _ _ _ _ _ p Hp).
  assert (lvl = Js.getOr (cauldron_levels p !! levelKey id) 0) as Hlvl.
  { unfold lvl, levelAt. by rewrite Hp. }
  rewrite fold_left_app. simpl fold_left.
  set (f := processCauldron st hist tickets t (cauldron_levels p) (dayOf t)).
  destruct (vesselLoop_other st hist tickets t (cauldron_levels p) (dayOf t) id
              before) with (acc := (st, @nil Alert)) as (W1 & A1 & _).
  { intros c' Hc'. apply Hothers, elem_of_app. by left. }
  { exact Hwf. }
  cbv zeta in W1, A1. fold f in W1, A1.
  destruct (fold_left f before (st, [])) as [s1 al1]. simpl fst in W1, A1.
  destruct (processCauldron_self st hist tickets t (cauldron_levels p) (dayOf t)
              s1 al1 c id Hid W1) as (W2 & L2 & M2).
  { rewrite <- Hlvl. exact Hdrop. }
  cbv zeta in W2, L2, M2. rewrite <- Hlvl in L2, M2. fold prev fr in M2.
  fold f in W2, L2, M2. rewrite A1 in M2.
  destruct (vesselLoop_other st hist tickets t (cauldron_levels p) (dayOf t) id
              after) with (acc := f (s1, al1) c) as (W3 & A3 & L3).
  { intros c' Hc'. apply Hothers, elem_of_app. by right. }
  { exact W2. }
  cbv zeta in W3, A3, L3. fold f in W3, A3, L3.
  split; [exact W3|]. split; [by rewrite L3|].
  destruct (activeDrainOf id st) as [[ref d0]|].
  - by rewrite A3.
  - destruct M2 as [ref M2]. exists ref. by rewrite A3.
Qed.

Lemma last_cons {A} (l : list A) (a d : A) :
  List.last (a :: l) d = List.last l a.
Proof.
  revert a d. induction l as [|b l IH]; intros a d; [done|].
  change (List.last (b :: l) d = List.last (b :: l) a).
  by rewrite !IH.
Qed.

Lemma last_fmap {A B} (f : A → B) (l : list A) (a : A) :
  List.last (f <$> l) (f a) = f (List.last l a).
Proof.
  revert a. induction l as [|b l IH]; intros a; [done|].
  rewrite fmap_cons, !last_cons. apply IH.
Qed.

Lemma inject_succ (n : nat) :
  inject_Z (Z.of_nat (S n)) == 1 + inject_Z (Z.of_nat n).
Proof.
  rewrite Nat2Z.inj_succ. unfold Z.succ. rewrite inject_Z_plus.
  change (inject_Z 1) with 1. ring.
Qed.

(** The ticks that follow the start of a drain, each with a drop:
    the drain keeps its reference, its vessel, its start and its level
    before; its level after is the last level read and its duration
    grows by one minute a tick. *)
Lemma extension_run tz before c after id hist tickets :
  c_id c = Some id →
  (∀ c', c' ∈ before ++ after → c_id c' ≠ Some id) →
  hist ≠ [] →
  ∀ times st ref d0 l,
    wellFormedDrains st →
    activeDrainOf id st = Some (ref, d0) →
    lastLevels st !! id = Some l →
    dropsOnEveryTick c id hist (Some l) times = true →
    ∃ d,
      activeDrainOf id
        (snd (runTicks tz (before ++ c :: after) hist tickets times st))
      = Some (ref, d)
      ∧ cauldronId d = cauldronId d0
      ∧ d_timestamp d = d_timestamp d0
      ∧ isActive d = isActive d0
      ∧ levelBefore d = levelBefore d0
      ∧ levelAfter d = List.last (levelAt id hist <$> times) (levelAfter d0)
      ∧ duration d == duration d0 + inject_Z (Z.of_nat (length times))
      ∧ (times ≠ []
         ∨ expectedDrainVolume d0
           == (levelBefore d0 - levelAfter d0)
              + calculateFillRate id hist 60 * duration d0 →
         expectedDrainVolume d
         == (levelBefore d - levelAfter d)
            + calculateFillRate id hist 60 * duration d).
Proof.
  intros Hid Hothers Hhist.
  induction times as [|t rest IH]; intros st ref d0 l Hwf Hact Hl Hdrops.
  - exists d0. repeat split; try done.
    + change (inject_Z (Z.of_nat (length (@nil Z)))) with 0. ring.
    + by intros [H|H].
  - change (detectDrainStart c (Js.getOr (Some l) (levelAt id hist t))
              (levelAt id hist t)
            && dropsOnEveryTick c id hist (Some (levelAt id hist t)) rest
            = true) in Hdrops.
    apply andb_prop in Hdrops as [Hdrop Hrest]. rewrite <- Hl in Hdrop.
    destruct (tick_with_drop tz before c after id hist tickets t st None None
                Hid Hothers Hhist Hwf Hdrop) as (W1 & L1 & M1).
    rewrite Hact in M1.
    destruct (IH _ ref _ _ W1 M1 L1 Hrest)
      as (d & Ha & Hc & Ht & Hi & Hb & Hla & Hdur & Hcons).
    exists d. rewrite runTicks_state.
    split; [exact Ha|]. split; [exact Hc|]. split; [exact Ht|].
    split; [exact Hi|]. split; [exact Hb|]. split; [|split].
    + rewrite fmap_cons, last_cons. exact Hla.
    + rewrite Hdur.
      change (length (t :: rest)) with (S (length rest)).
      rewrite inject_succ.
      change (duration (extendedDrain d0 (levelAt id hist t)
                          (calculateFillRate id hist 60)))
        with (duration d0 + 1). ring.
    + intros _. apply Hcons. right.
      unfold extendedDrain, calculateExpectedDrainVolume. simpl. reflexivity.
Qed.

(** Every drain of the store is of the vessel under which it is
    active, and its expected volume is the drop of its levels plus
    what its vessel filled meanwhile. *)
Definition conserved (hist : list HistoricalDataDto) (d : DrainEvent) : Prop :=
  expectedDrainVolume d
  == (levelBefore d - levelAfter d)
     + calculateFillRate (cauldronId d) hist 60 * duration d.

Definition conservedDrains (hist : list HistoricalDataDto)
    (st : MonitoringState) : Prop :=
  wellFormedDrains st
  ∧ (∀ k r d, activeDrains st !! k = Some r → drainStore st !! r = Some d →
              cauldronId d = k)
  ∧ (∀ d, d ∈ drainStore st → conserved hist d).

Lemma conservedDrains_same hist st st' :
  activeDrains st' = activeDrains st → drainStore st' = drainStore st →
  conservedDrains hist st → conservedDrains hist st'.
Proof.
  unfold conservedDrains, wellFormedDrains. intros -> ->. done.
Qed.

Lemma drainDetection_conservedDrains c id tickets now dateKey prev lvl base hist st :
  conservedDrains hist st →
  conservedDrains hist
    (fst (drainDetection c id tickets now dateKey prev lvl
            (calculateFillRate id hist 60) base st)).
Proof.
  intros (Hwf & Hkey & Hcons).
  split; [by apply drainDetection_wellFormed|].
  destruct Hwf as [Hin Hinj].
  unfold drainDetection.
  destruct (detectDrainStart c prev lvl);
    destruct (activeDrainOf id st) as [[ref d0]|] eqn:Ea; try done.
  - (* extended *)
    apply activeDrainOf_lookup in Ea as [Hk Hs].
    pose proof (Hkey _ _ _ Hk Hs) as Hd0.
    split.
    + intros k r d Hkr Hd. simpl in Hkr, Hd.
      apply list_lookup_insert_Some in Hd as [(<- & <- & _)|[Hne Hd]].
      * simpl. rewrite Hd0. by eapply Hinj.
      * by eapply Hkey.
    + intros d Hd. apply list_elem_of_lookup in Hd as [i Hd]. simpl in Hd.
      apply list_lookup_insert_Some in Hd as [(_ & <- & _)|[_ Hd]].
      * unfold conserved, extendedDrain, calculateExpectedDrainVolume. simpl.
        rewrite Hd0. reflexivity.
      * apply Hcons. by eapply list_elem_of_lookup_2.
  - (* started *)
    split.
    + intros k r d Hkr Hd. simpl in Hkr, Hd.
      apply lookup_insert_Some in Hkr as [[<- <-]|[Hne Hkr]].
      * rewrite list_lookup_middle in Hd by reflexivity. by simplify_eq.
      * rewrite lookup_app_l in Hd by (by eapply Hin). by eapply Hkey.
    + intros d Hd. simpl in Hd. apply elem_of_app in Hd as [Hd|Hd].
      * by apply Hcons.
      * apply list_elem_of_singleton in Hd as ->.
        unfold conserved, calculateExpectedDrainVolume. simpl. reflexivity.
  - (* finalized or left as it is *)
    destruct (Js.leb _ _); [|done].
    apply activeDrainOf_lookup in Ea as [Hk Hs].
    destruct (finalizeDrain_frame c id tickets now dateKey lvl base ref d0 st)
      as (_ & _ & _ & _ & Hdel).
    pose proof (finalizeDrain_store c id tickets now dateKey lvl base ref d0 st)
      as Hst.
    rewrite Hdel, Hst. split.
    + intros k r d Hkr Hd. apply lookup_delete_Some in Hkr as [Hne Hkr].
      apply list_lookup_insert_Some in Hd as [(<- & <- & _)|[_ Hd]].
      * exfalso. apply Hne. by eapply Hinj.
      * by eapply Hkey.
    + intros d Hd. apply list_elem_of_lookup in Hd as [i Hd].
      apply list_lookup_insert_Some in Hd as [(_ & <- & _)|[_ Hd]].
      * change (conserved hist d0). apply Hcons.
        by eapply list_elem_of_lookup_2.
      * apply Hcons. by eapply list_elem_of_lookup_2.
Qed.

Lemma processCauldron_conservedDrains state hist tickets now levels dateKey acc c :
  conservedDrains hist (fst acc) →
  conservedDrains hist
    (fst (processCauldron state hist tickets now levels dateKey acc c)).
Proof.
  intros Hinv.
  destruct (skipped c) eqn:Hskip; [by rewrite processCauldron_skipped|].
  destruct (c_id c) as [id|] eqn:Hid;
    [|unfold skipped in Hskip; by rewrite Hid in Hskip].
  destruct acc as [st alerts].
  destruct (processCauldron_effect state hist tickets now levels dateKey st
              alerts c id Hid Hskip) as (Ea & Es & _).
  cbv zeta in Ea, Es.
  eapply conservedDrains_same; [exact Ea|exact Es|].
  apply drainDetection_conservedDrains.
  eapply conservedDrains_same; [| |exact Hinv].
  - apply updateFillRate_activeDrains.
  - apply updateFillRate_store.
Qed.

Lemma monitorRealTime_conservedDrains tz cs hist tickets now st couriers network :
  conservedDrains hist st →
  conservedDrains hist
    (snd (monitorRealTime tz cs hist tickets now st couriers network)).
Proof.
  intros Hinv. destruct (nearestSample now hist) as [p|] eqn:Hp.
  - rewrite (monitorRealTime_state _ _ _ _ _ _ _ _ p Hp).
    assert (∀ acc, conservedDrains hist (fst acc) →
              conservedDrains hist
                (fst (fold_left
                        (processCauldron st hist tickets now (cauldron_levels p)
                           (dayOf now)) cs acc))) as Hloop.
    { induction cs as [|c cs IH]; intros acc Hacc; [exact Hacc|].
      simpl. apply IH. by apply processCauldron_conservedDrains. }
    by apply (Hloop (st, [])).
  - unfold monitorRealTime. by rewrite Hp.
Qed.

Lemma runTicks_conservedDrains tz cs hist tickets times :
  ∀ st, conservedDrains hist st →
        conservedDrains hist (snd (runTicks tz cs hist tickets times st)).
Proof.
  induction times as [|t rest IH]; intros st Hinv; [exact Hinv|].
  rewrite runTicks_state. apply IH. by apply monitorRealTime_conservedDrains.
Qed.

Lemma initial_conservedDrains hist :
  conservedDrains hist initializeMonitoringState.
Proof.
  split; [split|split].
  - intros k r H. change ((∅ : gmap string DrainRef) !! k = Some r) in H.
    by rewrite lookup_empty in H.
  - intros k1 k2 r H. change ((∅ : gmap string DrainRef) !! k1 = Some r) in H.
    by rewrite lookup_empty in H.
  - intros k r d H. change ((∅ : gmap string DrainRef) !! k = Some r) in H.
    by rewrite lookup_empty in H.
  - intros d H. by apply elem_of_nil in H.
Qed.

(** C7 (drain conservation).  The expected volume of a drain is the
    drop of its levels plus what the vessel filled meanwhile:
    (1) [calculateExpectedDrainVolume L0 L1 r d] is [(L0 - L1) + r * d];
    (2) for a vessel that is the only one of its id in the vessel list
    and a history that is not empty, a tick on which the level of the
    vessel drops, [detectDrainStart] holding between the level stored
    by the previous tick (the level read, when none is stored) and the
    level read by this one, starts a drain
    for a vessel without an active one:
    a drain of this vessel, started at this tick, from the stored level
    to the level read, of duration 1, its expected volume being that
    drop plus the fill rate of this tick; and it extends the drain the
    vessel has: vessel, start and level before stay, the level after is
    the level read, the duration grows by 1, and the expected volume is
    recomputed from the level before, the level read, the fill rate of
    this tick and the new duration;
    (3) over a run of ticks [t0 :: rest] on a fixed history, with a drop
    on each of them and no active drain before, the vessel has an
    active drain that started at [t0], its level before is the level
    [L0] stored before [t0], its level after the level [L1] read by the
    last tick, its duration the number [n] of ticks, and its expected
    volume is [(L0 - L1) + r * n], [r] the fill rate of this vessel;
    (4) after any run from the initial state on a fixed history, every
    drain of the store, active or finalized, has as expected volume the
    drop of its levels plus the fill rate of its own vessel times its
    duration, and the references of the active drains are well formed,
    as (2) and (3) assume. *)
Theorem drain_conservation :
  (∀ L0 L1 r d, calculateExpectedDrainVolume L0 L1 r d == (L0 - L1) + r * d)
  ∧ (∀ tz before c after id hist tickets t st couriers network,
       c_id c = Some id →
       (∀ c', c' ∈ before ++ after → c_id c' ≠ Some id) →
       hist ≠ [] →
       wellFormedDrains st →
       let lvl := levelAt id hist t in
       let prev := Js.getOr (lastLevels st !! id) lvl in
       let r := calculateFillRate id hist 60 in
       detectDrainStart c prev lvl = true →
       let st1 :=
         snd (monitorRealTime tz (before ++ c :: after) hist tickets t st
                couriers network) in
       lastLevels st1 !! id = Some lvl
       ∧ match activeDrainOf id st with
         | None =>
             ∃ ref d,
               activeDrainOf id st1 = Some (ref, d)
               ∧ cauldronId d = id
               ∧ d_timestamp d = t
               ∧ isActive d = true
               ∧ levelBefore d = prev
               ∧ levelAfter d = lvl
               ∧ duration d = 1
               ∧ expectedDrainVolume d == (prev - lvl) + r * 1
         | Some (ref, d0) =>
             ∃ d,
               activeDrainOf id st1 = Some (ref, d)
               ∧ cauldronId d = cauldronId d0
               ∧ d_timestamp d = d_timestamp d0
               ∧ isActive d = isActive d0
               ∧ levelBefore d = levelBefore d0
               ∧ levelAfter d = lvl
               ∧ duration d = duration d0 + 1
               ∧ expectedDrainVolume d
                 == (levelBefore d0 - lvl) + r * (duration d0 + 1)
         end)
  ∧ (∀ tz before c after id hist tickets t0 rest st,
       c_id c = Some id →
       (∀ c', c' ∈ before ++ after → c_id c' ≠ Some id) →
       hist ≠ [] →
       wellFormedDrains st →
       activeDrainOf id st = None →
       dropsOnEveryTick c id hist (lastLevels st !! id) (t0 :: rest) = true →
       let L0 := Js.getOr (lastLevels st !! id) (levelAt id hist t0) in
       let L1 := levelAt id hist (List.last rest t0) in
       let n := inject_Z (Z.of_nat (length (t0 :: rest))) in
       let r := calculateFillRate id hist 60 in
       ∃ ref d,
         activeDrainOf id
           (snd (runTicks tz (before ++ c :: after) hist tickets (t0 :: rest) st))
         = Some (ref, d)
         ∧ cauldronId d = id
         ∧ d_timestamp d = t0
         ∧ isActive d = true
         ∧ levelBefore d = L0
         ∧ levelAfter d = L1
         ∧ duration d == n
         ∧ expectedDrainVolume d == (L0 - L1) + r * n)
  ∧ (∀ tz cs hist tickets times,
       let st :=
         snd (runTicks tz cs hist tickets times initializeMonitoringState) in
       wellFormedDrains st
       ∧ ∀ d, d ∈ drainStore st →
              expectedDrainVolume d
              == (levelBefore d - levelAfter d)
                 + calculateFillRate (cauldronId d) hist 60 * duration d).
Proof.
  split; [|split; [|split]].
  - intros L0 L1 r d. unfold calculateExpectedDrainVolume. reflexivity.
  - intros tz before c after id hist tickets t st couriers network
      Hid Hothers Hhist Hwf lvl prev r Hdrop st1.
    destruct (tick_with_drop tz before c after id hist tickets t st couriers
                network Hid Hothers Hhist Hwf Hdrop) as (_ & L1 & M1).
    fold lvl prev r st1 in L1, M1. split; [exact L1|].
    destruct (activeDrainOf id st) as [[ref d0]|].
    + exists (extendedDrain d0 lvl r). split; [exact M1|].
      repeat split; try reflexivity.
    + destruct M1 as [ref M1]. exists ref, (startedDrain id t prev lvl r).
      split; [exact M1|]. repeat split; try reflexivity.
  - intros tz before c after id hist tickets t0 rest st
      Hid Hothers Hhist Hwf Hnone Hdrops L0 L1 n r.
    change (detectDrainStart c L0 (levelAt id hist t0)
            && dropsOnEveryTick c id hist (Some (levelAt id hist t0)) rest
            = true) in Hdrops.
    apply andb_prop in Hdrops as [Hdrop Hrest].
    destruct (tick_with_drop tz before c after id hist tickets t0 st None None
                Hid Hothers Hhist Hwf Hdrop) as (W1 & Hl1 & M1).
    rewrite Hnone in M1. destruct M1 as [ref M1]. fold L0 r in M1.
    destruct (extension_run tz before c after id hist tickets Hid Hothers Hhist
                rest _ ref _ _ W1 M1 Hl1 Hrest)
      as (d & Ha & Hc & Ht & Hi & Hb & Hla & Hdur & Hcons).
    exists ref, d. rewrite runTicks_state.
    assert (levelAfter d = L1) as HL1.
    { rewrite Hla. apply (last_fmap (levelAt id hist)). }
    assert (duration d == n) as Hn.
    { rewrite Hdur. unfold n.
      change (length (t0 :: rest)) with (S (length rest)).
      rewrite inject_succ. reflexivity. }
    split; [exact Ha|]. split; [exact Hc|]. split; [exact Ht|].
    split; [exact Hi|]. split; [exact Hb|]. split; [exact HL1|].
    split; [exact Hn|].
    rewrite Hcons.
    + rewrite Hb, HL1, Hn. reflexivity.
    + right. unfold startedDrain, calculateExpectedDrainVolume. simpl.
      reflexivity.
  - intros tz cs hist tickets times st.
    destruct (runTicks_conservedDrains tz cs hist tickets times _
                (initial_conservedDrains hist)) as (Hwf & _ & Hcons).
    split; [exact Hwf|]. intros d Hd. exact (Hcons d Hd).
Qed.

(** C7 on the staged drain: after the tick of 00:00 has stored the
    level 60, the level drops on each of the ticks 00:01 to 00:05, to
    26; the fill rate of the history is 2 a minute, and the expected
    volume of the drain is (60 - 26) + 2 * 5 = 44. *)
Lemma drain_conservation_witness :
  ∃ ref d,
    activeDrainOf "cauldron_001"
      (snd (runTicks 0 ([] ++ vessel 100 :: []) stagedDrainHistory []
              (60000 :: [120000; 180000; 240000; 300000])%Z
              (snd (stagedDrainRun 1))))
    = Some (ref, d)
    ∧ cauldronId d = "cauldron_001"
    ∧ d_timestamp d = 60000%Z
    ∧ isActive d = true
    ∧ levelBefore d = 60
    ∧ levelAfter d = 26
    ∧ duration d == 5
    ∧ expectedDrainVolume d == 44.
Proof.
  destruct (proj1 (proj2 (proj2 drain_conservation))
              0%Z [] (vessel 100) [] "cauldron_001" stagedDrainHistory []
              60000%Z [120000; 180000; 240000; 300000]%Z
              (snd (stagedDrainRun 1)))
    as (ref & d & Ha & Hc & Ht & Hi & Hb & Hl & Hn & He).
  - reflexivity.
  - intros c' Hc'. by apply elem_of_nil in Hc'.
  - discriminate.
  - apply (proj2 (proj2 (proj2 drain_conservation))
             0%Z [vessel 100] stagedDrainHistory [] (minutesFrom 0 1)).
  - vm_compute. reflexivity.
  - vm_compute. reflexivity.
  - assert (Js.getOr (lastLevels (snd (stagedDrainRun 1)) !! "cauldron_001")
              (levelAt "cauldron_001" stagedDrainHistory 60000) = 60) as E0
      by (vm_compute; reflexivity).
    assert (levelAt "cauldron_001" stagedDrainHistory
              (List.last [120000; 180000; 240000; 300000]%Z 60000%Z) = 26) as E1
      by (vm_compute; reflexivity).
    assert (calculateFillRate "cauldron_001" stagedDrainHistory 60 == 2) as Er
      by (vm_compute; reflexivity).
    exists ref, d. rewrite E0, E1, Er in He. rewrite E0 in Hb. rewrite E1 in Hl.
    split; [exact Ha|]. split; [exact Hc|]. split; [exact Ht|].
    split; [exact Hi|]. split; [exact Hb|]. split; [exact Hl|].
    split; [exact Hn|]. rewrite He. reflexivity.
Defined.
